(** * Crawl-and-analyze pipeline: a shallow embedding

  The development follows the Python sources
  [src/crawler/element_parser.py], [src/crawler/enhanced_analyzer.py],
  [src/crawler/selenium_crawler.py], [src/utils/config.py] and the depth
  option of [scripts/run_crawler.py].  Python dictionaries are [gmap]s, the
  visited set is a [gset], Python integers are [Z].  A Python string is
  the [string] of its code points, for text whose code points are below
  256 (Latin-1): [len] is [String.length], and [lower], [strip] and
  [split] act as Python's do on that range.  Selenium, the browser and
  the web are collaborators: they appear as plain data
  ([Selenium.WebElement], [Selenium.Page]) and as the oracle
  [Selenium.Web], over which the properties are quantified; so is
  [urllib.parse.urlparse], whose answers differ between Python versions
  ([UrlLib.Parser]). *)

From Stdlib Require Import ZArith String Ascii List Bool Lia DecimalString Sorted.
From stdpp Require Import base option strings gmap list.

Local Open Scope string_scope.
Local Open Scope Z_scope.

(** ** Python string operations used by the sources *)
Module PyStr.

(** The code points below 256 that [str.lower] changes: A to Z, and the
    capital letters from U+00C0 to U+00DE without the sign U+00D7. *)
Definition is_upper (c : ascii) : bool :=
  let n := nat_of_ascii c in
  (((65 <=? n) && (n <=? 90))
   || ((192 <=? n) && (n <=? 222) && negb (n =? 215)))%nat.

Definition lower_char (c : ascii) : ascii :=
  if is_upper c then ascii_of_nat (nat_of_ascii c + 32) else c.

(** [s.lower()] *)
Fixpoint lower (s : string) : string :=
  match s with
  | EmptyString => EmptyString
  | String c s' => String (lower_char c) (lower s')
  end.

(** Whether [p] is an initial segment of [s]. *)
Fixpoint has_prefix (p s : string) : bool :=
  match p, s with
  | EmptyString, _ => true
  | String _ _, EmptyString => false
  | String a p', String b s' => Ascii.eqb a b && has_prefix p' s'
  end.

(** [s.startswith(p)] *)
Definition startswith (s p : string) : bool := has_prefix p s.

(** [needle in hay] *)
Fixpoint contains (needle hay : string) : bool :=
  if has_prefix needle hay then true
  else match hay with
       | EmptyString => false
       | String _ hay' => contains needle hay'
       end.

Fixpoint drop (n : nat) (s : string) : string :=
  match n, s with
  | O, _ => s
  | S _, EmptyString => EmptyString
  | S n', String _ s' => drop n' s'
  end.

(** [s.endswith(suf)] *)
Definition endswith (s suf : string) : bool :=
  (String.length suf <=? String.length s)%nat
  && String.eqb (drop (String.length s - String.length suf) s) suf.

(** Python's white space below 256: tab, LF, VT, FF, CR, FS, GS, RS, US,
    space, NEL (U+0085) and the no-break space (U+00A0). *)
Definition is_space (c : ascii) : bool :=
  let n := nat_of_ascii c in
  (((9 <=? n) && (n <=? 13)) || ((28 <=? n) && (n <=? 32))
   || (n =? 133) || (n =? 160))%nat.

Fixpoint lstrip (s : string) : string :=
  match s with
  | EmptyString => EmptyString
  | String c s' => if is_space c then lstrip s' else s
  end.

Fixpoint rev_onto (s acc : string) : string :=
  match s with
  | EmptyString => acc
  | String c s' => rev_onto s' (String c acc)
  end.

Definition rev (s : string) : string := rev_onto s EmptyString.

Definition rstrip (s : string) : string := rev (lstrip (rev s)).

(** [s.strip()] *)
Definition strip (s : string) : string := rstrip (lstrip s).

Fixpoint take_word (s : string) : string :=
  match s with
  | EmptyString => EmptyString
  | String c s' => if is_space c then EmptyString else String c (take_word s')
  end.

(** The first item of [s.split()], or the empty string when there is none. *)
Definition first_token (s : string) : string := take_word (lstrip s).

(** [s.replace("'", "\\'")] *)
Fixpoint escape_quotes (s : string) : string :=
  match s with
  | EmptyString => EmptyString
  | String c s' =>
      if Ascii.eqb c "'"%char
      then String "\"%char (String "'"%char (escape_quotes s'))
      else String c (escape_quotes s')
  end.

(** [x in [a, b, ...]] on strings *)
Definition in_list (x : string) (l : list string) : bool :=
  existsb (String.eqb x) l.

(** [any(k in s for k in keywords)] *)
Definition any_in (keywords : list string) (s : string) : bool :=
  existsb (fun k => contains k s) keywords.

(** Truth value of a string, and of [None]-or-string. *)
Definition nonempty (s : string) : bool :=
  match s with EmptyString => false | String _ _ => true end.

Definition truthy (o : option string) : bool :=
  match o with Some s => nonempty s | None => false end.

(** [o or d] *)
Definition or_else (o : option string) (d : string) : string :=
  match o with
  | Some s => if nonempty s then s else d
  | None => d
  end.

End PyStr.

(** ** Exceptions as values *)
Inductive outcome (A : Type) : Type :=
| Return (a : A)
| Raise (msg : string).
Arguments Return {A} a.
Arguments Raise {A} msg.

(** ** The automation layer, as far as the sources look at it *)
Module Selenium.

(** A rendered DOM node that stays attached to its page.  [is_enabled]
    is [None] when the query raises; [parent_tag] is the tag found
    through XPath [".."].  The other queries answer: a node on which one
    of them raises is dropped by the [except] clauses of the extractors
    and skipped by the link loop, as a node whose [is_enabled] raises is,
    and is not among the nodes described here. *)
Record WebElement := {
  tag_name : string;
  text : string;
  is_displayed : bool;
  is_enabled : option bool;
  location : Z * Z;
  size : Z * Z;
  attrs : gmap string string;
  parent_tag : string;
  screenshot_as_base64 : option string
}.

Definition get_attribute (e : WebElement) (a : string) : option string :=
  attrs e !! a.

(** What a loaded page answers.  [find_elements] is the query by CSS
    selector and [find_anchors] the query by tag name ["a"]; [None] is a
    raised [WebDriverException]. *)
Record Page := {
  title : string;
  page_source : string;
  find_elements : string -> option (list WebElement);
  find_anchors : option (list WebElement)
}.

Definition blank_page : Page := {|
  title := EmptyString;
  page_source := EmptyString;
  find_elements := fun _ => Some [];
  find_anchors := Some []
|}.

(** The outside world: whether a browser can be launched, and what the
    [n]-th call of [driver.get] answers for a URL (a page, or the
    exception it raises). *)
Record Web := {
  chrome_starts : bool;
  firefox_starts : bool;
  fetch : nat -> string -> outcome Page
}.

(** A live session: the page it shows and the number of [get] calls made. *)
Record Driver := {
  current : Page;
  gets : nat
}.

Definition fresh_driver : Driver := {| current := blank_page; gets := 0 |}.

End Selenium.

(** ** element_parser.py *)
Module ElementParser.
Import PyStr.

Record Config := {
  element_selectors : list string;
  attrs_to_extract : list string;
  skip_hidden_elements : bool;
  take_screenshots : bool
}.

Definition default_config : Config := {|
  element_selectors :=
    ["a"; "button"; "input"; "select"; "textarea";
     "[role='button']"; "[role='link']"; "[role='checkbox']"; "[role='radio']"];
  attrs_to_extract :=
    ["id"; "class"; "name"; "type"; "href"; "value"; "placeholder";
     "role"; "aria-label"; "title"; "data-testid"];
  skip_hidden_elements := true;
  take_screenshots := false
|}.

Definition roles : list string :=
  ["button"; "link"; "checkbox"; "radio"; "tab"; "menu"; "menuitem";
   "combobox"; "listbox"; "option"; "slider"; "switch"].

Definition _categorize_element (element : Selenium.WebElement) : string :=
  let tag_name := lower (Selenium.tag_name element) in
  let role := Selenium.get_attribute element "role" in
  if truthy role && in_list (or_else role EmptyString) roles then or_else role EmptyString
  else if String.eqb tag_name "a" then "link"
  else if String.eqb tag_name "button" then "button"
  else if String.eqb tag_name "input" then
    let input_type := Selenium.get_attribute element "type" in
    match input_type with
    | Some t =>
        if in_list t ["checkbox"; "radio"; "submit"; "button"] then t
        else if in_list t ["text"; "email"; "password"; "number"; "tel"; "url"; "search"]
             then "input_field"
             else "input_" +:+ or_else input_type "text"
    | None => "input_" +:+ or_else input_type "text"
    end
  else if String.eqb tag_name "select" then "dropdown"
  else if String.eqb tag_name "textarea" then "text_area"
  else if String.eqb tag_name "form" then "form"
  else if in_list tag_name ["div"; "span"]
          && any_in ["button"; "btn"; "link"; "clickable"]
               (lower (or_else (Selenium.get_attribute element "class") EmptyString))
       then "pseudo_button"
  else if in_list tag_name ["i"; "svg"; "img"] then
    if String.eqb (Selenium.parent_tag element) "a" then "icon_link" else "icon"
  else "other".

(** The dictionary built by [_extract_element_data]. *)
Record ElementData := {
  page_url : string;
  page_title : string;
  tag_name : string;
  text : string;
  is_displayed : bool;
  is_enabled : bool;
  location : Z * Z;
  size : Z * Z;
  attributes : gmap string string;
  element_type : string;
  screenshot : option string
}.

(** [for attr in names: value = get_attribute(attr); if value: d[attr] = value] *)
Definition collect_attributes (names : list string) (element : Selenium.WebElement)
  : gmap string string :=
  foldl (fun d attr =>
           match Selenium.get_attribute element attr with
           | Some v => if nonempty v then <[attr := v]> d else d
           | None => d
           end) ∅ names.

(** [None] is both the explicit [return None] and the caught exception. *)
Definition _extract_element_data (cfg : Config) (element : Selenium.WebElement)
    (url title : string) : option ElementData :=
  if skip_hidden_elements cfg && negb (Selenium.is_displayed element) then None
  else
    enabled ← (if negb (String.eqb (Selenium.tag_name element) "a")
               then Selenium.is_enabled element else Some true);
    Some {|
      page_url := url;
      page_title := title;
      tag_name := Selenium.tag_name element;
      text := strip (Selenium.text element);
      is_displayed := Selenium.is_displayed element;
      is_enabled := enabled;
      location := Selenium.location element;
      size := Selenium.size element;
      attributes := collect_attributes (attrs_to_extract cfg) element;
      element_type := _categorize_element element;
      screenshot :=
        if take_screenshots cfg && Selenium.is_displayed element
        then Selenium.screenshot_as_base64 element else None
    |}.

(** One selector of [extract_elements]: a failing query contributes nothing. *)
Definition extract_selector (cfg : Config) (page : Selenium.Page) (url : string)
    (selector : string) : list ElementData :=
  match Selenium.find_elements page selector with
  | Some elements =>
      omap (fun element => _extract_element_data cfg element url (Selenium.title page))
           elements
  | None => []
  end.

Definition extract_elements (cfg : Config) (page : Selenium.Page) (url : string)
  : list ElementData :=
  concat (map (extract_selector cfg page url) (element_selectors cfg)).

End ElementParser.

(** ** enhanced_analyzer.py: extraction, classification, locators *)
Module EnhancedAnalyzer.
Import PyStr.

Definition dquote : string := String (ascii_of_nat 34) EmptyString.

Definition role_selector (r : string) : string :=
  "[role=" +:+ dquote +:+ r +:+ dquote +:+ "]".

Definition default_interactive_selectors : list string :=
  ["a"; "button"; "input"; "select"; "textarea"; role_selector "button";
   role_selector "link"; role_selector "checkbox"; role_selector "radio";
   role_selector "tab"].

Definition roles : list string :=
  ["button"; "link"; "checkbox"; "radio"; "tab"; "menuitem"].

Definition _categorize_element (element : Selenium.WebElement) : string :=
  let tag_name := lower (Selenium.tag_name element) in
  let role := Selenium.get_attribute element "role" in
  if truthy role && in_list (or_else role EmptyString) roles
  then or_else role EmptyString
  else if String.eqb tag_name "a" then "link"
  else if String.eqb tag_name "button" then "button"
  else if String.eqb tag_name "input" then
    let input_type := Selenium.get_attribute element "type" in
    match input_type with
    | Some t =>
        if in_list t ["checkbox"; "radio"; "submit"; "button"] then t
        else if in_list t ["text"; "email"; "password"; "number"; "tel"; "url"; "search"]
             then "input_field"
             else "input_" +:+ or_else input_type "text"
    | None => "input_" +:+ or_else input_type "text"
    end
  else if String.eqb tag_name "select" then "dropdown"
  else if String.eqb tag_name "textarea" then "text_area"
  else
    let class_attr := or_else (Selenium.get_attribute element "class") EmptyString in
    if any_in ["button"; "btn"] (lower class_attr) then "pseudo_button"
    else if any_in ["dropdown"; "select"] (lower class_attr) then "pseudo_dropdown"
    else "other".

Definition _generate_css_selector (element : Selenium.WebElement) : string :=
  let tag := Selenium.tag_name element in
  let element_id := Selenium.get_attribute element "id" in
  if truthy element_id then "#" +:+ or_else element_id EmptyString else
  let data_test := Selenium.get_attribute element "data-test" in
  if truthy data_test then "[data-test='" +:+ or_else data_test EmptyString +:+ "']" else
  let data_testid := Selenium.get_attribute element "data-testid" in
  if truthy data_testid
  then "[data-testid='" +:+ or_else data_testid EmptyString +:+ "']" else
  let name := Selenium.get_attribute element "name" in
  if truthy name then tag +:+ "[name='" +:+ or_else name EmptyString +:+ "']" else
  let placeholder := Selenium.get_attribute element "placeholder" in
  if in_list tag ["input"; "textarea"] && truthy placeholder
  then tag +:+ "[placeholder='" +:+ or_else placeholder EmptyString +:+ "']" else
  let class_name := Selenium.get_attribute element "class" in
  let first_class := first_token (or_else class_name EmptyString) in
  if truthy class_name && nonempty first_class
     && negb (startswith first_class "ng-" || startswith first_class "ui-")
  then tag +:+ "." +:+ first_class else
  let text := strip (Selenium.text element) in
  if nonempty text && (String.length text <? 50)%nat
  then tag +:+ ":contains('" +:+ escape_quotes text +:+ "')"
  else tag.

Record Action := {
  action_type : string;
  action_value : option string;
  action_cypress : string
}.

Definition cy_get (selector : string) : string := "cy.get('" +:+ selector +:+ "')".

Definition _determine_possible_actions (element : Selenium.WebElement) : list Action :=
  let element_type := _categorize_element element in
  let selector := _generate_css_selector element in
  if in_list element_type ["link"; "button"; "submit"; "pseudo_button"; "pseudo_dropdown"]
  then [ {| action_type := "click"; action_value := None;
            action_cypress := cy_get selector +:+ ".click()" |} ]
  else if in_list element_type ["input_field"; "text_area"] then
    let placeholder := or_else (Selenium.get_attribute element "placeholder") EmptyString in
    let input_type := or_else (Selenium.get_attribute element "type") EmptyString in
    let sample_text :=
      if contains "email" (lower input_type) || contains "email" (lower placeholder)
      then "test@example.com"
      else if contains "password" (lower input_type)
              || contains "password" (lower placeholder)
           then "Password123"
           else "Test input" in
    [ {| action_type := "input"; action_value := Some sample_text;
         action_cypress := cy_get selector +:+ ".type('" +:+ sample_text +:+ "')" |} ]
  else if String.eqb element_type "dropdown"
  then [ {| action_type := "select"; action_value := None;
            action_cypress := cy_get selector +:+ ".select('OPTION_VALUE')" |} ]
  else if in_list element_type ["checkbox"; "radio"]
  then [ {| action_type := "check"; action_value := None;
            action_cypress := cy_get selector +:+ ".check()" |} ]
  else [].

(** The dictionary built by [_extract_element_data]. *)
Record ElementData := {
  tag_name : string;
  text : string;
  is_displayed : bool;
  is_enabled : bool;
  location : Z * Z;
  attributes : gmap string string;
  element_type : string;
  css_selector : string;
  actions : list Action
}.

Definition extracted_attributes : list string :=
  ["id"; "class"; "name"; "type"; "href"; "value"; "placeholder";
   "role"; "aria-label"; "data-test"; "data-testid"].

Definition _extract_element_data (element : Selenium.WebElement) : option ElementData :=
  if negb (Selenium.is_displayed element) then None
  else
    enabled ← (if negb (String.eqb (Selenium.tag_name element) "a")
               then Selenium.is_enabled element else Some true);
    Some {|
      tag_name := Selenium.tag_name element;
      text := strip (Selenium.text element);
      is_displayed := Selenium.is_displayed element;
      is_enabled := enabled;
      location := Selenium.location element;
      attributes := ElementParser.collect_attributes extracted_attributes element;
      element_type := _categorize_element element;
      css_selector := _generate_css_selector element;
      actions := _determine_possible_actions element
    |}.

Definition find_interactive_elements (selectors : list string) (page : Selenium.Page)
  : list ElementData :=
  concat (map (fun selector =>
                 match Selenium.find_elements page selector with
                 | Some elements => omap _extract_element_data elements
                 | None => []
                 end) selectors).

(** *** Flow inference *)

Record Step := {
  step_element : string;
  step_action : string;
  step_value : option string;
  step_description : string;
  step_cypress : string
}.

Record Flow := {
  flow_name : string;
  flow_description : string;
  flow_steps : list Step
}.

Definition attr (e : ElementData) (key : string) : string :=
  default EmptyString (attributes e !! key).

Definition y_of (e : ElementData) : Z := snd (location e).

Definition input_step (selector value description : string) : Step := {|
  step_element := selector;
  step_action := "input";
  step_value := Some value;
  step_description := description;
  step_cypress := cy_get selector +:+ ".type('" +:+ value +:+ "')"
|}.

Definition click_step (selector description : string) : Step := {|
  step_element := selector;
  step_action := "click";
  step_value := None;
  step_description := description;
  step_cypress := cy_get selector +:+ ".click()"
|}.

(** The first test of the field loop of [_identify_login_flow]. *)
Definition password_test (field : ElementData) : bool :=
  String.eqb (attr field "type") "password"
  || contains "password" (lower (attr field "name"))
  || contains "password" (lower (attr field "placeholder")).

(** The [elif] test of the same loop. *)
Definition username_test (field : ElementData) : bool :=
  in_list (attr field "type") ["text"; "email"]
  || any_in ["user"; "email"; "name"; "login"] (lower (attr field "name"))
  || any_in ["user"; "email"; "name"; "login"] (lower (attr field "placeholder")).

(** One iteration of the field loop on [(username_field, password_field)]. *)
Definition scan_field (found : option ElementData * option ElementData)
    (field : ElementData) : option ElementData * option ElementData :=
  if password_test field then (fst found, Some field)
  else if username_test field then (Some field, snd found)
  else found.

Definition login_button_test (button : ElementData) : bool :=
  any_in ["log in"; "login"; "sign in"; "signin"; "submit"] (lower (text button)).

Definition _identify_login_flow (input_fields buttons : list ElementData)
  : option Flow :=
  let found := foldl scan_field (None, None) input_fields in
  let login_button := List.find login_button_test buttons in
  match fst found, snd found, login_button with
  | Some username_field, Some password_field, Some login_button =>
      Some {|
        flow_name := "User Authentication";
        flow_description := "Log into the application";
        flow_steps :=
          [ input_step (css_selector username_field) "standard_user" "Enter username";
            input_step (css_selector password_field) "secret_sauce" "Enter password";
            click_step (css_selector login_button) "Click login button" ]
      |}
  | _, _, _ => None
  end.

(** [max(ys)] of a list known to be non-empty. *)
Definition max_y (fields : list ElementData) : Z :=
  match fields with
  | [] => 0
  | f :: fs => foldl (fun m g => Z.max m (y_of g)) (y_of f) fs
  end.

(** [min(candidates, key=y)]: the first element of least key. *)
Definition min_by_y (candidates : list ElementData) : option ElementData :=
  match candidates with
  | [] => None
  | c :: cs =>
      Some (foldl (fun best b => if y_of b <? y_of best then b else best) c cs)
  end.

Definition submit_test (button : ElementData) : bool :=
  let text := lower (text button) in
  (nonempty text && any_in ["submit"; "save"; "send"; "create"; "add"] text)
  || bool_decide (attributes button !! "type" = Some "submit").

(** The three attempts of [_identify_form_flow] at a submit button. *)
Definition resolve_submit_button (input_fields buttons : list ElementData)
  : option ElementData :=
  match List.find submit_test buttons with
  | Some b => Some b
  | None =>
      let input_bottom := max_y input_fields in
      let candidates := List.filter (fun b => input_bottom <? y_of b) buttons in
      match min_by_y candidates with
      | Some b => Some b
      | None => last buttons
      end
  end.

Definition test_value (field : ElementData) : string :=
  let placeholder := attr field "placeholder" in
  let name := attr field "name" in
  let field_type := attr field "type" in
  if String.eqb field_type "email" || contains "email" (lower name)
  then "test@example.com"
  else if contains "name" (lower name) || contains "name" (lower placeholder)
  then "Test User"
  else if contains "phone" (lower name) || contains "phone" (lower placeholder)
  then "555-123-4567"
  else if contains "zip" (lower name) || contains "postal" (lower name)
  then "12345"
  else "Test input".

Definition field_step (field : ElementData) : Step :=
  let placeholder := attr field "placeholder" in
  let name := attr field "name" in
  let label := if nonempty placeholder then placeholder
               else if nonempty name then name else "field" in
  input_step (css_selector field) (test_value field)
    ("Enter " +:+ test_value field +:+ " in " +:+ label).

Definition _identify_form_flow (input_fields buttons : list ElementData)
  : option Flow :=
  match input_fields, buttons with
  | [], _ | _, [] => None
  | _, _ =>
      if (length input_fields <=? 2)%nat then None
      else
        match resolve_submit_button input_fields buttons with
        | Some submit_button =>
            Some {|
              flow_name := "Form Submission";
              flow_description := "Fill out and submit a form";
              flow_steps :=
                map field_step (take 5 input_fields)
                ++ [ click_step (css_selector submit_button)
                       ("Click " +:+ text submit_button) ]
            |}
        | None => None
        end
  end.

(** [sorted(links, key=y)]: a stable insertion sort. *)
Fixpoint insert_by_y (x : ElementData) (l : list ElementData) : list ElementData :=
  match l with
  | [] => [x]
  | h :: t => if y_of x <=? y_of h then x :: l else h :: insert_by_y x t
  end.

Definition sorted_by_y (l : list ElementData) : list ElementData :=
  foldr insert_by_y [] l.

Definition navigation_flow (links : list ElementData) : Flow := {|
  flow_name := "Navigation";
  flow_description := "Navigate through site links";
  flow_steps :=
    map (fun link =>
           click_step (css_selector link)
             ("Click " +:+ (if nonempty (text link) then text link else "link")))
        (take 5 (sorted_by_y links))
|}.

Definition type_in (types : list string) (e : ElementData) : bool :=
  in_list (element_type e) types.

Definition input_fields_of (elements : list ElementData) : list ElementData :=
  List.filter (type_in ["input_field"; "text_area"]) elements.

Definition buttons_of (elements : list ElementData) : list ElementData :=
  List.filter (type_in ["button"; "submit"]) elements.

Definition links_of (elements : list ElementData) : list ElementData :=
  List.filter (type_in ["link"]) elements.

Definition generate_user_flows (elements : list ElementData) : list Flow :=
  match elements with
  | [] => []
  | _ =>
      let input_fields := input_fields_of elements in
      let buttons := buttons_of elements in
      let links := links_of elements in
      option_list (_identify_login_flow input_fields buttons)
      ++ option_list (_identify_form_flow input_fields buttons)
      ++ match links with
         | [] => []
         | _ => [navigation_flow links]
         end
  end.

(** *** Script generation *)

Record PageInfo := {
  info_url : string;
  info_title : option string;
  info_html : string;
  info_error : option string
}.

Definition newline : string := String (ascii_of_nat 10) EmptyString.

Definition join_lines (lines : list string) : string :=
  match lines with
  | [] => EmptyString
  | l :: ls => foldl (fun acc x => acc +:+ newline +:+ x) l ls
  end.

Definition str_of_nat (n : nat) : string := NilZero.string_of_uint (Nat.to_uint n).

Definition flow_lines (url : string) (flow : Flow) : list string :=
  [ "  it('" +:+ flow_name flow +:+ ": " +:+ flow_description flow +:+ "', () => {";
    "    cy.visit('" +:+ url +:+ "');";
    EmptyString ]
  ++ concat (map (fun step =>
                    [ "    // " +:+ step_description step;
                      "    " +:+ step_cypress step;
                      EmptyString ]) (flow_steps flow))
  ++ [ "    // Verify page changed after flow completion";
       "    cy.url().should('include', '/');";
       "  }});";
       EmptyString ].

Definition click_lines (i : nat) (element : ElementData) : list string :=
  let escaped := escape_quotes (text element) in
  let element_text :=
    if nonempty escaped then escaped else "element " +:+ str_of_nat (i + 1) in
  [ "    // Click " +:+ element_text;
    "    cy.get('" +:+ css_selector element +:+ "').click();";
    EmptyString ].

Definition generate_cypress_test (page_info : PageInfo)
    (elements : list ElementData) (flows : list Flow) : string :=
  let url := info_url page_info in
  let title := default "page" (info_title page_info) in
  join_lines
    ([ "/// <reference types='cypress' />";
       EmptyString;
       "describe('" +:+ title +:+ " - Automated Test', () => {" ]
     ++ match flows with
        | _ :: _ => concat (map (flow_lines url) flows)
        | [] =>
            [ "  it('should interact with all elements', () => {{";
              "    cy.visit('" +:+ url +:+ "');";
              EmptyString ]
            ++ concat (imap click_lines
                         (take 10 (List.filter (type_in ["button"; "link"; "submit"])
                                     elements)))
            ++ [ "  }});" ]
        end
     ++ [ "}});" ]).

(** *** The analyzer object and its entry point *)

(** [self]: the session handle, the configured selectors, and a count of
    browser sessions launched and not yet quit. *)
Record Analyzer := {
  driver : option Selenium.Driver;
  interactive_selectors : list string;
  open_sessions : nat
}.

Definition __init__ : Analyzer := {|
  driver := None;
  interactive_selectors := default_interactive_selectors;
  open_sessions := 0
|}.

Definition with_driver (self : Analyzer) (d : option Selenium.Driver) (n : nat)
  : Analyzer :=
  {| driver := d; interactive_selectors := interactive_selectors self;
     open_sessions := n |}.

(** Chrome first, Firefox as fallback, else the explicit [raise]. *)
Definition setup_driver (web : Selenium.Web) (self : Analyzer)
  : outcome unit * Analyzer :=
  if Selenium.chrome_starts web || Selenium.firefox_starts web
  then (Return (), with_driver self (Some Selenium.fresh_driver) (S (open_sessions self)))
  else (Raise "Could not initialize any web driver", self).

Definition get_page (web : Selenium.Web) (self : Analyzer) (url : string)
  : outcome PageInfo * Analyzer :=
  let '(started, self) :=
    match driver self with
    | Some _ => (Return (), self)
    | None => setup_driver web self
    end in
  match started, driver self with
  | Raise msg, _ => (Raise msg, self)
  | Return _, None => (Raise "no driver", self)
  | Return _, Some d =>
      match Selenium.fetch web (Selenium.gets d) url with
      | Return page =>
          (Return {| info_url := url; info_title := Some (Selenium.title page);
                     info_html := Selenium.page_source page; info_error := None |},
           with_driver self
             (Some {| Selenium.current := page; Selenium.gets := S (Selenium.gets d) |})
             (open_sessions self))
      | Raise msg =>
          (Return {| info_url := url; info_title := None;
                     info_html := EmptyString; info_error := Some msg |},
           with_driver self
             (Some {| Selenium.current := Selenium.current d;
                      Selenium.gets := S (Selenium.gets d) |})
             (open_sessions self))
      end
  end.

Record AnalysisResult := {
  error : option string;
  page_url : string;
  page_title : option string;
  elements_count : nat;
  elements : list ElementData;
  user_flows : list Flow;
  cypress_test : string;
  html_content : string
}.

Definition error_result (url msg : string) : AnalysisResult := {|
  error := Some msg;
  page_url := url;
  page_title := Some "Error";
  elements_count := 0;
  elements := [];
  user_flows := [];
  cypress_test := "// Error during analysis: " +:+ msg;
  html_content := EmptyString
|}.

(** The body of the [try] block of [analyze_and_generate]. *)
Definition analyze_body (web : Selenium.Web) (self : Analyzer) (url : string)
  : outcome AnalysisResult * Analyzer :=
  let '(started, self) :=
    match driver self with
    | Some _ => (Return (), self)
    | None => setup_driver web self
    end in
  match started with
  | Raise msg => (Raise msg, self)
  | Return _ =>
      match get_page web self url with
      | (Raise msg, self) => (Raise msg, self)
      | (Return page_info, self) =>
          match driver self with
          | None => (Raise "no driver", self)
          | Some d =>
              let elements :=
                find_interactive_elements (interactive_selectors self)
                  (Selenium.current d) in
              let flows := generate_user_flows elements in
              (Return {|
                 error := None;
                 page_url := info_url page_info;
                 page_title := info_title page_info;
                 elements_count := length elements;
                 elements := elements;
                 user_flows := flows;
                 cypress_test := generate_cypress_test page_info elements flows;
                 html_content := info_html page_info
               |}, self)
          end
      end
  end.

(** The [finally] block: quit the session if there is one. *)
Definition cleanup (self : Analyzer) : Analyzer :=
  match driver self with
  | Some _ => with_driver self None (pred (open_sessions self))
  | None => self
  end.

(** [try: ... except Exception as e: return {error ...} finally: quit]. *)
Definition analyze_and_generate (web : Selenium.Web) (self : Analyzer) (url : string)
  : outcome AnalysisResult * Analyzer :=
  match analyze_body web self url with
  | (Return results, self) => (Return results, cleanup self)
  | (Raise msg, self) => (Return (error_result url msg), cleanup self)
  end.

End EnhancedAnalyzer.

(** ** urllib.parse *)
Module UrlLib.
Import PyStr.

Record ParseResult := {
  scheme : string;
  netloc : string;
  path : string
}.

(** [urllib.parse.urlparse], as [extract_domain] sees it: for each URL
    the parts found, or the [ValueError] raised.  Which URLs are refused
    and which characters are dropped before parsing differs between
    Python versions, so the crawler is modelled over any such function
    and its properties hold for each of them. *)
Definition Parser : Type := string -> outcome ParseResult.

Definition is_alpha (c : ascii) : bool :=
  let n := nat_of_ascii c in
  (((65 <=? n) && (n <=? 90)) || ((97 <=? n) && (n <=? 122)))%nat.

Definition is_scheme_char (c : ascii) : bool :=
  let n := nat_of_ascii c in
  (is_alpha c || ((48 <=? n) && (n <=? 57))
   || (n =? 43) || (n =? 45) || (n =? 46))%nat.

(** [(s[:i], s[i:])] for the first [i] with [stop s[i]]; all of [s] and
  the empty string if there is none. *)
Fixpoint break_at (stop : ascii -> bool) (s : string) : string * string :=
  match s with
  | EmptyString => (EmptyString, EmptyString)
  | String c s' =>
      if stop c then (EmptyString, s)
      else let '(before, rest) := break_at stop s' in (String c before, rest)
  end.

Fixpoint all_chars (p : ascii -> bool) (s : string) : bool :=
  match s with
  | EmptyString => true
  | String c s' => p c && all_chars p s'
  end.

(** [c in s] for a character. *)
Fixpoint has_char (c : ascii) (s : string) : bool :=
  match s with
  | EmptyString => false
  | String c' s' => Ascii.eqb c c' || has_char c s'
  end.

Definition is_colon (c : ascii) : bool := Ascii.eqb c ":"%char.

Definition is_semicolon (c : ascii) : bool := Ascii.eqb c ";"%char.

Definition is_netloc_end (c : ascii) : bool :=
  Ascii.eqb c "/"%char || Ascii.eqb c "?"%char || Ascii.eqb c "#"%char.

Definition is_path_end (c : ascii) : bool :=
  Ascii.eqb c "?"%char || Ascii.eqb c "#"%char.

(** [url.lstrip(_WHATWG_C0_CONTROL_OR_SPACE)] *)
Fixpoint lstrip_c0 (s : string) : string :=
  match s with
  | EmptyString => EmptyString
  | String c s' => if (nat_of_ascii c <=? 32)%nat then lstrip_c0 s' else s
  end.

(** Tab, LF and CR are removed wherever they stand. *)
Fixpoint remove_unsafe (s : string) : string :=
  match s with
  | EmptyString => EmptyString
  | String c s' =>
      let n := nat_of_ascii c in
      if ((n =? 9) || (n =? 10) || (n =? 13))%nat then remove_unsafe s'
      else String c (remove_unsafe s')
  end.

(** The scheme and what follows its colon. *)
Definition split_scheme (url : string) : string * string :=
  match break_at is_colon url with
  | (String c0 before, String _ after) =>
      if is_alpha c0 && all_chars is_scheme_char before
      then (lower (String c0 before), after)
      else (EmptyString, url)
  | _ => (EmptyString, url)
  end.

Definition uses_params : list string :=
  [EmptyString; "ftp"; "hdl"; "prospero"; "http"; "imap"; "https"; "shttp";
   "rtsp"; "rtspu"; "sip"; "sips"; "mms"; "sftp"; "tel"].

(** [_splitparams(url)[0]]: the path up to the first semicolon of its
    last segment. *)
Fixpoint strip_params (s : string) : string :=
  match s with
  | EmptyString => EmptyString
  | String c s' =>
      if has_char "/"%char s then String c (strip_params s')
      else fst (break_at is_semicolon s)
  end.

(** A sample parser, for the examples: [urlparse] as Python 3.12 has it,
    for scheme, network location and path, without the checks made on a
    host in balanced brackets and on characters above 127. *)
Definition plain_urlparse : Parser := fun url =>
  let url := remove_unsafe (lstrip_c0 url) in
  let '(scheme, rest) := split_scheme url in
  let '(netloc, rest) :=
    if has_prefix "//" rest
    then break_at is_netloc_end (drop 2 rest)
    else (EmptyString, rest) in
  if xorb (has_char "["%char netloc) (has_char "]"%char netloc)
  then Raise "Invalid IPv6 URL"
  else
    let path := fst (break_at is_path_end rest) in
    Return {| scheme := scheme;
              netloc := netloc;
              path := if in_list scheme uses_params then strip_params path else path |}.

End UrlLib.

(** ** selenium_crawler.py *)
Module SeleniumCrawler.
Import PyStr.

(** The settings [start_crawl] reads from the configuration. *)
Record Config := {
  max_pages : Z;
  max_depth : Z;
  parser : ElementParser.Config
}.

Definition default_config : Config := {|
  max_pages := 20;
  max_depth := 2;
  parser := ElementParser.default_config
|}.

(** [self], with a count of sessions launched and not yet quit. *)
Record Crawler := {
  config : Config;
  driver : option Selenium.Driver;
  visited_urls : gset string;
  queue : list string;
  base_url : string;
  domain : string;
  open_sessions : nat
}.

Definition __init__ (cfg : Config) : Crawler := {|
  config := cfg;
  driver := None;
  visited_urls := ∅;
  queue := [];
  base_url := EmptyString;
  domain := EmptyString;
  open_sessions := 0
|}.

(** [urlparse(url).netloc]; the [ValueError] of [urlparse] passes through. *)
Definition extract_domain (urlparse : UrlLib.Parser) (url : string) : outcome string :=
  match urlparse url with
  | Return parsed_url => Return (UrlLib.netloc parsed_url)
  | Raise msg => Raise msg
  end.

Definition excluded_extensions : list string :=
  [".pdf"; ".jpg"; ".jpeg"; ".png"; ".gif"; ".css"; ".js"; ".ico"].

(** [should_crawl_url] reads [self.visited_urls] and [self.domain] only.
    It has no [try]: what [extract_domain] raises, it raises. *)
Definition should_crawl_url (urlparse : UrlLib.Parser) (visited : gset string)
    (domain url : string) : outcome bool :=
  if bool_decide (url ∈ visited) then Return false
  else
    match extract_domain urlparse url with
    | Raise msg => Raise msg
    | Return netloc =>
        if negb (contains domain netloc) then Return false
        else if negb (startswith url "http://" || startswith url "https://")
        then Return false
        else if existsb (fun ext => endswith (lower url) ext) excluded_extensions
        then Return false
        else Return true
    end.

(** The local variables of the [while] loop, the part of [self] it
    changes, a log of the [driver.get] calls with their depth, and the
    exception, if any, that left the loop. *)
Record LoopState := {
  session : Selenium.Driver;
  visited : gset string;
  all_elements_data : list ElementParser.ElementData;
  current_depth : Z;
  pages_visited : Z;
  depth_urls : gmap Z (list string);
  get_log : list (string * Z);
  raised : option string
}.

(** The state with an exception on its way out of the loop. *)
Definition raise_in (st : LoopState) (msg : string) : LoopState := {|
  session := session st;
  visited := visited st;
  all_elements_data := all_elements_data st;
  current_depth := current_depth st;
  pages_visited := pages_visited st;
  depth_urls := depth_urls st;
  get_log := get_log st;
  raised := Some msg
|}.

(** [depth_urls[d].append(href)] *)
Definition append_at (d : Z) (href : string) (m : gmap Z (list string))
  : gmap Z (list string) :=
  <[d := (default [] (m !! d) ++ [href])%list]> m.

(** [href and self.should_crawl_url(href)] inside the [try] of the link
    loop: an exception there drops the link. *)
Definition link_accepted (urlparse : UrlLib.Parser) (visited : gset string)
    (domain href : string) : bool :=
  nonempty href
  && match should_crawl_url urlparse visited domain href with
     | Return answer => answer
     | Raise _ => false
     end.

(** The loop over the anchors of a page. *)
Definition enqueue_links (urlparse : UrlLib.Parser) (domain : string)
    (visited : gset string) (d : Z) (links : list Selenium.WebElement)
    (m : gmap Z (list string)) : gmap Z (list string) :=
  foldl (fun m link =>
           match Selenium.get_attribute link "href" with
           | Some href =>
               if link_accepted urlparse visited domain href
               then append_at d href m else m
           | None => m
           end) m links.

(** The [try] block of one URL: every exception in it is caught. *)
Definition visit (urlparse : UrlLib.Parser) (web : Selenium.Web) (cfg : Config)
    (domain : string) (st : LoopState) (url : string) : LoopState :=
  let d := session st in
  let log := (get_log st ++ [(url, current_depth st)])%list in
  match Selenium.fetch web (Selenium.gets d) url with
  | Raise _ =>
      {| session := {| Selenium.current := Selenium.current d;
                       Selenium.gets := S (Selenium.gets d) |};
         visited := visited st;
         all_elements_data := all_elements_data st;
         current_depth := current_depth st;
         pages_visited := pages_visited st;
         depth_urls := depth_urls st;
         get_log := log;
         raised := raised st |}
  | Return page =>
      let visited' := {[url]} ∪ visited st in
      {| session := {| Selenium.current := page; Selenium.gets := S (Selenium.gets d) |};
         visited := visited';
         all_elements_data :=
           (all_elements_data st
            ++ ElementParser.extract_elements (parser cfg) page url)%list;
         current_depth := current_depth st;
         pages_visited := pages_visited st + 1;
         depth_urls :=
           match Selenium.find_anchors page with
           | Some links =>
               enqueue_links urlparse domain visited' (current_depth st + 1) links
                 (depth_urls st)
           | None => depth_urls st
           end;
         get_log := log;
         raised := raised st |}
  end.

(** The body of [for url in urls_at_current_depth].  Its first test
    stands before the [try]: an exception of [should_crawl_url] there
    leaves the loop, and the URLs after it are not looked at. *)
Definition process_url (urlparse : UrlLib.Parser) (web : Selenium.Web) (cfg : Config)
    (domain : string) (st : LoopState) (url : string) : LoopState :=
  match raised st with
  | Some _ => st
  | None =>
      if bool_decide (url ∈ visited st) then st
      else
        match should_crawl_url urlparse (visited st) domain url with
        | Raise msg => raise_in st msg
        | Return false => st
        | Return true => visit urlparse web cfg domain st url
        end
  end.

(** [depth_urls[current_depth + 1] = []]: the state in which the URLs
    of a level are processed. *)
Definition level_start (st : LoopState) : LoopState := {|
  session := session st;
  visited := visited st;
  all_elements_data := all_elements_data st;
  current_depth := current_depth st;
  pages_visited := pages_visited st;
  depth_urls := <[current_depth st + 1 := []]> (depth_urls st);
  get_log := get_log st;
  raised := raised st
|}.

(** One iteration of the [while] loop: a whole depth level, and the
    step to the next level unless an exception is on its way. *)
Definition crawl_level (urlparse : UrlLib.Parser) (web : Selenium.Web) (cfg : Config)
    (domain : string) (st : LoopState) : LoopState :=
  let urls_at_current_depth := default [] (depth_urls st !! current_depth st) in
  let st1 :=
    foldl (process_url urlparse web cfg domain) (level_start st) urls_at_current_depth in
  match raised st1 with
  | Some _ => st1
  | None =>
      {| session := session st1;
         visited := visited st1;
         all_elements_data := all_elements_data st1;
         current_depth := current_depth st1 + 1;
         pages_visited := pages_visited st1;
         depth_urls := depth_urls st1;
         get_log := get_log st1;
         raised := None |}
  end.

(** [self.queue and pages_visited < max_pages and current_depth <= max_depth] *)
Definition loop_test (cfg : Config) (queue : list string) (st : LoopState) : bool :=
  match queue with
  | [] => false
  | _ :: _ => (pages_visited st <? max_pages cfg) && (current_depth st <=? max_depth cfg)
  end.

(** The [while] loop, at most [fuel] iterations. *)
Fixpoint crawl_loop (fuel : nat) (urlparse : UrlLib.Parser) (web : Selenium.Web)
    (cfg : Config) (domain : string) (queue : list string) (st : LoopState)
  : LoopState :=
  match fuel with
  | O => st
  | S fuel' =>
      if loop_test cfg queue st
      then
        let st' := crawl_level urlparse web cfg domain st in
        match raised st' with
        | Some _ => st'
        | None => crawl_loop fuel' urlparse web cfg domain queue st'
        end
      else st
  end.

(** Iterations after which the depth test has failed for certain. *)
Definition enough_fuel (cfg : Config) : nat := Z.to_nat (max_depth cfg + 1).

Definition initial_state (start_url : string) : LoopState := {|
  session := Selenium.fresh_driver;
  visited := ∅;
  all_elements_data := [];
  current_depth := 0;
  pages_visited := 0;
  depth_urls := {[ 0 := [start_url] ]};
  get_log := [];
  raised := None
|}.

(** What a run leaves behind: the returned value or the exception, the
    object afterwards, and the loop's final locals when it ran. *)
Record Run := {
  result : outcome (list ElementParser.ElementData);
  self_after : Crawler;
  locals : option LoopState
}.

(** [start_crawl].  [extract_domain(start_url)] stands before the [try]:
    when it raises, no session is asked for and nothing but [base_url]
    is assigned. *)
Definition start_crawl (urlparse : UrlLib.Parser) (web : Selenium.Web) (self : Crawler)
    (start_url : string) : Run :=
  match extract_domain urlparse start_url with
  | Raise msg =>
      {| result := Raise msg;
         self_after :=
           {| config := config self;
              driver := driver self;
              visited_urls := visited_urls self;
              queue := queue self;
              base_url := start_url;
              domain := domain self;
              open_sessions := open_sessions self |};
         locals := None |}
  | Return domain =>
      let queue := [start_url] in
      if Selenium.chrome_starts web then
        let st := crawl_loop (enough_fuel (config self)) urlparse web (config self)
                    domain queue (initial_state start_url) in
        {| result :=
             match raised st with
             | Some msg => Raise msg
             | None => Return (all_elements_data st)
             end;
           self_after :=
             {| config := config self;
                driver := Some (session st);
                visited_urls := visited st;
                queue := queue;
                base_url := start_url;
                domain := domain;
                open_sessions := pred (S (open_sessions self)) |};
           locals := Some st |}
      else
        {| result := Raise "session not created";
           self_after :=
             {| config := config self;
                driver := driver self;
                visited_urls := ∅;
                queue := queue;
                base_url := start_url;
                domain := domain;
                open_sessions :=
                  match driver self with
                  | Some _ => pred (open_sessions self)
                  | None => open_sessions self
                  end |};
           locals := None |}
  end.

(** [get_single_page_elements]: one page, no [except] clause, and no
    call of [urlparse]. *)
Definition get_single_page_elements (web : Selenium.Web) (self : Crawler) (url : string)
  : Run :=
  let after (d : option Selenium.Driver) (n : nat) := {|
    config := config self;
    driver := d;
    visited_urls := visited_urls self;
    queue := queue self;
    base_url := base_url self;
    domain := domain self;
    open_sessions := n
  |} in
  if Selenium.chrome_starts web then
    match Selenium.fetch web (Selenium.gets Selenium.fresh_driver) url with
    | Return page =>
        {| result :=
             Return (ElementParser.extract_elements (parser (config self)) page url);
           self_after :=
             after (Some {| Selenium.current := page; Selenium.gets := 1 |})
               (pred (S (open_sessions self)));
           locals := None |}
    | Raise msg =>
        {| result := Raise msg;
           self_after :=
             after (Some {| Selenium.current := Selenium.blank_page; Selenium.gets := 1 |})
               (pred (S (open_sessions self)));
           locals := None |}
    end
  else
    {| result := Raise "session not created";
       self_after :=
         after (driver self)
           match driver self with
           | Some _ => pred (open_sessions self)
           | None => open_sessions self
           end;
       locals := None |}.

End SeleniumCrawler.

(** ** utils/config.py *)
Module PyConfig.
Import PyStr.

(** What [yaml.safe_load] can give, floats apart and with strings for
    keys, read as a tree: a mapping is the value of its items.  This
    reading fits a document in which no mapping contains itself.  [set]
    and [_merge_dicts] change mappings in place, and an anchor can put
    one mapping under several keys; what an update does to the other
    paths into a shared mapping is told by [PyObjects], not here. *)
#[warnings="-register-all"]
Inductive value : Type :=
| Null
| Bool (b : bool)
| Int (n : Z)
| Str (s : string)
| Seq (items : list value)
| Dict (entries : gmap string value).

(** Truth value of a loaded document, for [yaml.safe_load(f) or {}]. *)
Definition is_true (v : value) : bool :=
  match v with
  | Null => false
  | Bool b => b
  | Int n => negb (n =? 0)
  | Str s => nonempty s
  | Seq items => match items with [] => false | _ :: _ => true end
  | Dict entries => negb (size entries =? 0)%nat
  end.

Definition or_empty (v : value) : value := if is_true v then v else Dict ∅.

(** [key_path.split('.')]: never the empty list. *)
Fixpoint split_dots (s : string) : list string :=
  match s with
  | EmptyString => [EmptyString]
  | String c s' =>
      if Ascii.eqb c "."%char then EmptyString :: split_dots s'
      else match split_dots s' with
           | head :: tail => String c head :: tail
           | [] => [String c EmptyString]
           end
  end.

(** The loop of [get]; [None] is its [return default]. *)
Fixpoint descend (keys : list string) (v : value) : option value :=
  match keys with
  | [] => Some v
  | key :: rest =>
      match v with
      | Dict entries =>
          match entries !! key with
          | Some v' => descend rest v'
          | None => None
          end
      | _ => None
      end
  end.

Definition get (config_data : value) (key_path : string) (default_value : value) : value :=
  default default_value (descend (split_dots key_path) config_data).

(** The loop of [set] over [keys[:-1]] and the final assignment, on a
  mapping. *)
Fixpoint set_in (config : gmap string value) (keys : list string) (v : value)
  : gmap string value :=
  match keys with
  | [] => config
  | [key] => <[key := v]> config
  | key :: rest =>
      let inner :=
        match config !! key with
        | Some (Dict entries) => entries
        | _ => ∅
        end in
      <[key := Dict (set_in inner rest v)]> config
  end.

(** [set]; item assignment on anything but a mapping raises. *)
Definition set (config_data : value) (key_path : string) (v : value) : outcome value :=
  match config_data with
  | Dict entries => Return (Dict (set_in entries (split_dots key_path) v))
  | _ => Raise "TypeError"
  end.

(** The recursion of [_merge_dicts] on a target mapping. *)
Fixpoint merge_into (target : gmap string value) (source : value) {struct source}
  : gmap string value :=
  match source with
  | Dict entries =>
      map_fold (fun key v acc =>
                  match v, acc !! key with
                  | Dict _, Some (Dict inner) => <[key := Dict (merge_into inner v)]> acc
                  | _, _ => <[key := v]> acc
                  end) target entries
  | _ => target
  end.

(** [_merge_dicts(target, source)] and the target afterwards. *)
Definition _merge_dicts (target source : value) : outcome value :=
  match source with
  | Dict entries =>
      match target with
      | Dict t => Return (Dict (merge_into t source))
      | _ => if (size entries =? 0)%nat then Return target else Raise "TypeError"
      end
  | _ => Raise "AttributeError"
  end.

(** The two files [__init__] looks for: [None] when the path does not
  exist, otherwise what opening and parsing it gives. *)
Record Files := {
  config_file : option (outcome value);
  credentials_file : option (outcome value)
}.

(** [self.config_data] after [__init__]. *)
Definition __init__ (files : Files) : value :=
  let config_data :=
    match config_file files with
    | Some (Return document) => or_empty document
    | _ => Dict ∅
    end in
  match credentials_file files with
  | Some (Return document) =>
      match _merge_dicts config_data (or_empty document) with
      | Return merged => merged
      | Raise _ => config_data
      end
  | _ => config_data
  end.

End PyConfig.

(** ** utils/config.py, with the identity of mappings

  A Python dict is an object that [set] changes in place, and a YAML
  anchor lets one dict stand under several keys, or inside itself.  Here
  a mapping is an address into a store of mappings, so that two items can
  hold one and the same mapping. *)
Module PyObjects.

Definition addr : Type := positive.

(** A value: a scalar, a list, or the mapping at an address. *)
#[warnings="-register-all"]
Inductive value : Type :=
| Null
| Bool (b : bool)
| Int (n : Z)
| Str (s : string)
| Seq (elements : list value)
| Ref (a : addr).


(** The items of the mapping at an address. *)
Definition items (heap : gmap addr (gmap string value)) (a : addr) : gmap string value :=
  default ∅ (heap !! a).

(** [value[key]] under the test [isinstance(value, dict) and key in value]. *)
Definition item (heap : gmap addr (gmap string value)) (v : value) (key : string) : option value :=
  match v with
  | Ref a => items heap a !! key
  | _ => None
  end.

(** The loop of [get]; [None] is its [return default]. *)
Fixpoint descend (heap : gmap addr (gmap string value)) (keys : list string) (v : value) : option value :=
  match keys with
  | [] => Some v
  | key :: rest =>
      match item heap v key with
      | Some v' => descend heap rest v'
      | None => None
      end
  end.

Definition get (heap : gmap addr (gmap string value)) (config_data : value) (key_path : string)
    (default_value : value) : value :=
  default default_value (descend heap (PyConfig.split_dots key_path) config_data).

(** [config[key] = v] on the mapping at [a]. *)
Definition assign (heap : gmap addr (gmap string value)) (a : addr) (key : string) (v : value) : gmap addr (gmap string value) :=
  <[a := <[key := v]> (items heap a)]> heap.

(** The loop of [set] from the mapping at [a], and the final assignment.
    [config[key] = {}] makes a mapping at an address not yet in use. *)
Fixpoint walk (heap : gmap addr (gmap string value)) (a : addr) (keys : list string) (v : value) : gmap addr (gmap string value) :=
  match keys with
  | [] => heap
  | [key] => assign heap a key v
  | key :: rest =>
      match items heap a !! key with
      | Some (Ref b) => walk heap b rest v
      | _ =>
          let b := fresh ({[a]} ∪ dom heap) in
          walk (<[b := ∅]> (assign heap a key (Ref b))) b rest v
      end
  end.

(** [set]; item assignment on anything but a mapping raises. *)
Definition set (heap : gmap addr (gmap string value)) (config_data : value) (key_path : string) (v : value)
  : outcome (gmap addr (gmap string value)) :=
  match config_data with
  | Ref a => Return (walk heap a (PyConfig.split_dots key_path) v)
  | _ => Raise "TypeError"
  end.

(** The one item of the mappings at hand that [set] assigns to: the
    first one on the path that holds no mapping, or else the last one. *)
Fixpoint target_cell (heap : gmap addr (gmap string value)) (a : addr) (keys : list string) : addr * string :=
  match keys with
  | [] => (a, EmptyString)
  | [key] => (a, key)
  | key :: rest =>
      match items heap a !! key with
      | Some (Ref b) => target_cell heap b rest
      | _ => (a, key)
      end
  end.

(** The items [set] passes through before it gets there. *)
Fixpoint passed (heap : gmap addr (gmap string value)) (a : addr) (keys : list string) : list (addr * string) :=
  match keys with
  | [] => []
  | [key] => []
  | key :: rest =>
      match items heap a !! key with
      | Some (Ref b) => (a, key) :: passed heap b rest
      | _ => []
      end
  end.

(** The items [get] looks at. *)
Fixpoint cells_read (heap : gmap addr (gmap string value)) (v : value) (keys : list string)
  : list (addr * string) :=
  match keys with
  | [] => []
  | key :: rest =>
      match v with
      | Ref a =>
          (a, key)
          :: match items heap a !! key with
             | Some v' => cells_read heap v' rest
             | None => []
             end
      | _ => []
      end
  end.

(** Every mapping that an item holds is in the store. *)
Definition closed (heap : gmap addr (gmap string value)) : bool :=
  forallb (fun entry : addr * gmap string value =>
             forallb (fun field : string * value =>
                        match field.2 with
                        | Ref b => bool_decide (b ∈ dom heap)
                        | _ => true
                        end) (map_to_list entry.2))
          (map_to_list heap).

End PyObjects.

(** ** scripts/run_crawler.py *)
Module RunCrawler.

(** The override of [main]: [if args.depth: config.set(...)]. *)
Definition override_depth (depth : option Z) (config_data : PyConfig.value)
  : outcome PyConfig.value :=
  match depth with
  | Some n =>
      if n =? 0 then Return config_data
      else PyConfig.set config_data "crawler.max_depth" (PyConfig.Int n)
  | None => Return config_data
  end.

End RunCrawler.

(** ** Vocabulary of the specification *)
Module Spec.
Import PyStr.

(** The category labels the specification documents, apart from the
    open family [input_<type>]. *)
Definition documented_labels : list string :=
  ["button"; "link"; "checkbox"; "radio"; "tab"; "menu"; "menuitem";
   "combobox"; "listbox"; "option"; "slider"; "switch";
   "dropdown"; "text_area"; "form"; "input_field"; "submit";
   "pseudo_button"; "icon_link"; "icon"; "other"].

Definition documented_category (label : string) : bool :=
  in_list label documented_labels || has_prefix "input_" label.

(** A tag name starts with an ASCII letter. *)
Definition valid_tag (tag : string) : bool :=
  match tag with
  | EmptyString => false
  | String c _ => UrlLib.is_alpha c
  end.

(** An attribute that is present: it has a value, and not the empty one. *)
Definition present (e : Selenium.WebElement) (name : string) : option string :=
  match Selenium.get_attribute e name with
  | Some v => if nonempty v then Some v else None
  | None => None
  end.

(** The seven rules of the locator chain, in the words of the
  specification; each gives its locator when it applies. *)
Definition by_id (e : Selenium.WebElement) : option string :=
  v ← present e "id"; Some ("#" +:+ v).

Definition by_data_test (e : Selenium.WebElement) : option string :=
  match present e "data-test" with
  | Some v => Some ("[data-test='" +:+ v +:+ "']")
  | None => v ← present e "data-testid"; Some ("[data-testid='" +:+ v +:+ "']")
  end.

Definition by_name (e : Selenium.WebElement) : option string :=
  v ← present e "name"; Some (Selenium.tag_name e +:+ "[name='" +:+ v +:+ "']").

Definition by_placeholder (e : Selenium.WebElement) : option string :=
  if in_list (Selenium.tag_name e) ["input"; "textarea"]
  then v ← present e "placeholder";
       Some (Selenium.tag_name e +:+ "[placeholder='" +:+ v +:+ "']")
  else None.

Definition reserved_prefix (token : string) : bool :=
  has_prefix "ng-" token || has_prefix "ui-" token.

Definition by_class (e : Selenium.WebElement) : option string :=
  v ← present e "class";
  match first_token v with
  | EmptyString => None
  | token =>
      if reserved_prefix token then None
      else Some (Selenium.tag_name e +:+ "." +:+ token)
  end.

Definition by_text (e : Selenium.WebElement) : option string :=
  let visible := strip (Selenium.text e) in
  match visible with
  | EmptyString => None
  | _ =>
      if (String.length visible <? 50)%nat
      then Some (Selenium.tag_name e +:+ ":contains('" +:+ escape_quotes visible +:+ "')")
      else None
  end.

Definition locator_rules : list (Selenium.WebElement -> option string) :=
  [by_id; by_data_test; by_name; by_placeholder; by_class; by_text].

(** The first applicable rule wins; the bare tag is the fallback. *)
Fixpoint first_applicable (rules : list (Selenium.WebElement -> option string))
    (e : Selenium.WebElement) : string :=
  match rules with
  | [] => Selenium.tag_name e
  | rule :: rest =>
      match rule e with
      | Some locator => locator
      | None => first_applicable rest e
      end
  end.

(** The last element of a list that passes a test: the value a loop
  variable keeps when every match overwrites it. *)
Definition last_match {A : Type} (test : A -> bool) (l : list A) : option A :=
  List.find test (List.rev l).

(** What makes a field the username field: the [elif] branch of the scan. *)
Definition username_role (field : EnhancedAnalyzer.ElementData) : bool :=
  negb (EnhancedAnalyzer.password_test field) && EnhancedAnalyzer.username_test field.

(** Input-like elements in the words of the specification. *)
Definition input_like (e : EnhancedAnalyzer.ElementData) : bool :=
  in_list (EnhancedAnalyzer.element_type e) ["input_field"; "text_area"; "dropdown"].

Definition named (name : string) (flow : EnhancedAnalyzer.Flow) : bool :=
  String.eqb (EnhancedAnalyzer.flow_name flow) name.

(** The button lowest on the page: the last one of greatest [y]. *)
Definition lowest_positioned (candidates : list EnhancedAnalyzer.ElementData)
  : option EnhancedAnalyzer.ElementData :=
  match candidates with
  | [] => None
  | c :: cs =>
      Some (foldl (fun best b =>
                     if EnhancedAnalyzer.y_of best <=? EnhancedAnalyzer.y_of b
                     then b else best) c cs)
  end.

(** The submit-button search in the words of the specification, with
  lowest-positioned read on the page, as below and bottommost are. *)
Definition submit_button_as_worded (input_fields buttons : list EnhancedAnalyzer.ElementData)
  : option EnhancedAnalyzer.ElementData :=
  match List.find EnhancedAnalyzer.submit_test buttons with
  | Some b => Some b
  | None =>
      let input_bottom := EnhancedAnalyzer.max_y input_fields in
      match lowest_positioned
              (List.filter (fun b => input_bottom <? EnhancedAnalyzer.y_of b) buttons) with
      | Some b => Some b
      | None => last buttons
      end
  end.


End Spec.

(** ** Sample elements *)
Module Sample.

Definition node (tag text : string) (y : Z) (attrs : list (string * string))
  : Selenium.WebElement := {|
  Selenium.tag_name := tag;
  Selenium.text := text;
  Selenium.is_displayed := true;
  Selenium.is_enabled := Some true;
  Selenium.location := (0, y);
  Selenium.size := (100, 20);
  Selenium.attrs := list_to_map attrs;
  Selenium.parent_tag := "div";
  Selenium.screenshot_as_base64 := None
|}.

(** The same node with another answer to [is_enabled()]. *)
Definition with_is_enabled (answer : option bool) (e : Selenium.WebElement)
  : Selenium.WebElement := {|
  Selenium.tag_name := Selenium.tag_name e;
  Selenium.text := Selenium.text e;
  Selenium.is_displayed := Selenium.is_displayed e;
  Selenium.is_enabled := answer;
  Selenium.location := Selenium.location e;
  Selenium.size := Selenium.size e;
  Selenium.attrs := Selenium.attrs e;
  Selenium.parent_tag := Selenium.parent_tag e;
  Selenium.screenshot_as_base64 := Selenium.screenshot_as_base64 e
|}.

Definition anchor : Selenium.WebElement :=
  node "a" "Home" 10 [("href", "http://shop.com/")].

Definition div_dropdown : Selenium.WebElement :=
  node "div" "Menu" 10 [("class", "nav dropdown-toggle")].

Definition anchor_switch : Selenium.WebElement :=
  node "a" "Dark mode" 10 [("role", "switch"); ("href", "http://shop.com/")].

Definition div_role_button : Selenium.WebElement :=
  node "div" "OK" 10 [("role", "button"); ("class", "btn btn-primary")].

Definition id_and_class : Selenium.WebElement :=
  node "input" EmptyString 10 [("id", "user"); ("class", "form-control"); ("type", "text")].

(** The records the analyzer extracts from a list of nodes. *)
Definition records (nodes : list Selenium.WebElement) : list EnhancedAnalyzer.ElementData :=
  omap EnhancedAnalyzer._extract_element_data nodes.

Definition login_page : list Selenium.WebElement :=
  [ node "input" EmptyString 10 [("id", "user"); ("type", "text")];
    node "input" EmptyString 40 [("id", "pw"); ("type", "password")];
    node "button" "Log In" 70 [] ].

(** Two text inputs, a select and a submit button. *)
Definition short_form : list Selenium.WebElement :=
  [ node "input" EmptyString 10 [("id", "first"); ("type", "text")];
    node "input" EmptyString 40 [("id", "last"); ("type", "text")];
    node "select" EmptyString 70 [("id", "country")];
    node "button" "Submit" 100 [("id", "go")] ].

(** The same form with a text area in place of the select. *)
Definition long_form : list Selenium.WebElement :=
  [ node "input" EmptyString 10 [("id", "first"); ("type", "text")];
    node "input" EmptyString 40 [("id", "last"); ("type", "text")];
    node "textarea" EmptyString 70 [("id", "notes")];
    node "button" "Submit" 100 [("id", "go")] ].

(** Three inputs and three buttons below them, none with a submit-like
  text or type. *)
Definition wizard : list Selenium.WebElement :=
  [ node "input" EmptyString 10 [("id", "q1"); ("type", "text")];
    node "input" EmptyString 30 [("id", "q2"); ("type", "text")];
    node "input" EmptyString 50 [("id", "q3"); ("type", "text")];
    node "button" "Cancel" 150 [("id", "cancel")];
    node "button" "Back" 100 [("id", "back")];
    node "button" "Next" 200 [("id", "next")] ].

Definition page_with_links (hrefs : list string) : Selenium.Page := {|
  Selenium.title := "Shop";
  Selenium.page_source := EmptyString;
  Selenium.find_elements := fun _ => Some [];
  Selenium.find_anchors := Some (map (fun h => node "a" "more" 0 [("href", h)]) hrefs)
|}.

(** A site whose front page links to three pages without links. *)
Definition shop : Selenium.Web := {|
  Selenium.chrome_starts := true;
  Selenium.firefox_starts := true;
  Selenium.fetch := fun _ url =>
    if String.eqb url "http://shop.com/"
    then Return (page_with_links
                   ["http://shop.com/a"; "http://shop.com/b"; "http://shop.com/c"])
    else Return (page_with_links [])
|}.

(** A machine on which no browser starts. *)
Definition no_browser : Selenium.Web := {|
  Selenium.chrome_starts := false;
  Selenium.firefox_starts := false;
  Selenium.fetch := fun _ _ => Raise "unreachable"
|}.

Definition budget (pages depth : Z) : SeleniumCrawler.Config := {|
  SeleniumCrawler.max_pages := pages;
  SeleniumCrawler.max_depth := depth;
  SeleniumCrawler.parser := ElementParser.default_config
|}.

End Sample.

(** ** What every state of the crawl loop satisfies *)
Module CrawlInvariant.
Import SeleniumCrawler.

(** The depth is not negative, the counter is the size of the visited
  set, every visited URL was fetched, and every fetch happened at a depth
  between 0 and [hi]. *)
Definition holds (hi : Z) (st : LoopState) : Prop :=
  0 <= current_depth st
  /\ pages_visited st = Z.of_nat (size (visited st))
  /\ (forall u, u ∈ visited st -> exists d, In (u, d) (get_log st))
  /\ (forall u d, In (u, d) (get_log st) -> 0 <= d <= hi).

(** [urlparse] answers for the URL. *)
Definition parses (urlparse : UrlLib.Parser) (url : string) : Prop :=
  exists parts, urlparse url = Return parts.

(** No exception is on its way, and [urlparse] answers for every URL of
  the frontier. *)
Definition calm (urlparse : UrlLib.Parser) (st : LoopState) : Prop :=
  raised st = None
  /\ (forall d urls, depth_urls st !! d = Some urls -> Forall (parses urlparse) urls).

End CrawlInvariant.

(** ** Further sample worlds and configurations *)
Module Fixture.

(** A site on which every page load fails. *)
Definition unreachable : Selenium.Web := {|
  Selenium.chrome_starts := true;
  Selenium.firefox_starts := true;
  Selenium.fetch := fun _ _ => Raise "net::ERR_CONNECTION_REFUSED"
|}.

(** A button that is also marked with the button role. *)
Definition role_button : Selenium.WebElement :=
  Sample.node "button" "Buy" 30 [("role", "button"); ("id", "buy")].

(** A page on which the selectors [button] and [[role='button']] both
  find that node. *)
Definition overlap_page : Selenium.Page := {|
  Selenium.title := "Shop";
  Selenium.page_source := EmptyString;
  Selenium.find_elements := fun selector =>
    if String.eqb selector "button" || String.eqb selector "[role='button']"
    then Some [role_button] else Some [];
  Selenium.find_anchors := Some []
|}.

Definition hidden_link : Selenium.WebElement := {|
  Selenium.tag_name := "a";
  Selenium.text := "Skip";
  Selenium.is_displayed := false;
  Selenium.is_enabled := Some true;
  Selenium.location := (0, 0);
  Selenium.size := (0, 0);
  Selenium.attrs := {[ "href" := "#main" ]};
  Selenium.parent_tag := "div";
  Selenium.screenshot_as_base64 := None
|}.

(** Seven links, given from the bottom of the page upwards. *)
Definition footer_first : list Selenium.WebElement :=
  map (fun '(y, name) => Sample.node "a" "page" y [("id", name)])
      [(700, "g"); (600, "f"); (500, "e"); (400, "d"); (300, "c"); (200, "b");
       (100, "a")].

(** [crawler: {max_depth: 2, max_pages: 20}, name: shop] *)
Definition settings_map : gmap string PyConfig.value :=
  {[ "crawler" := PyConfig.Dict {[ "max_depth" := PyConfig.Int 2;
                                   "max_pages" := PyConfig.Int 20 ]};
     "name" := PyConfig.Str "shop" ]}.

Definition settings : PyConfig.value := PyConfig.Dict settings_map.

(** [crawler: {max_depth: 5}, auth: {user: admin}] *)
Definition credentials_map : gmap string PyConfig.value :=
  {[ "crawler" := PyConfig.Dict {[ "max_depth" := PyConfig.Int 5 ]};
     "auth" := PyConfig.Dict {[ "user" := PyConfig.Str "admin" ]} ]}.

Definition credentials : PyConfig.value := PyConfig.Dict credentials_map.

(** [a: &x {k: 1}] with [b: *x]: one mapping under two keys. *)
Definition aliased : gmap PyObjects.addr (gmap string PyObjects.value) :=
  {[ 1%positive := {[ "a" := PyObjects.Ref 2%positive;
                      "b" := PyObjects.Ref 2%positive ]};
     2%positive := {[ "k" := PyObjects.Int 1 ]} ]}.

Definition both_files : PyConfig.Files := {|
  PyConfig.config_file := Some (Return settings);
  PyConfig.credentials_file := Some (Return credentials)
|}.

End Fixture.

(** * Properties *)

(** ** Strings and membership tests *)
Section StringFacts.
Import PyStr.

Lemma in_list_true (x : string) (l : list string) :
  in_list x l = true <-> In x l.
Proof.
  unfold in_list. rewrite existsb_exists. split.
  - intros (y & Hy & Heq). apply String.eqb_eq in Heq. now subst.
  - intros Hin. exists x. split; [assumption | apply String.eqb_refl].
Qed.

Lemma truthy_some (o : option string) :
  truthy o = true -> exists s, o = Some s /\ nonempty s = true /\ forall d, or_else o d = s.
Proof.
  destruct o as [[|c s]|]; simpl; try discriminate.
  intros _. exists (String c s). repeat split.
Qed.

Lemma nonempty_true (s : string) : nonempty s = true <-> s <> EmptyString.
Proof. destruct s; simpl; split; congruence. Qed.

Lemma append_nonempty_l (a b : string) : nonempty a = true -> nonempty (a +:+ b) = true.
Proof. destruct a; simpl; congruence. Qed.

Lemma append_nonempty_r (a b : string) : nonempty b = true -> nonempty (a +:+ b) = true.
Proof. destruct a; simpl; auto. Qed.

End StringFacts.

(** ** Classification *)
Section Classification.
Import PyStr Spec.

(** The test that opens both classifiers, for a list of roles without
    the empty string. *)
Lemma role_test (o : option string) (known : list string) :
  in_list EmptyString known = false ->
  forall r, o = Some r -> in_list r known = true ->
    truthy o && in_list (or_else o EmptyString) known = true
    /\ or_else o EmptyString = r.
Proof.
  intros Hne r -> Hin. destruct r as [|c r]; [congruence|].
  simpl. rewrite Hin. split; reflexivity.
Qed.

Lemma role_test_inv (o : option string) (known : list string) :
  truthy o && in_list (or_else o EmptyString) known = true ->
  In (or_else o EmptyString) known.
Proof.
  intros H. apply andb_true_iff in H as [_ H]. now apply in_list_true.
Qed.

Lemma input_label_documented (x : string) :
  documented_category ("input_" +:+ x) = true.
Proof. unfold documented_category. apply orb_true_iff. right. reflexivity. Qed.

Ltac each_label H :=
  simpl in H;
  repeat (destruct H as [H | H]; [subst; try rewrite <- H; reflexivity |]);
  try contradiction.

Lemma parser_label_documented (e : Selenium.WebElement) :
  documented_category (ElementParser._categorize_element e) = true.
Proof.
  unfold ElementParser._categorize_element.
  destruct (truthy _ && in_list _ ElementParser.roles) eqn:Hrole.
  - apply role_test_inv in Hrole. each_label Hrole.
  - repeat match goal with
           | |- context [if ?b then _ else _] => destruct b eqn:?
           | |- context [match ?o with Some _ => _ | None => _ end] => destruct o eqn:?
           end;
      try reflexivity; try apply input_label_documented.
    match goal with H : in_list _ _ = true |- _ => apply in_list_true in H; each_label H end.
Qed.

Lemma analyzer_label_documented (e : Selenium.WebElement) :
  documented_category (EnhancedAnalyzer._categorize_element e) = true
  \/ EnhancedAnalyzer._categorize_element e = "pseudo_dropdown".
Proof.
  unfold EnhancedAnalyzer._categorize_element.
  destruct (truthy _ && in_list _ EnhancedAnalyzer.roles) eqn:Hrole.
  - left. apply role_test_inv in Hrole. each_label Hrole.
  - repeat match goal with
           | |- context [if ?b then _ else _] => destruct b eqn:?
           | |- context [match ?o with Some _ => _ | None => _ end] => destruct o eqn:?
           end;
      try (left; reflexivity); try (right; reflexivity);
      try (left; apply input_label_documented).
    left.
    match goal with H : in_list _ _ = true |- _ => apply in_list_true in H; each_label H end.
Qed.

(** C2 (as amended).  [ElementParser._categorize_element] always answers
    a documented label, and a role attribute among its twelve roles is
    answered verbatim before any tag or class rule.
    [EnhancedAnalyzer._categorize_element] answers a documented label or
    [pseudo_dropdown], and gives that precedence to its six roles only. *)
Theorem categorize_total_role_first (e : Selenium.WebElement) :
  documented_category (ElementParser._categorize_element e) = true
  /\ (forall r, Selenium.get_attribute e "role" = Some r ->
                in_list r ElementParser.roles = true ->
                ElementParser._categorize_element e = r)
  /\ (documented_category (EnhancedAnalyzer._categorize_element e) = true
      \/ EnhancedAnalyzer._categorize_element e = "pseudo_dropdown")
  /\ (forall r, Selenium.get_attribute e "role" = Some r ->
                in_list r EnhancedAnalyzer.roles = true ->
                EnhancedAnalyzer._categorize_element e = r).
Proof.
  split; [apply parser_label_documented |].
  split.
  { intros r Hr Hin. unfold ElementParser._categorize_element.
    destruct (role_test _ ElementParser.roles eq_refl r Hr Hin) as [-> ->].
    reflexivity. }
  split; [apply analyzer_label_documented |].
  intros r Hr Hin. unfold EnhancedAnalyzer._categorize_element.
  destruct (role_test _ EnhancedAnalyzer.roles eq_refl r Hr Hin) as [-> ->].
  reflexivity.
Qed.

(** The example of the specification: a [div] with [role="button"] and a
    button-like class is a [button] for both classifiers. *)
Lemma categorize_total_role_first_witness :
  ElementParser._categorize_element Sample.div_role_button = "button"
  /\ EnhancedAnalyzer._categorize_element Sample.div_role_button = "button".
Proof.
  destruct (categorize_total_role_first Sample.div_role_button)
    as (_ & Hparser & _ & Hanalyzer).
  split; [apply Hparser | apply Hanalyzer]; reflexivity.
Defined.

(** C2, as stated, fails on the analyzer's classifier: a [div] whose class
    mentions a dropdown gets the undocumented label [pseudo_dropdown], and
    the recognized role [switch] on an anchor loses to the tag rule. *)
Lemma analyzer_label_undocumented :
  documented_category (EnhancedAnalyzer._categorize_element Sample.div_dropdown) = false
  /\ Selenium.get_attribute Sample.anchor_switch "role" = Some "switch"
  /\ in_list "switch" ElementParser.roles = true
  /\ EnhancedAnalyzer._categorize_element Sample.anchor_switch = "link".
Proof. repeat split; reflexivity. Qed.

End Classification.

(** ** Extraction: anchors *)
Section Anchors.
Import PyStr.

(** C10.  A record with tag name [a] always reports [is_enabled = true],
    from the parser and from the analyzer alike; for an anchor the answer
    of [is_enabled()], and even its raising, leaves the record unchanged. *)
Theorem anchor_reported_enabled (cfg : ElementParser.Config)
    (e : Selenium.WebElement) (url title : string) :
  (forall r, ElementParser._extract_element_data cfg e url title = Some r ->
             ElementParser.tag_name r = "a" -> ElementParser.is_enabled r = true)
  /\ (forall r, EnhancedAnalyzer._extract_element_data e = Some r ->
                EnhancedAnalyzer.tag_name r = "a" -> EnhancedAnalyzer.is_enabled r = true)
  /\ (Selenium.tag_name e = "a" ->
      forall answer,
        ElementParser._extract_element_data cfg (Sample.with_is_enabled answer e) url title
        = ElementParser._extract_element_data cfg e url title
        /\ EnhancedAnalyzer._extract_element_data (Sample.with_is_enabled answer e)
           = EnhancedAnalyzer._extract_element_data e).
Proof.
  split; [| split].
  - intros r. unfold ElementParser._extract_element_data.
    destruct (_ && negb _); [discriminate |].
    destruct (String.eqb (Selenium.tag_name e) "a") eqn:Htag; simpl.
    + intros [= <-]. reflexivity.
    + destruct (Selenium.is_enabled e); simpl; [| discriminate].
      intros [= <-]. simpl. intros Ha. rewrite Ha in Htag. discriminate.
  - intros r. unfold EnhancedAnalyzer._extract_element_data.
    destruct (negb _); [discriminate |].
    destruct (String.eqb (Selenium.tag_name e) "a") eqn:Htag; simpl.
    + intros [= <-]. reflexivity.
    + destruct (Selenium.is_enabled e); simpl; [| discriminate].
      intros [= <-]. simpl. intros Ha. rewrite Ha in Htag. discriminate.
  - intros Ha answer.
    unfold ElementParser._extract_element_data, EnhancedAnalyzer._extract_element_data.
    simpl. rewrite Ha. split; reflexivity.
Qed.

(** An anchor whose [is_enabled()] would raise is still extracted, enabled. *)
Lemma anchor_reported_enabled_witness :
  (ElementParser.is_enabled
     <$> ElementParser._extract_element_data ElementParser.default_config
           (Sample.with_is_enabled None Sample.anchor) "http://shop.com/" "Shop")
  = Some true
  /\ (EnhancedAnalyzer.is_enabled
        <$> EnhancedAnalyzer._extract_element_data
              (Sample.with_is_enabled (Some false) Sample.anchor))
     = Some true.
Proof.
  pose proof (anchor_reported_enabled ElementParser.default_config
                (Sample.with_is_enabled None Sample.anchor) "http://shop.com/" "Shop")
    as [Hp _].
  pose proof (anchor_reported_enabled ElementParser.default_config
                (Sample.with_is_enabled (Some false) Sample.anchor) EmptyString EmptyString)
    as [_ [Ha _]].
  split.
  - destruct (ElementParser._extract_element_data _ _ _ _) as [r|] eqn:Hr;
      [| discriminate Hr].
    simpl. f_equal. apply (Hp r eq_refl).
    injection Hr as <-. reflexivity.
  - destruct (EnhancedAnalyzer._extract_element_data _) as [r|] eqn:Hr;
      [| discriminate Hr].
    simpl. f_equal. apply (Ha r eq_refl).
    injection Hr as <-. reflexivity.
Defined.

End Anchors.

(** ** Locators *)
Section Locators.
Import PyStr Spec.

Lemma css_selector_truthy (e : Selenium.WebElement) :
  nonempty (Selenium.tag_name e) = true ->
  nonempty (EnhancedAnalyzer._generate_css_selector e) = true.
Proof.
  intros Htag. unfold EnhancedAnalyzer._generate_css_selector.
  repeat match goal with
         | |- context [if ?b then _ else _] => destruct b
         end;
    try reflexivity; try assumption; now apply append_nonempty_l.
Qed.

Lemma valid_tag_nonempty (tag : string) : valid_tag tag = true -> nonempty tag = true.
Proof. destruct tag; simpl; [discriminate | reflexivity]. Qed.

Lemma hash_form_not_tag_form (tag i rest : string) :
  valid_tag tag = true -> "#" +:+ i <> tag +:+ rest.
Proof.
  destruct tag as [|c tag]; simpl; [discriminate |].
  intros Hc [= <- _]. discriminate Hc.
Qed.

(** The chain below the first rule: each rule answers when the rules
    before it do not apply. *)
Lemma css_selector_chain (e : Selenium.WebElement) :
  let get := Selenium.get_attribute e in
  let tag := Selenium.tag_name e in
  let sel := EnhancedAnalyzer._generate_css_selector e in
  truthy (get "id") = false ->
  (forall v, get "data-test" = Some v -> nonempty v = true ->
             sel = "[data-test='" +:+ v +:+ "']")
  /\ (truthy (get "data-test") = false ->
      (forall v, get "data-testid" = Some v -> nonempty v = true ->
                 sel = "[data-testid='" +:+ v +:+ "']")
      /\ (truthy (get "data-testid") = false ->
          (forall v, get "name" = Some v -> nonempty v = true ->
                     sel = tag +:+ "[name='" +:+ v +:+ "']")
          /\ (truthy (get "name") = false ->
              (forall v, in_list tag ["input"; "textarea"] = true ->
                         get "placeholder" = Some v -> nonempty v = true ->
                         sel = tag +:+ "[placeholder='" +:+ v +:+ "']")
              /\ (in_list tag ["input"; "textarea"] && truthy (get "placeholder") = false ->
                  (forall v, get "class" = Some v -> nonempty v = true ->
                             nonempty (first_token v) = true ->
                             startswith (first_token v) "ng-" = false ->
                             startswith (first_token v) "ui-" = false ->
                             sel = tag +:+ "." +:+ first_token v)
                  /\ ((forall v, get "class" = Some v -> nonempty v = true ->
                                 nonempty (first_token v) = false
                                 \/ startswith (first_token v) "ng-" = true
                                 \/ startswith (first_token v) "ui-" = true) ->
                      sel = if nonempty (strip (Selenium.text e))
                               && (String.length (strip (Selenium.text e)) <? 50)%nat
                            then tag +:+ ":contains('"
                                 +:+ escape_quotes (strip (Selenium.text e)) +:+ "')"
                            else tag))))).
Proof.
  intros get tag sel Hid. subst get tag sel.
  unfold EnhancedAnalyzer._generate_css_selector. rewrite Hid.
  split.
  { intros v Hv Hne. rewrite Hv. simpl. rewrite Hne. reflexivity. }
  intros ->. split.
  { intros v Hv Hne. rewrite Hv. simpl. rewrite Hne. reflexivity. }
  intros ->. split.
  { intros v Hv Hne. rewrite Hv. simpl. rewrite Hne. reflexivity. }
  intros ->. split.
  { intros v Htag Hv Hne. rewrite Htag, Hv. simpl. rewrite Hne. reflexivity. }
  intros ->. split.
  { intros v Hv Hne Htok Hng Hui. rewrite Hv. cbn [truthy or_else].
    rewrite Hne, Htok, Hng, Hui. reflexivity. }
  intros Hclass.
  destruct (Selenium.get_attribute e "class") as [v|]; [| reflexivity].
  cbn [truthy or_else]. destruct (nonempty v) eqn:Hne; [| reflexivity].
  destruct (Hclass v eq_refl Hne) as [-> | [-> | ->]];
    rewrite ?orb_true_r; cbn [orb negb]; rewrite ?andb_false_r; reflexivity.
Qed.

(** The code and the chain of the specification give one locator. *)
Lemma css_selector_is_first_applicable (e : Selenium.WebElement) :
  EnhancedAnalyzer._generate_css_selector e = first_applicable locator_rules e.
Proof.
  unfold EnhancedAnalyzer._generate_css_selector, locator_rules.
  cbn [first_applicable].
  unfold by_id, by_data_test, by_name, by_placeholder, by_class, by_text, present.
  destruct (Selenium.get_attribute e "id") as [v|]; cbn [truthy or_else mbind option_bind];
    [destruct (nonempty v) eqn:Hv; cbn [mbind option_bind]; [reflexivity |] |];
  (destruct (Selenium.get_attribute e "data-test") as [v1|];
     cbn [truthy or_else mbind option_bind];
     [destruct (nonempty v1) eqn:Hv1; cbn [mbind option_bind]; [reflexivity |] |];
   (destruct (Selenium.get_attribute e "data-testid") as [v2|];
      cbn [truthy or_else mbind option_bind];
      [destruct (nonempty v2) eqn:Hv2; cbn [mbind option_bind]; [reflexivity |] |];
    (destruct (Selenium.get_attribute e "name") as [v3|];
       cbn [truthy or_else mbind option_bind];
       [destruct (nonempty v3) eqn:Hv3; cbn [mbind option_bind]; [reflexivity |] |];
     (destruct (in_list (Selenium.tag_name e) ["input"; "textarea"]);
        cbn [andb];
        [destruct (Selenium.get_attribute e "placeholder") as [v4|];
           cbn [truthy or_else mbind option_bind];
           [destruct (nonempty v4) eqn:Hv4; cbn [mbind option_bind]; [reflexivity |] |] |];
      (destruct (Selenium.get_attribute e "class") as [v5|];
         cbn [truthy or_else mbind option_bind andb];
         [destruct (nonempty v5) eqn:Hv5; cbn [mbind option_bind andb];
            [unfold reserved_prefix, startswith;
             destruct (first_token v5) as [| c token] eqn:Htok; cbn [nonempty andb];
               [| destruct (has_prefix "ng-" (String c token)
                            || has_prefix "ui-" (String c token));
                  cbn [negb]; [| reflexivity]] |] |];
       (destruct (strip (Selenium.text e)) as [| c' text'] eqn:Htext;
          cbn [nonempty andb]; [reflexivity |];
        destruct (String.length (String c' text') <? 50)%nat; reflexivity)))))).
Qed.

(** C3.  The locator of an element is never the empty string and comes
    from the first applicable rule of the chain: [#id]; the [data-test]
    selector, then the [data-testid] one; the [name] selector; the
    [placeholder] selector of an input or text area; [tag.firstClassToken]
    unless the class has no token or the token has a reserved prefix; the
    [:contains] form for a short text; the bare tag.  So an element with
    an [id] and a [class] gets the [#id] form, which is not the
    [tag.firstClassToken] form. *)
Theorem locator_nonempty_id_first (e : Selenium.WebElement) :
  valid_tag (Selenium.tag_name e) = true ->
  EnhancedAnalyzer._generate_css_selector e <> EmptyString
  /\ (forall i c,
        Selenium.get_attribute e "id" = Some i -> i <> EmptyString ->
        Selenium.get_attribute e "class" = Some c ->
        EnhancedAnalyzer._generate_css_selector e = "#" +:+ i
        /\ EnhancedAnalyzer._generate_css_selector e
           <> Selenium.tag_name e +:+ "." +:+ first_token c)
  /\ (forall i, Selenium.get_attribute e "id" = Some i -> i <> EmptyString ->
                EnhancedAnalyzer._generate_css_selector e = "#" +:+ i)
  /\ EnhancedAnalyzer._generate_css_selector e = first_applicable locator_rules e
  /\ (
      let get := Selenium.get_attribute e in
        let tag := Selenium.tag_name e in
        let sel := EnhancedAnalyzer._generate_css_selector e in
        truthy (get "id") = false ->
        (forall v, get "data-test" = Some v -> nonempty v = true ->
                   sel = "[data-test='" +:+ v +:+ "']")
        /\ (truthy (get "data-test") = false ->
            (forall v, get "data-testid" = Some v -> nonempty v = true ->
                       sel = "[data-testid='" +:+ v +:+ "']")
            /\ (truthy (get "data-testid") = false ->
                (forall v, get "name" = Some v -> nonempty v = true ->
                           sel = tag +:+ "[name='" +:+ v +:+ "']")
                /\ (truthy (get "name") = false ->
                    (forall v, in_list tag ["input"; "textarea"] = true ->
                               get "placeholder" = Some v -> nonempty v = true ->
                               sel = tag +:+ "[placeholder='" +:+ v +:+ "']")
                    /\ (in_list tag ["input"; "textarea"] && truthy (get "placeholder") = false ->
                        (forall v, get "class" = Some v -> nonempty v = true ->
                                   nonempty (first_token v) = true ->
                                   startswith (first_token v) "ng-" = false ->
                                   startswith (first_token v) "ui-" = false ->
                                   sel = tag +:+ "." +:+ first_token v)
                        /\ ((forall v, get "class" = Some v -> nonempty v = true ->
                                       nonempty (first_token v) = false
                                       \/ startswith (first_token v) "ng-" = true
                                       \/ startswith (first_token v) "ui-" = true) ->
                            sel = if nonempty (strip (Selenium.text e))
                                     && (String.length (strip (Selenium.text e)) <? 50)%nat
                                  then tag +:+ ":contains('"
                                       +:+ escape_quotes (strip (Selenium.text e)) +:+ "')"
                                  else tag)))))).
Proof.
  intros Htag.
  assert (forall i, Selenium.get_attribute e "id" = Some i -> i <> EmptyString ->
                    EnhancedAnalyzer._generate_css_selector e = "#" +:+ i) as Hid.
  { intros i Hi Hne. unfold EnhancedAnalyzer._generate_css_selector. rewrite Hi.
    apply nonempty_true in Hne. simpl. rewrite Hne. reflexivity. }
  split; [| split; [| split; [| split]]].
  - apply nonempty_true, css_selector_truthy, valid_tag_nonempty, Htag.
  - intros i c Hi Hne _. rewrite (Hid i Hi Hne).
    split; [reflexivity |]. now apply hash_form_not_tag_form.
  - exact Hid.
  - apply css_selector_is_first_applicable.
  - apply css_selector_chain.
Qed.

Lemma locator_nonempty_id_first_witness :
  EnhancedAnalyzer._generate_css_selector Sample.id_and_class = "#user".
Proof.
  apply (proj1 (proj2 (locator_nonempty_id_first Sample.id_and_class eq_refl))
           "user" "form-control" eq_refl ltac:(discriminate) eq_refl).
Defined.

End Locators.

(** ** Flow inference: the login detector *)
Section LoginFlow.
Import PyStr Spec EnhancedAnalyzer.

Lemma last_match_snoc {A : Type} (test : A -> bool) (l : list A) (x : A) :
  last_match test (l ++ [x]) = if test x then Some x else last_match test l.
Proof. unfold last_match. rewrite rev_unit. reflexivity. Qed.

Lemma last_match_some {A : Type} (test : A -> bool) (l : list A) (x : A) :
  last_match test l = Some x -> In x l /\ test x = true.
Proof.
  unfold last_match. intros H. apply List.find_some in H as [Hin Ht].
  split; [now apply in_rev | assumption].
Qed.

Lemma last_match_none {A : Type} (test : A -> bool) (l : list A) :
  last_match test l = None <-> forall x, In x l -> test x = false.
Proof.
  unfold last_match. split.
  - intros H x Hin. apply (List.find_none _ _ H). now apply in_rev in Hin.
  - intros H. destruct (List.find test (List.rev l)) as [x|] eqn:Hf; [| reflexivity].
    apply List.find_some in Hf as [Hin Ht]. apply in_rev in Hin.
    rewrite (H x Hin) in Ht. discriminate.
Qed.

Lemma find_none_iff {A : Type} (test : A -> bool) (l : list A) :
  List.find test l = None <-> forall x, In x l -> test x = false.
Proof.
  split; [apply List.find_none |].
  intros H. destruct (List.find test l) as [x|] eqn:Hf; [| reflexivity].
  apply List.find_some in Hf as [Hin Ht]. rewrite (H x Hin) in Ht. discriminate.
Qed.

(** The field loop keeps the last field of each role. *)
Lemma scan_fields (fields : list ElementData) :
  foldl scan_field (None, None) fields
  = (last_match username_role fields, last_match password_test fields).
Proof.
  induction fields as [| x l IH] using rev_ind; [reflexivity |].
  rewrite foldl_app. simpl. rewrite IH, !last_match_snoc.
  unfold scan_field, username_role. simpl.
  destruct (password_test x); simpl; [reflexivity |].
  destruct (username_test x); reflexivity.
Qed.

Lemma login_flow_cases (input_fields buttons : list ElementData) :
  _identify_login_flow input_fields buttons
  = match last_match username_role input_fields,
          last_match password_test input_fields,
          List.find login_button_test buttons with
    | Some u, Some p, Some b =>
        Some {| flow_name := "User Authentication";
                flow_description := "Log into the application";
                flow_steps :=
                  [ input_step (css_selector u) "standard_user" "Enter username";
                    input_step (css_selector p) "secret_sauce" "Enter password";
                    click_step (css_selector b) "Click login button" ] |}
    | _, _, _ => None
    end.
Proof. unfold _identify_login_flow. rewrite scan_fields. reflexivity. Qed.

Lemma form_flow_name (input_fields buttons : list ElementData) (flow : Flow) :
  _identify_form_flow input_fields buttons = Some flow ->
  flow_name flow = "Form Submission".
Proof.
  unfold _identify_form_flow.
  destruct input_fields, buttons; try discriminate.
  match goal with |- context [if ?c then _ else _] => destruct c end; [discriminate |].
  destruct (resolve_submit_button _ _); [| discriminate].
  intros [= <-]. reflexivity.
Qed.

Lemma login_flow_name (input_fields buttons : list ElementData) (flow : Flow) :
  _identify_login_flow input_fields buttons = Some flow ->
  flow_name flow = "User Authentication".
Proof.
  rewrite login_flow_cases.
  destruct (last_match username_role _); [| discriminate].
  destruct (last_match password_test _); [| discriminate].
  destruct (List.find login_button_test _); [| discriminate].
  intros [= <-]. reflexivity.
Qed.

(** Among the flows of [generate_user_flows], the authentication flows
    are exactly what the login detector answered: one flow or none. *)
Lemma authentication_flows (elements : list ElementData) :
  List.filter (named "User Authentication") (generate_user_flows elements)
  = option_list (_identify_login_flow (input_fields_of elements) (buttons_of elements)).
Proof.
  unfold generate_user_flows. destruct elements as [| e els]; [reflexivity |].
  set (fields := input_fields_of (e :: els)). set (buttons := buttons_of (e :: els)).
  rewrite !List.filter_app.
  assert (List.filter (named "User Authentication")
            (option_list (_identify_form_flow fields buttons)) = []) as ->.
  { destruct (_identify_form_flow fields buttons) as [fl|] eqn:Hf; [| reflexivity].
    simpl. unfold named. rewrite (form_flow_name _ _ _ Hf). reflexivity. }
  assert (List.filter (named "User Authentication")
            match links_of (e :: els) with
            | [] => []
            | _ :: _ => [navigation_flow (links_of (e :: els))]
            end = []) as ->.
  { destruct (links_of (e :: els)); reflexivity. }
  rewrite !app_nil_r.
  destruct (_identify_login_flow fields buttons) as [fl|] eqn:Hl; [| reflexivity].
  simpl. unfold named. rewrite (login_flow_name _ _ _ Hl). reflexivity.
Qed.

(** C4.  The login detector answers a flow only from a username field, a
    password field and a login button that it found, and then the flow is
    the three steps, in order; when no field has the username role, or
    none the password role, or no button is a login button, it answers
    nothing; when all three exist it answers; and [generate_user_flows]
    carries that answer as its only authentication flow. *)
Theorem login_flow_all_or_nothing (input_fields buttons : list ElementData) :
  (forall flow,
      _identify_login_flow input_fields buttons = Some flow ->
      exists u p b,
        last_match username_role input_fields = Some u
        /\ last_match password_test input_fields = Some p
        /\ List.find login_button_test buttons = Some b
        /\ flow_name flow = "User Authentication"
        /\ flow_steps flow
           = [ input_step (css_selector u) "standard_user" "Enter username";
               input_step (css_selector p) "secret_sauce" "Enter password";
               click_step (css_selector b) "Click login button" ])
  /\ ((forall f, In f input_fields -> username_role f = false) ->
      _identify_login_flow input_fields buttons = None)
  /\ ((forall f, In f input_fields -> username_test f = false) ->
      _identify_login_flow input_fields buttons = None)
  /\ ((forall f, In f input_fields -> password_test f = false) ->
      _identify_login_flow input_fields buttons = None)
  /\ ((forall b, In b buttons -> login_button_test b = false) ->
      _identify_login_flow input_fields buttons = None)
  /\ (forall u p b,
        In u input_fields -> username_role u = true ->
        In p input_fields -> password_test p = true ->
        In b buttons -> login_button_test b = true ->
        exists flow,
          _identify_login_flow input_fields buttons = Some flow
          /\ map step_action (flow_steps flow) = ["input"; "input"; "click"]
          /\ map step_value (flow_steps flow)
             = [Some "standard_user"; Some "secret_sauce"; None])
  /\ (forall elements,
        input_fields = input_fields_of elements -> buttons = buttons_of elements ->
        List.filter (named "User Authentication") (generate_user_flows elements)
        = option_list (_identify_login_flow input_fields buttons)).
Proof.
  rewrite login_flow_cases. repeat split.
  - intros flow.
    destruct (last_match username_role _) as [u|]; [| discriminate].
    destruct (last_match password_test _) as [p|]; [| discriminate].
    destruct (List.find login_button_test _) as [b|]; [| discriminate].
    intros [= <-]. exists u, p, b. repeat split.
  - intros H. apply last_match_none in H. rewrite H. reflexivity.
  - intros H.
    assert (last_match username_role input_fields = None) as ->; [| reflexivity].
    apply last_match_none. intros f Hf. unfold username_role.
    rewrite (H f Hf). apply andb_false_r.
  - intros H. apply last_match_none in H. rewrite H.
    destruct (last_match username_role _); reflexivity.
  - intros H. apply find_none_iff in H. rewrite H.
    destruct (last_match username_role _); [| reflexivity].
    destruct (last_match password_test _); reflexivity.
  - intros u p b Hu Hur Hp Hpr Hb Hbr.
    destruct (last_match username_role input_fields) as [u'|] eqn:Eu.
    2:{ rewrite last_match_none in Eu. rewrite (Eu u Hu) in Hur. discriminate. }
    destruct (last_match password_test input_fields) as [p'|] eqn:Ep.
    2:{ rewrite last_match_none in Ep. rewrite (Ep p Hp) in Hpr. discriminate. }
    destruct (List.find login_button_test buttons) as [b'|] eqn:Eb.
    2:{ rewrite find_none_iff in Eb. rewrite (Eb b Hb) in Hbr. discriminate. }
    eexists. repeat split.
  - intros elements -> ->. rewrite authentication_flows, login_flow_cases. reflexivity.
Qed.

(** The scenario of the specification: a text input, a password input and
    a Log In button give exactly one flow, whose locators are in order. *)
Lemma login_flow_all_or_nothing_witness :
  map (fun flow => (flow_name flow, map step_element (flow_steps flow)))
      (generate_user_flows (Sample.records Sample.login_page))
  = [("User Authentication", ["#user"; "#pw"; "button:contains('Log In')"])]
  /\ _identify_login_flow
       (input_fields_of (Sample.records (List.tail Sample.login_page)))
       (buttons_of (Sample.records (List.tail Sample.login_page))) = None.
Proof.
  split; [reflexivity |].
  apply (proj1 (proj2 (login_flow_all_or_nothing
           (input_fields_of (Sample.records (List.tail Sample.login_page)))
           (buttons_of (Sample.records (List.tail Sample.login_page)))))).
  intros f [<- | []]. reflexivity.
Defined.

End LoginFlow.

(** ** Flow inference: the form detector *)
Section FormFlow.
Import PyStr Spec EnhancedAnalyzer.

Lemma find_first {A : Type} (test : A -> bool) (l : list A) (x : A) :
  List.find test l = Some x ->
  test x = true
  /\ exists before after,
       l = (before ++ x :: after)%list /\ forall z, In z before -> test z = false.
Proof.
  induction l as [| h t IH]; simpl; [discriminate |].
  destruct (test h) eqn:Hh.
  - intros [= <-]. split; [assumption |]. exists [], t. split; [reflexivity |].
    intros z [].
  - intros Hf. destruct (IH Hf) as (Hx & before & after & -> & Hb).
    split; [assumption |]. exists (h :: before), after. split; [reflexivity |].
    intros z [<- | Hz]; [assumption | now apply Hb].
Qed.

(** The running minimum of [min_by_y]. *)
Lemma least_fold (cs : list ElementData) (best : ElementData) :
  let r := foldl (fun best b => if y_of b <? y_of best then b else best) best cs in
  (r = best \/ In r cs) /\ y_of r <= y_of best /\ forall b, In b cs -> y_of r <= y_of b.
Proof.
  revert best. induction cs as [| c cs IH]; intros best; simpl.
  - split; [now left |]. split; [lia |]. intros b [].
  - destruct (Z.ltb_spec (y_of c) (y_of best)) as [Hlt | Hge].
    + destruct (IH c) as ([-> | Hin] & Hle & Hall);
        (split; [right; auto |]); (split; [lia |]);
        intros b [<- | Hb]; auto.
    + destruct (IH best) as ([-> | Hin] & Hle & Hall);
        (split; [auto |]); (split; [lia |]);
        intros b [<- | Hb]; auto; lia.
Qed.

Lemma min_by_y_least (cs : list ElementData) (c : ElementData) :
  min_by_y cs = Some c -> In c cs /\ forall b, In b cs -> y_of c <= y_of b.
Proof.
  destruct cs as [| c0 cs]; simpl; [discriminate |].
  intros [= <-]. destruct (least_fold cs c0) as (Hin & Hle & Hall).
  split.
  - destruct Hin as [-> | Hin]; auto.
  - intros b [<- | Hb]; auto.
Qed.

(** The running maximum of [max_y]. *)
Lemma greatest_fold (fs : list ElementData) (m : Z) :
  let r := foldl (fun m g => Z.max m (y_of g)) m fs in
  m <= r /\ (forall f, In f fs -> y_of f <= r) /\ (r = m \/ exists f, In f fs /\ y_of f = r).
Proof.
  revert m. induction fs as [| f fs IH]; intros m; simpl.
  - split; [lia |]. split; [intros f [] | now left].
  - destruct (IH (Z.max m (y_of f))) as (Hle & Hall & Hex).
    split; [lia |]. split.
    + intros g [<- | Hg]; [lia | auto].
    + destruct Hex as [Heq | (g & Hg & Hy)].
      * destruct (Z.max_spec m (y_of f)) as [[_ Hm] | [_ Hm]].
        -- right. exists f. split; [now left | rewrite Heq; lia].
        -- left. rewrite Heq. lia.
      * right. exists g. split; [now right | assumption].
Qed.

Lemma max_y_greatest (fields : list ElementData) :
  fields <> [] ->
  (forall f, In f fields -> y_of f <= max_y fields)
  /\ exists f, In f fields /\ y_of f = max_y fields.
Proof.
  destruct fields as [| f fs]; [congruence |]. intros _. simpl.
  destruct (greatest_fold fs (y_of f)) as (Hle & Hall & Hex). split.
  - intros g [<- | Hg]; auto.
  - destruct Hex as [Heq | (g & Hg & Hy)].
    + exists f. split; [now left | now symmetry].
    + exists g. split; [now right | assumption].
Qed.

Lemma resolve_submit_button_some (input_fields buttons : list ElementData) :
  buttons <> [] -> exists b, resolve_submit_button input_fields buttons = Some b.
Proof.
  intros Hne. unfold resolve_submit_button.
  destruct (List.find submit_test buttons) as [b|]; [eauto |].
  destruct (min_by_y _) as [b|]; [eauto |].
  apply last_is_Some in Hne as [b Hb]. eauto.
Qed.

Lemma form_flow_cases (input_fields buttons : list ElementData) :
  _identify_form_flow input_fields buttons
  = if (3 <=? length input_fields)%nat
    then match resolve_submit_button input_fields buttons with
         | Some b =>
             if (0 <? length buttons)%nat
             then Some {| flow_name := "Form Submission";
                          flow_description := "Fill out and submit a form";
                          flow_steps :=
                            (map field_step (take 5 input_fields)
                             ++ [click_step (css_selector b) ("Click " +:+ text b)])%list |}
             else None
         | None => None
         end
    else None.
Proof.
  unfold _identify_form_flow.
  destruct input_fields as [| f1 [| f2 [| f3 fs]]], buttons as [| b bs];
    try reflexivity.
  all: simpl; destruct (resolve_submit_button _ _); reflexivity.
Qed.

Lemma form_flow_emitted (input_fields buttons : list ElementData) :
  is_Some (_identify_form_flow input_fields buttons)
  <-> (3 <= length input_fields)%nat /\ buttons <> [].
Proof.
  rewrite form_flow_cases. split.
  - destruct (Nat.leb_spec 3 (length input_fields)) as [Hle | Hlt].
    2:{ intros [x Hx]. discriminate. }
    destruct buttons as [| b bs].
    + destruct (resolve_submit_button input_fields []); intros [x Hx]; discriminate.
    + intros _. split; [assumption | discriminate].
  - intros [Hle Hne].
    destruct (Nat.leb_spec 3 (length input_fields)) as [_ | Hlt]; [| lia].
    destruct (resolve_submit_button_some input_fields buttons Hne) as [b ->].
    destruct buttons; [congruence |]. simpl. eauto.
Qed.

Lemma filter_length_mono {A : Type} (p q : A -> bool) (l : list A) :
  (forall x, p x = true -> q x = true) ->
  (length (List.filter p l) <= length (List.filter q l))%nat.
Proof.
  intros Hpq. induction l as [| a l IH]; [reflexivity |].
  cbn [List.filter]. destruct (p a) eqn:Hp.
  - rewrite (Hpq a Hp). cbn [length]. lia.
  - destruct (q a); cbn [length]; lia.
Qed.

Lemma input_fields_are_input_like (elements : list ElementData) :
  (length (input_fields_of elements) <= length (List.filter input_like elements))%nat.
Proof.
  apply filter_length_mono. intros e. unfold type_in, input_like.
  rewrite !in_list_true. simpl. tauto.
Qed.

(** Among the flows of [generate_user_flows], the form flows are exactly
    what the form detector answered. *)
Lemma form_flows (elements : list ElementData) :
  List.filter (named "Form Submission") (generate_user_flows elements)
  = option_list (_identify_form_flow (input_fields_of elements) (buttons_of elements)).
Proof.
  unfold generate_user_flows. destruct elements as [| e els]; [reflexivity |].
  set (fields := input_fields_of (e :: els)). set (buttons := buttons_of (e :: els)).
  rewrite !List.filter_app.
  assert (List.filter (named "Form Submission")
            (option_list (_identify_login_flow fields buttons)) = []) as ->.
  { destruct (_identify_login_flow fields buttons) as [fl|] eqn:Hf; [| reflexivity].
    simpl. unfold named. rewrite (login_flow_name _ _ _ Hf). reflexivity. }
  assert (List.filter (named "Form Submission")
            match links_of (e :: els) with
            | [] => []
            | _ :: _ => [navigation_flow (links_of (e :: els))]
            end = []) as ->.
  { destruct (links_of (e :: els)); reflexivity. }
  rewrite app_nil_r. simpl.
  destruct (_identify_form_flow fields buttons) as [fl|] eqn:Hl; [| reflexivity].
  simpl. unfold named. rewrite (form_flow_name _ _ _ Hl). reflexivity.
Qed.

(** C5 (as amended).  The form detector answers a flow exactly when there
    are at least three input fields, counting the types [input_field] and
    [text_area] only, and at least one button; so two or fewer input-like
    elements, dropdowns included, never give a form flow. *)
Theorem form_flow_threshold (elements : list ElementData) :
  (is_Some (_identify_form_flow (input_fields_of elements) (buttons_of elements))
   <-> (3 <= length (input_fields_of elements))%nat /\ buttons_of elements <> [])
  /\ ((length (List.filter input_like elements) <= 2)%nat ->
      _identify_form_flow (input_fields_of elements) (buttons_of elements) = None)
  /\ List.filter (named "Form Submission") (generate_user_flows elements)
     = option_list (_identify_form_flow (input_fields_of elements) (buttons_of elements)).
Proof.
  split; [apply form_flow_emitted |]. split; [| apply form_flows].
  intros Hle. pose proof (input_fields_are_input_like elements) as Hin.
  destruct (_identify_form_flow _ _) as [fl|] eqn:Hf; [| reflexivity].
  assert (is_Some (_identify_form_flow (input_fields_of elements) (buttons_of elements)))
    as Hs by (rewrite Hf; eauto).
  apply form_flow_emitted in Hs as [H3 _]. lia.
Qed.

(** Three input fields and a button: the detector fires. *)
Lemma form_flow_threshold_witness :
  map (fun flow => (flow_name flow, map step_element (flow_steps flow)))
      (generate_user_flows (Sample.records Sample.long_form))
  = [("Form Submission", ["#first"; "#last"; "#notes"; "#go"])]
  /\ is_Some (_identify_form_flow (input_fields_of (Sample.records Sample.long_form))
                (buttons_of (Sample.records Sample.long_form))).
Proof.
  split; [reflexivity |].
  apply (proj1 (form_flow_threshold (Sample.records Sample.long_form))).
  split; [vm_compute; lia | discriminate].
Defined.

(** C5, as stated, fails: two text inputs and a select are three
    input-like elements, a submit button is there, and no flow comes out. *)
Lemma dropdown_not_counted :
  length (List.filter input_like (Sample.records Sample.short_form)) = 3%nat
  /\ map text (buttons_of (Sample.records Sample.short_form)) = ["Submit"]
  /\ _identify_form_flow (input_fields_of (Sample.records Sample.short_form))
       (buttons_of (Sample.records Sample.short_form)) = None
  /\ generate_user_flows (Sample.records Sample.short_form) = [].
Proof. repeat split; reflexivity. Qed.

(** C6 (as amended).  The submit button is the first button with a
    submit-like text or type; failing that, among the buttons strictly
    below the bottommost input field, one of least [y], that is the one
    nearest to the fields; failing that, the last button of the list.
    The flow ends with a click on that button. *)
Theorem submit_button_order (input_fields buttons : list ElementData) :
  (forall b, List.find submit_test buttons = Some b ->
     resolve_submit_button input_fields buttons = Some b
     /\ submit_test b = true
     /\ exists before after,
          buttons = (before ++ b :: after)%list
          /\ forall z, In z before -> submit_test z = false)
  /\ (List.find submit_test buttons = None ->
      ((exists b, In b buttons /\ max_y input_fields < y_of b) ->
       exists c,
         resolve_submit_button input_fields buttons = Some c
         /\ In c buttons /\ max_y input_fields < y_of c
         /\ forall b, In b buttons -> max_y input_fields < y_of b -> y_of c <= y_of b)
      /\ ((forall b, In b buttons -> y_of b <= max_y input_fields) ->
          resolve_submit_button input_fields buttons = last buttons))
  /\ (input_fields <> [] ->
      (forall f, In f input_fields -> y_of f <= max_y input_fields)
      /\ exists f, In f input_fields /\ y_of f = max_y input_fields)
  /\ (forall flow,
        _identify_form_flow input_fields buttons = Some flow ->
        exists b,
          resolve_submit_button input_fields buttons = Some b
          /\ flow_steps flow
             = (map field_step (take 5 input_fields)
                ++ [click_step (css_selector b) ("Click " +:+ text b)])%list).
Proof.
  split; [| split; [| split]].
  - intros b Hb. unfold resolve_submit_button. rewrite Hb.
    split; [reflexivity |]. now apply find_first.
  - intros Hnone. unfold resolve_submit_button. rewrite Hnone. split.
    + intros (b & Hb & Hy).
      destruct (min_by_y _) as [c|] eqn:Hc.
      * apply min_by_y_least in Hc as [Hin Hmin].
        apply List.filter_In in Hin as [Hin Hlt]. apply Z.ltb_lt in Hlt.
        exists c. repeat split; auto.
        intros b' Hb' Hy'. apply Hmin, List.filter_In. split; [assumption |].
        now apply Z.ltb_lt.
      * exfalso. unfold min_by_y in Hc.
        destruct (List.filter _ buttons) as [| c cs] eqn:Hf; [| discriminate].
        assert (In b (List.filter (fun b => max_y input_fields <? y_of b) buttons)) as Hin.
        { apply List.filter_In. split; [assumption | now apply Z.ltb_lt]. }
        rewrite Hf in Hin. destruct Hin.
    + intros Hall.
      assert (List.filter (fun b => max_y input_fields <? y_of b) buttons = []) as ->.
      { induction buttons as [| b bs IH]; [reflexivity |]. simpl.
        destruct (Z.ltb_spec (max_y input_fields) (y_of b)) as [Hlt | _].
        - specialize (Hall b (or_introl eq_refl)). lia.
        - apply IH.
          + simpl in Hnone. destruct (submit_test b); [discriminate | assumption].
          + intros z Hz. apply Hall. now right. }
      reflexivity.
  - apply max_y_greatest.
  - intros flow. rewrite form_flow_cases.
    destruct (3 <=? length input_fields)%nat; [| discriminate].
    destruct (resolve_submit_button input_fields buttons) as [b|]; [| discriminate].
    destruct (0 <? length buttons)%nat; [| discriminate].
    intros [= <-]. exists b. split; reflexivity.
Qed.

Lemma submit_button_order_witness :
  css_selector <$> resolve_submit_button (input_fields_of (Sample.records Sample.long_form))
                     (buttons_of (Sample.records Sample.long_form))
  = Some "#go".
Proof.
  destruct (List.find submit_test (buttons_of (Sample.records Sample.long_form)))
    as [b|] eqn:Hb; [| discriminate Hb].
  destruct (proj1 (submit_button_order
                     (input_fields_of (Sample.records Sample.long_form))
                     (buttons_of (Sample.records Sample.long_form))) b Hb) as [-> _].
  injection Hb as <-. reflexivity.
Defined.

(** C6, as stated, fails: with no submit-like button and three buttons
    below the fields, the code takes the one at [y = 100], nearest to the
    fields, and not the one lowest on the page at [y = 200]. *)
Lemma nearest_not_lowest :
  (css_selector <$> resolve_submit_button (input_fields_of (Sample.records Sample.wizard))
                      (buttons_of (Sample.records Sample.wizard))) = Some "#back"
  /\ (css_selector <$> submit_button_as_worded
                         (input_fields_of (Sample.records Sample.wizard))
                         (buttons_of (Sample.records Sample.wizard))) = Some "#next"
  /\ map (fun b => (css_selector b, y_of b)) (buttons_of (Sample.records Sample.wizard))
     = [("#cancel", 150); ("#back", 100); ("#next", 200)]
  /\ max_y (input_fields_of (Sample.records Sample.wizard)) = 50
  /\ List.find submit_test (buttons_of (Sample.records Sample.wizard)) = None.
Proof. repeat split; reflexivity. Qed.

End FormFlow.

(** ** The crawl filter *)
Section CrawlFilter.
Import PyStr Spec SeleniumCrawler.

Lemma has_prefix_split (p s : string) :
  has_prefix p s = true -> exists rest, s = p +:+ rest.
Proof.
  revert s. induction p as [| a p IH]; intros s; simpl.
  - intros _. exists s. reflexivity.
  - destruct s as [| b s]; [discriminate |].
    intros H. apply andb_true_iff in H as [Hab Hp].
    apply Ascii.eqb_eq in Hab as ->. destruct (IH s Hp) as [rest ->].
    exists rest. reflexivity.
Qed.





End CrawlFilter.

(** ** The crawl loop *)
Section CrawlLoop.
Import SeleniumCrawler.
Variables (urlparse : UrlLib.Parser) (web : Selenium.Web) (cfg : Config)
  (domain : string).

Ltac loop_fields :=
  cbn [session visited all_elements_data current_depth pages_visited depth_urls get_log
       raised raise_in].

Ltac loop_fields_everywhere :=
  cbn [session visited all_elements_data current_depth pages_visited depth_urls get_log
       raised raise_in] in *.

Lemma visit_invariant (hi : Z) (st : LoopState) (url : string) :
  CrawlInvariant.holds hi st -> current_depth st <= hi -> url ∉ visited st ->
  CrawlInvariant.holds hi (visit urlparse web cfg domain st url)
  /\ current_depth (visit urlparse web cfg domain st url) = current_depth st.
Proof.
  intros (Hd & Hn & Hv & Hl) Hhi Hnew.
  assert (forall u d, In (u, d) (get_log st ++ [(url, current_depth st)]) -> 0 <= d <= hi)
    as Hlog.
  { intros u d Hin. apply in_app_or in Hin as [Hin | [[= _ <-] | []]];
      [apply (Hl u d Hin) | lia]. }
  unfold visit, CrawlInvariant.holds.
  destruct (Selenium.fetch web _ url) as [page | msg]; loop_fields.
  - split; [| reflexivity]. split; [assumption |]. split; [| split; [| exact Hlog]].
    + rewrite size_union by (apply disjoint_singleton_l; exact Hnew).
      rewrite size_singleton. lia.
    + intros u Hu. apply elem_of_union in Hu as [Hu | Hu].
      * apply elem_of_singleton in Hu. subst u. exists (current_depth st).
        apply in_or_app. right. now left.
      * destruct (Hv u Hu) as [d Hin]. exists d. apply in_or_app. now left.
  - split; [| reflexivity]. split; [assumption |]. split; [assumption |].
    split; [| exact Hlog].
    intros u Hu. destruct (Hv u Hu) as [d Hin]. exists d. apply in_or_app. now left.
Qed.

Lemma process_url_invariant (hi : Z) (st : LoopState) (url : string) :
  CrawlInvariant.holds hi st -> current_depth st <= hi ->
  CrawlInvariant.holds hi (process_url urlparse web cfg domain st url)
  /\ current_depth (process_url urlparse web cfg domain st url) = current_depth st.
Proof.
  intros Hinv Hhi. unfold process_url.
  destruct (raised st); [now split |].
  destruct (bool_decide (url ∈ visited st)) eqn:Hv; [now split |].
  apply bool_decide_eq_false in Hv.
  destruct (should_crawl_url urlparse (visited st) domain url) as [[|] | msg];
    [now apply visit_invariant | now split | now split].
Qed.

Lemma level_urls_invariant (hi : Z) (urls : list string) (st : LoopState) :
  CrawlInvariant.holds hi st -> current_depth st <= hi ->
  CrawlInvariant.holds hi (foldl (process_url urlparse web cfg domain) st urls)
  /\ current_depth (foldl (process_url urlparse web cfg domain) st urls)
     = current_depth st.
Proof.
  revert st. induction urls as [| url urls IH]; intros st Hinv Hhi; [now split |].
  cbn [foldl]. destruct (process_url_invariant hi st url Hinv Hhi) as [Hinv' Hd].
  destruct (IH _ Hinv') as [Hinv'' Hd'']; [lia |]. split; [assumption | lia].
Qed.

(** A link that the link loop accepts is a URL that [urlparse] answers
    for, and one that is not visited. *)
Lemma link_accepted_parses (visited : gset string) (href : string) :
  link_accepted urlparse visited domain href = true ->
  CrawlInvariant.parses urlparse href
  /\ (href ∉ visited)
  /\ should_crawl_url urlparse visited domain href = Return true.
Proof.
  unfold link_accepted. intros H. apply andb_true_iff in H as [_ H].
  destruct (should_crawl_url urlparse visited domain href) as [answer | msg] eqn:Hs;
    [| discriminate]. subst answer.
  split; [| split; [| reflexivity]]; unfold should_crawl_url in Hs;
    destruct (bool_decide (href ∈ visited)) eqn:Hv; try discriminate.
  - unfold extract_domain in Hs. unfold CrawlInvariant.parses.
    destruct (urlparse href) as [parts | msg]; [eauto | discriminate].
  - now apply bool_decide_eq_false in Hv.
Qed.

Lemma enqueue_links_parse (visited : gset string) (d : Z)
    (links : list Selenium.WebElement) (m : gmap Z (list string)) :
  (forall k urls, m !! k = Some urls -> Forall (CrawlInvariant.parses urlparse) urls) ->
  forall k urls,
    enqueue_links urlparse domain visited d links m !! k = Some urls ->
    Forall (CrawlInvariant.parses urlparse) urls.
Proof.
  unfold enqueue_links. revert m.
  induction links as [| link links IH]; intros m Hm; [exact Hm |].
  cbn [foldl]. apply IH.
  destruct (Selenium.get_attribute link "href") as [href|]; [| exact Hm].
  destruct (link_accepted urlparse visited domain href) eqn:Hok; [| exact Hm].
  apply link_accepted_parses in Hok as [Hparses _].
  intros k urls. unfold append_at.
  destruct (decide (k = d)) as [-> | Hne].
  - rewrite lookup_insert_eq. intros [= <-]. apply Forall_app. split.
    + destruct (m !! d) as [old|] eqn:Hold; [apply (Hm d old Hold) | constructor].
    + constructor; [exact Hparses | constructor].
  - rewrite lookup_insert_ne by congruence. apply Hm.
Qed.

Lemma visit_calm (st : LoopState) (url : string) :
  CrawlInvariant.calm urlparse st ->
  CrawlInvariant.calm urlparse (visit urlparse web cfg domain st url).
Proof.
  intros [Hr Hq]. unfold visit, CrawlInvariant.calm.
  destruct (Selenium.fetch web _ url) as [page | msg]; loop_fields;
    (split; [exact Hr |]); [| exact Hq].
  destruct (Selenium.find_anchors page) as [links|]; [| exact Hq].
  now apply enqueue_links_parse.
Qed.

Lemma process_url_calm (st : LoopState) (url : string) :
  CrawlInvariant.calm urlparse st -> CrawlInvariant.parses urlparse url ->
  CrawlInvariant.calm urlparse (process_url urlparse web cfg domain st url).
Proof.
  intros Hcalm [parts Hparts]. unfold process_url.
  destruct (raised st); [exact Hcalm |].
  destruct (bool_decide (url ∈ visited st)); [exact Hcalm |].
  unfold should_crawl_url, extract_domain.
  destruct (bool_decide (url ∈ visited st)); [exact Hcalm |].
  rewrite Hparts.
  repeat match goal with
         | |- context [if ?c then _ else _] => destruct c; try exact Hcalm
         end.
  now apply visit_calm.
Qed.

Lemma level_calm (urls : list string) (st : LoopState) :
  CrawlInvariant.calm urlparse st -> Forall (CrawlInvariant.parses urlparse) urls ->
  CrawlInvariant.calm urlparse (foldl (process_url urlparse web cfg domain) st urls).
Proof.
  revert st. induction urls as [| url urls IH]; intros st Hcalm Hurls; [exact Hcalm |].
  cbn [foldl]. apply Forall_cons in Hurls as [Hurl Hurls].
  apply IH; [now apply process_url_calm | exact Hurls].
Qed.

Lemma level_end_calm (st : LoopState) :
  CrawlInvariant.calm urlparse st ->
  CrawlInvariant.calm urlparse
    (foldl (process_url urlparse web cfg domain) (level_start st)
       (default [] (depth_urls st !! current_depth st))).
Proof.
  intros [Hr Hq]. apply level_calm.
  - split; [exact Hr |]. unfold level_start. loop_fields. intros k urls.
    destruct (decide (k = current_depth st + 1)) as [-> | Hne].
    + rewrite lookup_insert_eq. intros [= <-]. constructor.
    + rewrite lookup_insert_ne by congruence. apply Hq.
  - destruct (depth_urls st !! current_depth st) as [urls|] eqn:Hl;
      [apply (Hq _ _ Hl) | constructor].
Qed.

(** While the frontier holds only URLs that [urlparse] answers for, no
    level raises. *)
Lemma crawl_level_calm (st : LoopState) :
  CrawlInvariant.calm urlparse st ->
  CrawlInvariant.calm urlparse (crawl_level urlparse web cfg domain st).
Proof.
  intros Hcalm. pose proof (level_end_calm st Hcalm) as [Hr Hq].
  unfold crawl_level. cbv zeta. rewrite Hr.
  split; [reflexivity | exact Hq].
Qed.

Lemma crawl_level_invariant (hi : Z) (st : LoopState) :
  CrawlInvariant.holds hi st -> CrawlInvariant.calm urlparse st ->
  current_depth st <= hi ->
  CrawlInvariant.holds hi (crawl_level urlparse web cfg domain st)
  /\ current_depth (crawl_level urlparse web cfg domain st) = current_depth st + 1.
Proof.
  intros Hinv Hcalm Hhi.
  pose proof (level_end_calm st Hcalm) as [Hr _].
  pose proof (level_urls_invariant hi (default [] (depth_urls st !! current_depth st))
                (level_start st) Hinv Hhi)
    as [(Hd & Hn & Hv & Hl) Hcd].
  unfold crawl_level, CrawlInvariant.holds. cbv zeta.
  rewrite Hr. loop_fields_everywhere. rewrite Hcd.
  split; [split; [lia | split; [assumption | split; assumption]] | reflexivity].
Qed.

Lemma loop_test_depth (queue : list string) (st : LoopState) :
  loop_test cfg queue st = true ->
  pages_visited st < max_pages cfg /\ current_depth st <= max_depth cfg.
Proof.
  unfold loop_test. destruct queue; [discriminate |].
  intros H. apply andb_true_iff in H as [Hp Hd]. split; lia.
Qed.

Lemma crawl_loop_invariant (fuel : nat) (queue : list string) (st : LoopState) :
  CrawlInvariant.holds (max_depth cfg) st -> CrawlInvariant.calm urlparse st ->
  CrawlInvariant.holds (max_depth cfg) (crawl_loop fuel urlparse web cfg domain queue st)
  /\ CrawlInvariant.calm urlparse (crawl_loop fuel urlparse web cfg domain queue st).
Proof.
  revert st. induction fuel as [| fuel IH]; intros st Hinv Hcalm; [now split |].
  cbn [crawl_loop]. destruct (loop_test cfg queue st) eqn:Ht; [| now split].
  apply loop_test_depth in Ht as [_ Hd].
  pose proof (crawl_level_calm st Hcalm) as Hcalm'.
  destruct (crawl_level_invariant _ st Hinv Hcalm Hd) as [Hinv' _].
  destruct Hcalm' as [Hr Hq]. rewrite Hr. apply IH; [exact Hinv' | now split].
Qed.

(** With [enough_fuel] the loop ends because its test fails, and not
    because the fuel is spent. *)
Lemma crawl_loop_exits (fuel : nat) (queue : list string) (st : LoopState) :
  (Z.to_nat (max_depth cfg + 1 - current_depth st) <= fuel)%nat ->
  CrawlInvariant.holds (max_depth cfg) st -> CrawlInvariant.calm urlparse st ->
  loop_test cfg queue (crawl_loop fuel urlparse web cfg domain queue st) = false.
Proof.
  revert st. induction fuel as [| fuel IH]; intros st Hfuel Hinv Hcalm; cbn [crawl_loop].
  - unfold loop_test. destruct queue; [reflexivity |].
    apply andb_false_iff. right. apply Z.leb_gt. lia.
  - destruct (loop_test cfg queue st) eqn:Ht; [| exact Ht].
    apply loop_test_depth in Ht as [_ Hd].
    destruct (crawl_level_invariant _ st Hinv Hcalm Hd) as [Hinv' Hcd].
    destruct (crawl_level_calm st Hcalm) as [Hr Hq]. rewrite Hr.
    apply IH; [rewrite Hcd; lia | exact Hinv' | now split].
Qed.

Lemma initial_state_invariant (hi : Z) (start_url : string) :
  CrawlInvariant.holds hi (initial_state start_url).
Proof.
  unfold CrawlInvariant.holds, initial_state. loop_fields.
  repeat split; try lia; try contradiction.
  intros u Hu. set_solver.
Qed.

Lemma initial_state_calm (start_url : string) :
  CrawlInvariant.parses urlparse start_url ->
  CrawlInvariant.calm urlparse (initial_state start_url).
Proof.
  intros Hparses. split; [reflexivity |]. unfold initial_state. loop_fields.
  intros d urls Hl. apply lookup_singleton_Some in Hl as [_ <-].
  constructor; [exact Hparses | constructor].
Qed.

Lemma extract_domain_parses (url netloc : string) :
  extract_domain urlparse url = Return netloc -> CrawlInvariant.parses urlparse url.
Proof.
  unfold extract_domain, CrawlInvariant.parses.
  destruct (urlparse url) as [parts | msg]; [eauto | discriminate].
Qed.

End CrawlLoop.

(** ** Crawl budgets *)
Section CrawlBudget.
Import SeleniumCrawler.

Lemma enqueue_links_elsewhere (urlparse : UrlLib.Parser) (domain : string)
    (visited : gset string) (d k : Z) (links : list Selenium.WebElement)
    (m : gmap Z (list string)) :
  k <> d -> enqueue_links urlparse domain visited d links m !! k = m !! k.
Proof.
  intros Hk. unfold enqueue_links. revert m.
  induction links as [| link links IH]; intros m; [reflexivity |].
  cbn [foldl]. rewrite IH.
  destruct (Selenium.get_attribute link "href") as [href|]; [| reflexivity].
  destruct (link_accepted _ _ _ _); [| reflexivity].
  unfold append_at. apply lookup_insert_ne. congruence.
Qed.

(** The loop of a crawl that got as far as its session: its final state
    satisfies both invariants, and the loop test fails there. *)
Lemma crawl_end (urlparse : UrlLib.Parser) (web : Selenium.Web) (self : Crawler)
    (start_url : string) (st : LoopState) :
  locals (start_crawl urlparse web self start_url) = Some st ->
  exists domain,
    extract_domain urlparse start_url = Return domain
    /\ st = crawl_loop (enough_fuel (config self)) urlparse web (config self) domain
              [start_url] (initial_state start_url)
    /\ CrawlInvariant.holds (max_depth (config self)) st
    /\ CrawlInvariant.calm urlparse st
    /\ loop_test (config self) [start_url] st = false
    /\ result (start_crawl urlparse web self start_url) = Return (all_elements_data st)
    /\ visited_urls (self_after (start_crawl urlparse web self start_url)) = visited st.
Proof.
  unfold start_crawl.
  destruct (extract_domain urlparse start_url) as [domain | msg] eqn:Hdom;
    [| discriminate].
  destruct (Selenium.chrome_starts web); [| discriminate].
  cbn [locals result self_after visited_urls]. intros [= <-].
  pose proof (initial_state_invariant (max_depth (config self)) start_url) as Hinit.
  pose proof (initial_state_calm urlparse start_url
                (extract_domain_parses urlparse _ _ Hdom)) as Hcalm.
  destruct (crawl_loop_invariant urlparse web (config self) domain
              (enough_fuel (config self)) [start_url] _ Hinit Hcalm) as [Hinv Hend].
  exists domain. split; [reflexivity |]. split; [reflexivity |].
  split; [exact Hinv |]. split; [exact Hend |]. split.
  { apply crawl_loop_exits; [| exact Hinit | exact Hcalm].
    unfold enough_fuel, initial_state. cbn [current_depth]. lia. }
  destruct Hend as [-> _]. split; reflexivity.
Qed.

(** X1.  What does hold of every crawl: the loop ends by its own test, every
    fetch happens at a depth between 0 and [max_depth], each visited URL
    was fetched, and the page counter is the size of the visited set. *)
Lemma crawl_depth_bounded (urlparse : UrlLib.Parser) (web : Selenium.Web)
    (self : Crawler) (start_url : string) (st : LoopState) :
  locals (start_crawl urlparse web self start_url) = Some st ->
  loop_test (config self) [start_url] st = false
  /\ (forall u d, In (u, d) (get_log st) -> 0 <= d <= max_depth (config self))
  /\ (forall u, u ∈ visited st -> exists d, In (u, d) (get_log st))
  /\ pages_visited st = Z.of_nat (size (visited st))
  /\ visited_urls (self_after (start_crawl urlparse web self start_url)) = visited st
  /\ raised st = None.
Proof.
  intros Hrun.
  destruct (crawl_end urlparse web self start_url st Hrun)
    as (domain & _ & _ & (_ & Hn & Hv & Hl) & [Hr _] & Hexit & _ & Hvis).
  repeat split; try assumption; apply (Hl u d); assumption.
Qed.

(** C8 (as amended).  With [max_depth = 0] no page other than the start
    URL is ever fetched or visited, and level 0 of the frontier holds the
    start URL alone; level 1 may still receive the links of that page. *)
Theorem single_page_crawl (urlparse : UrlLib.Parser) (web : Selenium.Web)
    (self : Crawler) (start_url : string) (st : LoopState) :
  max_depth (config self) = 0 ->
  locals (start_crawl urlparse web self start_url) = Some st ->
  visited st ⊆ {[ start_url ]}
  /\ (forall u d, In (u, d) (get_log st) -> u = start_url /\ d = 0)
  /\ (length (get_log st) <= 1)%nat
  /\ depth_urls st !! 0 = Some [start_url].
Proof.
  intros Hmax Hrun.
  destruct (crawl_end urlparse web self start_url st Hrun)
    as (domain & _ & -> & _ & _ & _ & _ & _).
  clear Hrun. unfold enough_fuel. rewrite Hmax.
  change (Z.to_nat (0 + 1)) with 1%nat. cbn [crawl_loop].
  assert (forall st' : LoopState,
             match raised st' with Some _ => st' | None => st' end = st') as Hsame
    by (intros st'; destruct (raised st'); reflexivity).
  rewrite Hsame.
  destruct (loop_test _ _ _).
  2:{ unfold initial_state. cbn [visited get_log depth_urls].
      split; [apply empty_subseteq |]. split; [intros u d [] |].
      split; [cbn [length]; lia |]. apply lookup_singleton_eq. }
  assert (forall st1 : LoopState,
             visited st1 ⊆ {[ start_url ]}
             /\ (forall u d, In (u, d) (get_log st1) -> u = start_url /\ d = 0)
             /\ (length (get_log st1) <= 1)%nat
             /\ depth_urls st1 !! 0 = Some [start_url] ->
             let st2 :=
               match raised st1 with
               | Some _ => st1
               | None =>
                   {| session := session st1;
                      visited := visited st1;
                      all_elements_data := all_elements_data st1;
                      current_depth := current_depth st1 + 1;
                      pages_visited := pages_visited st1;
                      depth_urls := depth_urls st1;
                      get_log := get_log st1;
                      raised := None |}
               end in
             visited st2 ⊆ {[ start_url ]}
             /\ (forall u d, In (u, d) (get_log st2) -> u = start_url /\ d = 0)
             /\ (length (get_log st2) <= 1)%nat
             /\ depth_urls st2 !! 0 = Some [start_url]) as Hstep.
  { intros st1 H. cbv zeta. destruct (raised st1); exact H. }
  unfold crawl_level. cbv zeta. apply Hstep. clear Hstep Hsame.
  assert (default [] (depth_urls (initial_state start_url)
                      !! current_depth (initial_state start_url)) = [start_url]) as ->.
  { unfold initial_state. cbn [depth_urls current_depth].
    now rewrite lookup_singleton_eq. }
  cbn [foldl].
  assert (depth_urls (level_start (initial_state start_url)) !! 0 = Some [start_url])
    as Hzero.
  { unfold level_start, initial_state. cbn [depth_urls current_depth].
    rewrite lookup_insert_ne by lia. apply lookup_singleton_eq. }
  unfold process_url.
  change (raised (level_start (initial_state start_url))) with (@None string).
  change (visited (level_start (initial_state start_url))) with (∅ : gset string).
  cbv iota.
  destruct (bool_decide (start_url ∈ (∅ : gset string))).
  { split; [apply empty_subseteq |]. split; [intros u d [] |].
    split; [cbn [get_log level_start initial_state length]; lia | exact Hzero]. }
  destruct (should_crawl_url urlparse ∅ domain start_url) as [[|] | msg].
  2,3: (split; [apply empty_subseteq |]; split; [intros u d [] |];
        split; [cbn [get_log raise_in level_start initial_state length]; lia
               | exact Hzero]).
  unfold visit.
  change (get_log (level_start (initial_state start_url))) with (@nil (string * Z)).
  change (current_depth (level_start (initial_state start_url))) with 0.
  change (visited (level_start (initial_state start_url))) with (∅ : gset string).
  destruct (Selenium.fetch web _ start_url) as [page | msg];
    cbn [session visited all_elements_data current_depth pages_visited depth_urls get_log].
  - split; [apply union_subseteq; split; [reflexivity | apply empty_subseteq] |].
    split; [| split].
    + intros u d [[= <- <-] | []]. split; reflexivity.
    + cbn [app length]. lia.
    + destruct (Selenium.find_anchors page) as [links|]; [| exact Hzero].
      rewrite enqueue_links_elsewhere by lia. exact Hzero.
  - split; [apply empty_subseteq |]. split; [| split].
    + intros u d [[= <- <-] | []]. split; reflexivity.
    + cbn [app length]. lia.
    + exact Hzero.
Qed.

Lemma single_page_crawl_witness :
  exists st,
    locals (start_crawl UrlLib.plain_urlparse Sample.shop (__init__ (Sample.budget 20 0))
              "http://shop.com/")
    = Some st
    /\ get_log st = [("http://shop.com/", 0)]
    /\ visited st ⊆ {[ "http://shop.com/" ]}.
Proof.
  eexists. split; [reflexivity |]. split; [reflexivity |].
  apply (single_page_crawl UrlLib.plain_urlparse Sample.shop
           (__init__ (Sample.budget 20 0)) "http://shop.com/" _ eq_refl eq_refl).
Defined.

(** C8, as stated, fails on the frontier: with [max_depth = 0] the three
    links of the start page are enqueued at level 1, though none of them
    is fetched. *)
Lemma links_enqueued_at_depth_zero :
  (fun st => (depth_urls st !! 1, get_log st))
    <$> locals (start_crawl UrlLib.plain_urlparse Sample.shop
                  (__init__ (Sample.budget 20 0)) "http://shop.com/")
  = Some (Some ["http://shop.com/a"; "http://shop.com/b"; "http://shop.com/c"],
          [("http://shop.com/", 0)]).
Proof. vm_compute. reflexivity. Qed.

(** C1 fails on the code: with [max_pages = 2] and [max_depth = 1] the
    crawl of a front page with three links fetches and visits four pages,
    the last three while the counter is already at the budget or beyond. *)
Theorem page_budget_exceeded :
  (fun st => (size (visited st), pages_visited st, get_log st))
    <$> locals (start_crawl UrlLib.plain_urlparse Sample.shop
                  (__init__ (Sample.budget 2 1)) "http://shop.com/")
  = Some (4%nat, 4,
          [("http://shop.com/", 0); ("http://shop.com/a", 1);
           ("http://shop.com/b", 1); ("http://shop.com/c", 1)])
  /\ max_pages (Sample.budget 2 1) = 2.
Proof. split; [vm_compute |]; reflexivity. Qed.

End CrawlBudget.

(** ** Session failures *)
Section Sessions.
Import SeleniumCrawler.

(** C9 (as amended).  When no browser session can be established,
    [start_crawl] raises to its caller and leaves no session open, whereas
    [analyze_and_generate] catches the failure and returns an ordinary
    result record with the [error] field set, no elements and no flows.
    [start_crawl] also raises, before it asks for a session, when
    [urlparse] refuses the start URL.  When the start URL is accepted and
    a session starts, [start_crawl] returns whatever the pages do, and in
    every case [analyze_and_generate] returns and ends without a
    session. *)
Theorem session_failure_policy (urlparse : UrlLib.Parser) (web : Selenium.Web)
    (cfg : Config) (url : string) :
  (Selenium.chrome_starts web = false ->
   (exists msg, result (start_crawl urlparse web (__init__ cfg) url) = Raise msg)
   /\ open_sessions (self_after (start_crawl urlparse web (__init__ cfg) url)) = 0%nat)
  /\ (forall msg,
        extract_domain urlparse url = Raise msg ->
        result (start_crawl urlparse web (__init__ cfg) url) = Raise msg
        /\ locals (start_crawl urlparse web (__init__ cfg) url) = None
        /\ driver (self_after (start_crawl urlparse web (__init__ cfg) url)) = None
        /\ open_sessions (self_after (start_crawl urlparse web (__init__ cfg) url))
           = 0%nat)
  /\ (Selenium.chrome_starts web = true ->
      forall domain,
        extract_domain urlparse url = Return domain ->
        (exists elements,
            result (start_crawl urlparse web (__init__ cfg) url) = Return elements)
        /\ open_sessions (self_after (start_crawl urlparse web (__init__ cfg) url))
           = 0%nat)
  /\ (Selenium.chrome_starts web = false -> Selenium.firefox_starts web = false ->
      fst (EnhancedAnalyzer.analyze_and_generate web EnhancedAnalyzer.__init__ url)
      = Return (EnhancedAnalyzer.error_result url "Could not initialize any web driver"))
  /\ (exists results,
        fst (EnhancedAnalyzer.analyze_and_generate web EnhancedAnalyzer.__init__ url)
        = Return results)
  /\ EnhancedAnalyzer.driver
       (snd (EnhancedAnalyzer.analyze_and_generate web EnhancedAnalyzer.__init__ url)) = None
  /\ EnhancedAnalyzer.open_sessions
       (snd (EnhancedAnalyzer.analyze_and_generate web EnhancedAnalyzer.__init__ url)) = 0%nat.
Proof.
  split; [| split; [| split; [| split]]].
  - intros Hc. unfold start_crawl.
    destruct (extract_domain urlparse url); [rewrite Hc |]; simpl; eauto.
  - intros msg Hdom. unfold start_crawl. rewrite Hdom. repeat split.
  - intros Hc domain Hdom.
    assert (exists st, locals (start_crawl urlparse web (__init__ cfg) url) = Some st)
      as [st Hrun] by (unfold start_crawl; rewrite Hdom, Hc; eauto).
    destruct (crawl_end urlparse web (__init__ cfg) url st Hrun)
      as (_ & _ & _ & _ & _ & _ & Hres & _).
    split; [eauto |]. unfold start_crawl. rewrite Hdom, Hc. reflexivity.
  - intros Hc Hf. unfold EnhancedAnalyzer.analyze_and_generate,
      EnhancedAnalyzer.analyze_body, EnhancedAnalyzer.setup_driver.
    simpl. rewrite Hc, Hf. reflexivity.
  - unfold EnhancedAnalyzer.analyze_and_generate, EnhancedAnalyzer.analyze_body,
      EnhancedAnalyzer.get_page, EnhancedAnalyzer.setup_driver.
    simpl.
    destruct (Selenium.chrome_starts web || Selenium.firefox_starts web); simpl;
      [| eauto].
    destruct (Selenium.fetch web 0 url); simpl; eauto.
Qed.

Lemma session_failure_policy_witness :
  result (start_crawl UrlLib.plain_urlparse Sample.no_browser (__init__ default_config)
            "http://shop.com/")
  = Raise "session not created"
  /\ result (start_crawl UrlLib.plain_urlparse Sample.shop (__init__ default_config)
               "http://[shop.com/")
     = Raise "Invalid IPv6 URL"
  /\ exists elements,
       result (start_crawl UrlLib.plain_urlparse Sample.shop (__init__ default_config)
                 "http://shop.com/")
       = Return elements.
Proof.
  destruct (session_failure_policy UrlLib.plain_urlparse Sample.shop default_config
              "http://shop.com/")
    as (_ & _ & Hstarts & _).
  destruct (Hstarts eq_refl "shop.com" eq_refl) as [Hret _].
  split; [reflexivity |]. split; [reflexivity | exact Hret].
Defined.

(** C9, as stated, fails for the analyzer: with no browser to start, its
    entry point returns, and what it returns is a result record. *)
Lemma analyzer_returns_error_record :
  fst (EnhancedAnalyzer.analyze_and_generate Sample.no_browser
         EnhancedAnalyzer.__init__ "http://shop.com/")
  = Return {|
      EnhancedAnalyzer.error := Some "Could not initialize any web driver";
      EnhancedAnalyzer.page_url := "http://shop.com/";
      EnhancedAnalyzer.page_title := Some "Error";
      EnhancedAnalyzer.elements_count := 0;
      EnhancedAnalyzer.elements := [];
      EnhancedAnalyzer.user_flows := [];
      EnhancedAnalyzer.cypress_test :=
        "// Error during analysis: Could not initialize any web driver";
      EnhancedAnalyzer.html_content := EmptyString
    |}.
Proof. reflexivity. Qed.

End Sessions.

(** * Further properties of the modelled code *)

(** ** The crawl as a whole *)
Section CrawlFacts.
Import PyStr SeleniumCrawler.

Lemma crawl_depth_bounded_witness :
  exists st,
    locals (start_crawl UrlLib.plain_urlparse Sample.shop (__init__ (Sample.budget 2 1))
              "http://shop.com/")
    = Some st
    /\ loop_test (Sample.budget 2 1) ["http://shop.com/"] st = false
    /\ pages_visited st = Z.of_nat (size (visited st)).
Proof.
  eexists. split; [reflexivity |].
  destruct (crawl_depth_bounded UrlLib.plain_urlparse Sample.shop
              (__init__ (Sample.budget 2 1)) "http://shop.com/" _ eq_refl)
    as (Hexit & _ & _ & Hcount & _).
  split; [exact Hexit | exact Hcount].
Defined.

(** What any state property needs in order to survive the loop: it
    speaks of the visited set, the collected elements and the fetch log,
    and one URL of a level keeps it. *)
Lemma crawl_loop_preserves (urlparse : UrlLib.Parser) (web : Selenium.Web)
    (cfg : Config) (domain : string)
    (P : gset string -> list ElementParser.ElementData -> list (string * Z) -> Prop) :
  (forall st url,
      P (visited st) (all_elements_data st) (get_log st) ->
      P (visited (process_url urlparse web cfg domain st url))
        (all_elements_data (process_url urlparse web cfg domain st url))
        (get_log (process_url urlparse web cfg domain st url))) ->
  forall fuel queue st,
    P (visited st) (all_elements_data st) (get_log st) ->
    P (visited (crawl_loop fuel urlparse web cfg domain queue st))
      (all_elements_data (crawl_loop fuel urlparse web cfg domain queue st))
      (get_log (crawl_loop fuel urlparse web cfg domain queue st)).
Proof.
  intros Hstep.
  assert (forall urls st,
             P (visited st) (all_elements_data st) (get_log st) ->
             P (visited (foldl (process_url urlparse web cfg domain) st urls))
               (all_elements_data (foldl (process_url urlparse web cfg domain) st urls))
               (get_log (foldl (process_url urlparse web cfg domain) st urls)))
    as Hlevel.
  { induction urls as [| url urls IH]; intros st HP; [exact HP |].
    cbn [foldl]. apply IH, Hstep, HP. }
  assert (forall st,
             P (visited st) (all_elements_data st) (get_log st) ->
             P (visited (crawl_level urlparse web cfg domain st))
               (all_elements_data (crawl_level urlparse web cfg domain st))
               (get_log (crawl_level urlparse web cfg domain st))) as Hcrawl.
  { intros st HP. unfold crawl_level. cbv zeta.
    pose proof (Hlevel (default [] (depth_urls st !! current_depth st))
                  (level_start st) HP) as HP'.
    destruct (raised (foldl _ _ _)); exact HP'. }
  induction fuel as [| fuel IH]; intros queue st HP; [exact HP |].
  cbn [crawl_loop]. destruct (loop_test cfg queue st); [| exact HP].
  destruct (raised (crawl_level urlparse web cfg domain st));
    [apply Hcrawl, HP | apply IH, Hcrawl, HP].
Qed.

Lemma should_crawl_url_static (urlparse : UrlLib.Parser) (visited : gset string)
    (domain url : string) :
  should_crawl_url urlparse visited domain url = Return true ->
  (url ∉ visited)
  /\ exists netloc,
       extract_domain urlparse url = Return netloc
       /\ contains domain netloc = true
       /\ startswith url "http://" || startswith url "https://" = true
       /\ existsb (fun ext => endswith (lower url) ext) excluded_extensions = false.
Proof.
  unfold should_crawl_url.
  destruct (bool_decide (url ∈ visited)) eqn:Hv; [discriminate |].
  apply bool_decide_eq_false in Hv.
  destruct (extract_domain urlparse url) as [netloc | msg]; [| discriminate].
  destruct (contains domain netloc) eqn:Hd; [| discriminate].
  destruct (startswith url "http://" || startswith url "https://"); [| discriminate].
  destruct (existsb _ excluded_extensions); [discriminate |].
  intros _. split; [assumption |]. exists netloc. repeat split; assumption.
Qed.

(** X2.  Whatever the site serves, every URL handed to [driver.get] has
    the start URL's network location inside its own, starts with
    [http://] or [https://], and does not end in an excluded extension. *)
Theorem crawl_stays_on_site (urlparse : UrlLib.Parser) (web : Selenium.Web)
    (self : Crawler) (start_url : string) (st : LoopState) :
  locals (start_crawl urlparse web self start_url) = Some st ->
  forall u d, In (u, d) (get_log st) ->
    exists domain netloc,
      extract_domain urlparse start_url = Return domain
      /\ extract_domain urlparse u = Return netloc
      /\ contains domain netloc = true
      /\ startswith u "http://" || startswith u "https://" = true
      /\ existsb (fun ext => endswith (lower u) ext) excluded_extensions = false.
Proof.
  intros Hrun.
  destruct (crawl_end urlparse web self start_url st Hrun)
    as (domain & Hdom & -> & _).
  pose proof (crawl_loop_preserves urlparse web (config self) domain
                (fun _ _ log => forall u d, In (u, d) log ->
                   exists netloc,
                     extract_domain urlparse u = Return netloc
                     /\ contains domain netloc = true
                     /\ startswith u "http://" || startswith u "https://" = true
                     /\ existsb (fun ext => endswith (lower u) ext) excluded_extensions
                        = false)) as Hkeep.
  cbv beta in Hkeep. intros u d Hin. exists domain.
  enough (exists netloc,
             extract_domain urlparse u = Return netloc
             /\ contains domain netloc = true
             /\ startswith u "http://" || startswith u "https://" = true
             /\ existsb (fun ext => endswith (lower u) ext) excluded_extensions = false)
    as (netloc & H); [exists netloc; split; [exact Hdom | exact H] |].
  revert u d Hin. apply Hkeep.
  - intros st url Hlog. unfold process_url.
    destruct (raised st); [exact Hlog |].
    destruct (bool_decide (url ∈ visited st)); [exact Hlog |].
    destruct (should_crawl_url urlparse (visited st) domain url) as [[|] | msg] eqn:Hok;
      [| exact Hlog | exact Hlog].
    apply should_crawl_url_static in Hok as (_ & Hok).
    assert (get_log (visit urlparse web (config self) domain st url)
            = (get_log st ++ [(url, current_depth st)])%list) as ->.
    { unfold visit. destruct (Selenium.fetch web _ url); reflexivity. }
    intros u d Hin. apply in_app_or in Hin as [Hin | [[= <- _] | []]];
      [apply (Hlog u d Hin) | exact Hok].
  - intros u d [].
Qed.

Lemma crawl_stays_on_site_witness :
  exists domain netloc,
    extract_domain UrlLib.plain_urlparse "http://shop.com/" = Return domain
    /\ extract_domain UrlLib.plain_urlparse "http://shop.com/b" = Return netloc
    /\ contains domain netloc = true.
Proof.
  destruct (crawl_stays_on_site UrlLib.plain_urlparse Sample.shop
              (__init__ (Sample.budget 2 1)) "http://shop.com/" _ eq_refl
              "http://shop.com/b" 1) as (domain & netloc & H1 & H2 & H3 & _).
  - vm_compute. auto.
  - exists domain, netloc. auto.
Defined.

(** X3.  With a page budget of zero or less, or a negative depth limit,
    a crawl that gets its session loads nothing and returns the empty
    list. *)
Theorem empty_budget_loads_nothing (urlparse : UrlLib.Parser) (web : Selenium.Web)
    (self : Crawler) (start_url domain : string) :
  extract_domain urlparse start_url = Return domain ->
  Selenium.chrome_starts web = true ->
  max_pages (config self) <= 0 \/ max_depth (config self) < 0 ->
  result (start_crawl urlparse web self start_url) = Return []
  /\ locals (start_crawl urlparse web self start_url) = Some (initial_state start_url)
  /\ visited_urls (self_after (start_crawl urlparse web self start_url)) = ∅.
Proof.
  intros Hdom Hc Hzero. unfold start_crawl. rewrite Hdom, Hc.
  assert (forall fuel,
             crawl_loop fuel urlparse web (config self) domain [start_url]
               (initial_state start_url) = initial_state start_url) as ->.
  { intros [| fuel]; [reflexivity |]. cbn [crawl_loop].
    assert (loop_test (config self) [start_url] (initial_state start_url) = false) as ->;
      [| reflexivity].
    unfold loop_test, initial_state. cbn [pages_visited current_depth].
    apply andb_false_iff. destruct Hzero; [left; apply Z.ltb_ge | right; apply Z.leb_gt];
      lia. }
  repeat split.
Qed.

Lemma empty_budget_loads_nothing_witness :
  result (start_crawl UrlLib.plain_urlparse Sample.shop (__init__ (Sample.budget 0 2))
            "http://shop.com/")
  = Return [].
Proof.
  apply (empty_budget_loads_nothing UrlLib.plain_urlparse Sample.shop
           (__init__ (Sample.budget 0 2)) "http://shop.com/" "shop.com" eq_refl eq_refl).
  left. cbn. lia.
Defined.

(** X4.  When every page load fails, [start_crawl] still returns: the
    empty list, with nothing marked visited. *)
Theorem unreachable_site_yields_nothing (urlparse : UrlLib.Parser)
    (web : Selenium.Web) (self : Crawler) (start_url domain : string) :
  extract_domain urlparse start_url = Return domain ->
  Selenium.chrome_starts web = true ->
  (forall n url, exists msg, Selenium.fetch web n url = Raise msg) ->
  result (start_crawl urlparse web self start_url) = Return []
  /\ visited_urls (self_after (start_crawl urlparse web self start_url)) = ∅.
Proof.
  intros Hdom Hc Hdown.
  assert (exists st, locals (start_crawl urlparse web self start_url) = Some st)
    as [st Hrun] by (unfold start_crawl; rewrite Hdom, Hc; eauto).
  destruct (crawl_end urlparse web self start_url st Hrun)
    as (domain' & Hdom' & Hst & _ & _ & _ & -> & ->).
  assert (domain' = domain) as -> by congruence.
  pose proof (crawl_loop_preserves urlparse web (config self) domain
                (fun v els _ => v = ∅ /\ els = [])) as Hkeep.
  cbv beta in Hkeep. subst st.
  destruct (Hkeep) with (fuel := enough_fuel (config self)) (queue := [start_url])
                        (st := initial_state start_url) as [-> ->].
  - intros st url HP. unfold process_url.
    destruct (raised st); [exact HP |].
    destruct (bool_decide (url ∈ visited st)); [exact HP |].
    destruct (should_crawl_url urlparse (visited st) domain url) as [[|] | msg];
      [| exact HP | exact HP].
    unfold visit. destruct (Hdown (Selenium.gets (session st)) url) as [msg ->].
    exact HP.
  - split; reflexivity.
  - split; reflexivity.
Qed.

Lemma unreachable_site_yields_nothing_witness :
  result (start_crawl UrlLib.plain_urlparse Fixture.unreachable (__init__ default_config)
            "http://shop.com/")
  = Return [].
Proof.
  apply (unreachable_site_yields_nothing UrlLib.plain_urlparse Fixture.unreachable
           (__init__ default_config) "http://shop.com/" "shop.com" eq_refl eq_refl).
  intros n url. eexists. reflexivity.
Defined.

(** The hrefs of a page that the link loop accepts, in page order. *)
Lemma omap_href_cons (link : Selenium.WebElement) (links : list Selenium.WebElement) :
  omap (fun l => Selenium.get_attribute l "href") (link :: links)
  = match Selenium.get_attribute link "href" with
    | Some href => href :: omap (fun l => Selenium.get_attribute l "href") links
    | None => omap (fun l => Selenium.get_attribute l "href") links
    end.
Proof. reflexivity. Qed.

Lemma enqueue_links_step (urlparse : UrlLib.Parser) (domain : string)
    (visited : gset string) (d : Z) (links : list Selenium.WebElement)
    (m : gmap Z (list string)) :
  default [] (enqueue_links urlparse domain visited d links m !! d)
  = (default [] (m !! d)
     ++ List.filter (link_accepted urlparse visited domain)
          (omap (fun link => Selenium.get_attribute link "href") links))%list.
Proof.
  unfold enqueue_links. revert m.
  induction links as [| link links IH]; intros m.
  - change (omap (fun l => Selenium.get_attribute l "href") []) with (@nil string).
    cbn [foldl List.filter]. now rewrite app_nil_r.
  - cbn [foldl]. rewrite IH, omap_href_cons.
    destruct (Selenium.get_attribute link "href") as [href|]; cbn [List.filter];
      [| reflexivity].
    destruct (link_accepted urlparse visited domain href); [| reflexivity].
    unfold append_at. rewrite lookup_insert_eq. cbn [default from_option id].
    now rewrite <- app_assoc.
Qed.

(** X5.  The link loop appends to level [d] of the frontier, in page
    order and without removing repetitions, exactly the hrefs it
    accepts: those that are not empty and for which [should_crawl_url]
    returns true.  An href on which [should_crawl_url] raises is dropped,
    as an empty one is; no other level changes; and no appended URL is in
    the visited set at that moment. *)
Theorem enqueue_links_appends (urlparse : UrlLib.Parser) (domain : string)
    (visited : gset string) (d : Z) (links : list Selenium.WebElement)
    (m : gmap Z (list string)) :
  default [] (enqueue_links urlparse domain visited d links m !! d)
  = (default [] (m !! d)
     ++ List.filter (link_accepted urlparse visited domain)
          (omap (fun link => Selenium.get_attribute link "href") links))%list
  /\ (forall k, k <> d -> enqueue_links urlparse domain visited d links m !! k = m !! k)
  /\ (forall href,
        link_accepted urlparse visited domain href = true
        <-> href <> EmptyString
            /\ should_crawl_url urlparse visited domain href = Return true)
  /\ (forall href msg,
        should_crawl_url urlparse visited domain href = Raise msg ->
        link_accepted urlparse visited domain href = false)
  /\ (forall href,
        link_accepted urlparse visited domain href = true ->
        (href ∉ visited) /\ exists parts, urlparse href = Return parts).
Proof.
  split; [apply enqueue_links_step |].
  split; [intros k Hk; now apply enqueue_links_elsewhere |].
  split; [| split].
  - intros href. unfold link_accepted. rewrite andb_true_iff, nonempty_true.
    destruct (should_crawl_url urlparse visited domain href) as [[|] | msg];
      intuition (discriminate || reflexivity).
  - intros href msg Hraise. unfold link_accepted. rewrite Hraise. apply andb_false_r.
  - intros href Hok.
    destruct (link_accepted_parses urlparse domain visited href Hok) as (Hp & Hnew & _).
    split; [exact Hnew | exact Hp].
Qed.

(** X6.  [get_single_page_elements] has no handler for a failing page:
    the exception of [driver.get] reaches the caller, after the session is
    quit, whereas [start_crawl] on the same site returns normally when
    [urlparse] accepts the URL.  When the page loads, its extracted
    elements are returned; in no case is the visited set touched or a
    session left open. *)
Theorem single_page_raises_on_load_failure (urlparse : UrlLib.Parser)
    (web : Selenium.Web) (cfg : Config) (url : string) :
  Selenium.chrome_starts web = true ->
  (forall msg, Selenium.fetch web 0 url = Raise msg ->
     result (get_single_page_elements web (__init__ cfg) url) = Raise msg
     /\ forall domain,
          extract_domain urlparse url = Return domain ->
          exists elements,
            result (start_crawl urlparse web (__init__ cfg) url) = Return elements)
  /\ (forall page, Selenium.fetch web 0 url = Return page ->
        result (get_single_page_elements web (__init__ cfg) url)
        = Return (ElementParser.extract_elements (parser cfg) page url))
  /\ open_sessions (self_after (get_single_page_elements web (__init__ cfg) url)) = 0%nat
  /\ visited_urls (self_after (get_single_page_elements web (__init__ cfg) url)) = ∅.
Proof.
  intros Hc.
  assert (forall domain,
             extract_domain urlparse url = Return domain ->
             exists elements,
               result (start_crawl urlparse web (__init__ cfg) url) = Return elements)
    as Hcrawl.
  { intros domain Hdom.
    assert (exists st, locals (start_crawl urlparse web (__init__ cfg) url) = Some st)
      as [st Hrun] by (unfold start_crawl; rewrite Hdom, Hc; eauto).
    destruct (crawl_end urlparse web (__init__ cfg) url st Hrun)
      as (_ & _ & _ & _ & _ & _ & Hres & _).
    eauto. }
  unfold get_single_page_elements. rewrite Hc.
  cbn [Selenium.gets Selenium.fresh_driver].
  destruct (Selenium.fetch web 0 url) as [page | msg'].
  - split; [intros msg [=] |]. split; [intros page' [= <-]; reflexivity |].
    split; reflexivity.
  - split; [intros msg [= <-]; split; [reflexivity | exact Hcrawl] |].
    split; [intros page [=] |]. split; reflexivity.
Qed.

Lemma single_page_raises_on_load_failure_witness :
  result (get_single_page_elements Fixture.unreachable (__init__ default_config)
            "http://shop.com/")
  = Raise "net::ERR_CONNECTION_REFUSED".
Proof.
  apply (proj1 (single_page_raises_on_load_failure UrlLib.plain_urlparse
                  Fixture.unreachable default_config "http://shop.com/" eq_refl)
           _ eq_refl).
Defined.

End CrawlFacts.

(** ** Extraction *)
Section ExtractionFacts.
Import PyStr.

(** X7.  The attribute dictionary of a record holds, for the names asked
    for, exactly the attributes whose value is a non-empty string: no
    other key, no empty value, no value other than the element's. *)
Theorem collected_attributes (names : list string) (e : Selenium.WebElement)
    (k v : string) :
  ElementParser.collect_attributes names e !! k = Some v
  <-> In k names /\ Selenium.get_attribute e k = Some v /\ v <> EmptyString.
Proof.
  unfold ElementParser.collect_attributes.
  induction names as [| a names IH] using rev_ind.
  - cbn [foldl]. rewrite lookup_empty. split; [discriminate | intros [[] _]].
  - rewrite foldl_app. cbn [foldl].
    assert (In k (names ++ [a]) <-> In k names \/ k = a) as ->.
    { rewrite in_app_iff. cbn [In]. intuition. }
    destruct (Selenium.get_attribute e a) as [va|] eqn:Ha.
    + destruct (nonempty va) eqn:Hva.
      * destruct (decide (a = k)) as [-> | Hne].
        -- rewrite lookup_insert_eq. apply nonempty_true in Hva. split.
           ++ intros [= <-]. auto.
           ++ intros (_ & Hk & _). congruence.
        -- rewrite lookup_insert_ne by assumption. rewrite IH. split.
           ++ intros (Hin & Hk & Hv). auto.
           ++ intros ([Hin | ->] & Hk & Hv); [auto | congruence].
      * rewrite IH. split.
        -- intros (Hin & Hk & Hv). auto.
        -- intros ([Hin | ->] & Hk & Hv); [auto |].
           rewrite Ha in Hk. injection Hk as <-. apply nonempty_true in Hv. congruence.
    + rewrite IH. split.
      * intros (Hin & Hk & Hv). auto.
      * intros ([Hin | ->] & Hk & Hv); [auto | congruence].
Qed.

Lemma in_concat_map {A B : Type} (f : A -> list B) (l : list A) (y : B) :
  In y (concat (map f l)) <-> exists x, In x l /\ In y (f x).
Proof.
  rewrite in_concat. split.
  - intros (ys & Hys & Hy). apply in_map_iff in Hys as (x & <- & Hx). eauto.
  - intros (x & Hx & Hy). exists (f x). split; [now apply in_map | assumption].
Qed.

Lemma in_omap {A B : Type} (f : A -> option B) (l : list A) (y : B) :
  In y (omap f l) <-> exists x, In x l /\ f x = Some y.
Proof.
  rewrite <- list_elem_of_In, list_elem_of_omap.
  split; intros (x & Hx & Hf); exists x; split; try assumption;
    now apply list_elem_of_In.
Qed.

(** X8.  No record of a hidden node comes out of the analyzer, nor out of
    the parser while [skip_hidden_elements] is on; and both drop a node
    that is no anchor when its [is_enabled()] raises. *)
Theorem hidden_nodes_dropped (e : Selenium.WebElement) :
  (forall selectors page r,
      In r (EnhancedAnalyzer.find_interactive_elements selectors page) ->
      EnhancedAnalyzer.is_displayed r = true)
  /\ (forall cfg page url r,
        ElementParser.skip_hidden_elements cfg = true ->
        In r (ElementParser.extract_elements cfg page url) ->
        ElementParser.is_displayed r = true)
  /\ (Selenium.is_displayed e = false
      \/ (Selenium.tag_name e <> "a" /\ Selenium.is_enabled e = None) ->
      EnhancedAnalyzer._extract_element_data e = None)
  /\ (forall cfg url title,
        Selenium.tag_name e <> "a" -> Selenium.is_enabled e = None ->
        ElementParser._extract_element_data cfg e url title = None).
Proof.
  split; [| split; [| split]].
  - intros selectors page r Hin.
    unfold EnhancedAnalyzer.find_interactive_elements in Hin.
    apply in_concat_map in Hin as (selector & _ & Hin).
    destruct (Selenium.find_elements page selector) as [els|]; [| destruct Hin].
    apply in_omap in Hin as (x & _ & Hx).
    unfold EnhancedAnalyzer._extract_element_data in Hx.
    destruct (Selenium.is_displayed x) eqn:Hd; [| discriminate].
    cbn [negb] in Hx.
    destruct (if negb _ then _ else _); [| discriminate].
    injection Hx as <-. reflexivity.
  - intros cfg page url r Hskip Hin.
    unfold ElementParser.extract_elements in Hin.
    apply in_concat_map in Hin as (selector & _ & Hin).
    unfold ElementParser.extract_selector in Hin.
    destruct (Selenium.find_elements page selector) as [els|]; [| destruct Hin].
    apply in_omap in Hin as (x & _ & Hx).
    unfold ElementParser._extract_element_data in Hx. rewrite Hskip in Hx.
    destruct (Selenium.is_displayed x) eqn:Hd; [| discriminate].
    cbn [negb andb] in Hx.
    destruct (if negb _ then _ else _); [| discriminate].
    injection Hx as <-. reflexivity.
  - unfold EnhancedAnalyzer._extract_element_data.
    intros [-> | [Ha ->]]; [reflexivity |].
    destruct (Selenium.is_displayed e); cbn [negb]; [| reflexivity].
    destruct (String.eqb_spec (Selenium.tag_name e) "a") as [Ha' | _];
      [contradiction | reflexivity].
  - intros cfg url title Ha Hen. unfold ElementParser._extract_element_data.
    destruct (_ && _); [reflexivity |]. rewrite Hen.
    destruct (String.eqb_spec (Selenium.tag_name e) "a") as [Ha' | _];
      [contradiction | reflexivity].
Qed.

Lemma hidden_nodes_dropped_witness :
  EnhancedAnalyzer._extract_element_data Fixture.hidden_link = None.
Proof.
  apply (proj1 (proj2 (proj2 (hidden_nodes_dropped Fixture.hidden_link)))).
  left. reflexivity.
Defined.

(** X9.  Extraction does not deduplicate: a node found by two of the
    configured selectors, and extractable, is in the list twice. *)
Theorem overlapping_selectors_duplicate (cfg : ElementParser.Config)
    (page : Selenium.Page) (url : string) (before between after : list string)
    (first second : string) (found1 found2 : list Selenium.WebElement)
    (e : Selenium.WebElement) (r : ElementParser.ElementData) :
  ElementParser.element_selectors cfg
  = (before ++ first :: between ++ second :: after)%list ->
  Selenium.find_elements page first = Some found1 -> In e found1 ->
  Selenium.find_elements page second = Some found2 -> In e found2 ->
  ElementParser._extract_element_data cfg e url (Selenium.title page) = Some r ->
  exists l1 l2 l3,
    ElementParser.extract_elements cfg page url = (l1 ++ r :: l2 ++ r :: l3)%list.
Proof.
  intros Hsel Hf1 He1 Hf2 He2 Hr.
  assert (forall selector found,
             Selenium.find_elements page selector = Some found -> In e found ->
             exists a b, ElementParser.extract_selector cfg page url selector
                         = (a ++ r :: b)%list) as Hone.
  { intros selector found Hf He. apply in_split.
    unfold ElementParser.extract_selector. rewrite Hf.
    apply in_omap. exists e. split; assumption. }
  destruct (Hone first found1 Hf1 He1) as (a1 & b1 & H1).
  destruct (Hone second found2 Hf2 He2) as (a2 & b2 & H2).
  unfold ElementParser.extract_elements. rewrite Hsel.
  rewrite map_app, concat_app. cbn [map concat].
  rewrite map_app, concat_app. cbn [map concat]. rewrite H1, H2.
  exists (concat (map (ElementParser.extract_selector cfg page url) before) ++ a1)%list,
    (b1 ++ concat (map (ElementParser.extract_selector cfg page url) between) ++ a2)%list,
    (b2 ++ concat (map (ElementParser.extract_selector cfg page url) after))%list.
  repeat (rewrite <- app_assoc || rewrite <- app_comm_cons). reflexivity.
Qed.

Lemma overlapping_selectors_duplicate_witness :
  exists l1 l2 l3 r,
    ElementParser.element_type r = "button"
    /\ ElementParser.extract_elements ElementParser.default_config Fixture.overlap_page
         "http://shop.com/"
       = (l1 ++ r :: l2 ++ r :: l3)%list.
Proof.
  destruct (ElementParser._extract_element_data ElementParser.default_config
              Fixture.role_button "http://shop.com/" "Shop") as [r|] eqn:Hr;
    [| discriminate Hr].
  destruct (overlapping_selectors_duplicate ElementParser.default_config
              Fixture.overlap_page "http://shop.com/"
              ["a"] ["input"; "select"; "textarea"]
              ["[role='link']"; "[role='checkbox']"; "[role='radio']"]
              "button" "[role='button']" [Fixture.role_button] [Fixture.role_button]
              Fixture.role_button r eq_refl eq_refl (or_introl eq_refl)
              eq_refl (or_introl eq_refl) Hr) as (l1 & l2 & l3 & Heq).
  exists l1, l2, l3, r. split; [| exact Heq].
  injection Hr as <-. reflexivity.
Defined.

End ExtractionFacts.

(** ** Suggested actions and the two classifiers *)
Section ActionFacts.
Import PyStr EnhancedAnalyzer.

(** X10.  An element gets at most one suggested action, and its command
    addresses the element's own locator; it gets none exactly when its
    category is outside the ten the function knows. *)
Theorem one_action_on_own_locator (e : Selenium.WebElement) :
  (length (_determine_possible_actions e) <= 1)%nat
  /\ (forall a, In a (_determine_possible_actions e) ->
        exists suffix, action_cypress a = cy_get (_generate_css_selector e) +:+ suffix)
  /\ (_determine_possible_actions e = []
      <-> in_list (_categorize_element e)
            ["link"; "button"; "submit"; "pseudo_button"; "pseudo_dropdown";
             "input_field"; "text_area"; "dropdown"; "checkbox"; "radio"] = false).
Proof.
  assert (in_list (_categorize_element e)
            ["link"; "button"; "submit"; "pseudo_button"; "pseudo_dropdown";
             "input_field"; "text_area"; "dropdown"; "checkbox"; "radio"]
          = in_list (_categorize_element e)
              ["link"; "button"; "submit"; "pseudo_button"; "pseudo_dropdown"]
            || in_list (_categorize_element e) ["input_field"; "text_area"]
            || String.eqb (_categorize_element e) "dropdown"
            || in_list (_categorize_element e) ["checkbox"; "radio"]) as ->.
  { unfold in_list. cbn [existsb]. rewrite !orb_false_r, !orb_assoc. reflexivity. }
  unfold _determine_possible_actions.
  destruct (in_list (_categorize_element e)
              ["link"; "button"; "submit"; "pseudo_button"; "pseudo_dropdown"]).
  { cbn [length In orb]. split; [lia |]. split; [| split; discriminate].
    intros a [<- | []]. eexists. reflexivity. }
  destruct (in_list (_categorize_element e) ["input_field"; "text_area"]).
  { cbn [length In orb]. split; [lia |]. split; [| split; discriminate].
    intros a [<- | []]. eexists. reflexivity. }
  destruct (String.eqb (_categorize_element e) "dropdown").
  { cbn [length In orb]. split; [lia |]. split; [| split; discriminate].
    intros a [<- | []]. eexists. reflexivity. }
  destruct (in_list (_categorize_element e) ["checkbox"; "radio"]).
  { cbn [length In orb]. split; [lia |]. split; [| split; discriminate].
    intros a [<- | []]. eexists. reflexivity. }
  cbn [length In orb]. split; [lia |]. split; [intros a [] | split; reflexivity].
Qed.

(** X11.  The parser and the analyzer give one and the same category to
    every element whose tag is [a], [button], [input], [select] or
    [textarea], unless its role is one of the six that only the parser
    knows. *)
Theorem classifiers_agree (e : Selenium.WebElement) :
  in_list (or_else (Selenium.get_attribute e "role") EmptyString)
    ["menu"; "combobox"; "listbox"; "option"; "slider"; "switch"] = false ->
  in_list (lower (Selenium.tag_name e)) ["a"; "button"; "input"; "select"; "textarea"]
  = true ->
  ElementParser._categorize_element e = _categorize_element e.
Proof.
  intros Hrole Htag.
  assert (in_list (or_else (Selenium.get_attribute e "role") EmptyString)
            ElementParser.roles
          = in_list (or_else (Selenium.get_attribute e "role") EmptyString) roles) as Heq.
  { apply eq_true_iff_eq. rewrite !in_list_true.
    assert (~ In (or_else (Selenium.get_attribute e "role") EmptyString)
              ["menu"; "combobox"; "listbox"; "option"; "slider"; "switch"]) as Hnot.
    { rewrite <- in_list_true. rewrite Hrole. discriminate. }
    unfold ElementParser.roles, roles. cbn [In] in *. tauto. }
  unfold ElementParser._categorize_element, _categorize_element. rewrite Heq.
  destruct (truthy _ && in_list _ roles); [reflexivity |].
  apply in_list_true in Htag.
  destruct (String.eqb_spec (lower (Selenium.tag_name e)) "a"); [reflexivity |].
  destruct (String.eqb_spec (lower (Selenium.tag_name e)) "button"); [reflexivity |].
  destruct (String.eqb_spec (lower (Selenium.tag_name e)) "input"); [reflexivity |].
  destruct (String.eqb_spec (lower (Selenium.tag_name e)) "select"); [reflexivity |].
  destruct (String.eqb_spec (lower (Selenium.tag_name e)) "textarea"); [reflexivity |].
  cbn [In] in Htag. intuition congruence.
Qed.

Lemma classifiers_agree_witness :
  ElementParser._categorize_element Sample.id_and_class
  = _categorize_element Sample.id_and_class.
Proof. apply classifiers_agree; reflexivity. Defined.

End ActionFacts.

(** ** The flows together *)
Section FlowFacts.
Import PyStr Spec EnhancedAnalyzer.

Lemma login_flow_names (input_fields buttons : list ElementData) :
  map flow_name (option_list (_identify_login_flow input_fields buttons)) = []
  \/ map flow_name (option_list (_identify_login_flow input_fields buttons))
     = ["User Authentication"].
Proof.
  destruct (_identify_login_flow input_fields buttons) as [fl|] eqn:H; [| now left].
  right. simpl. now rewrite (login_flow_name _ _ _ H).
Qed.

Lemma form_flow_names (input_fields buttons : list ElementData) :
  map flow_name (option_list (_identify_form_flow input_fields buttons)) = []
  \/ map flow_name (option_list (_identify_form_flow input_fields buttons))
     = ["Form Submission"].
Proof.
  destruct (_identify_form_flow input_fields buttons) as [fl|] eqn:H; [| now left].
  right. simpl. now rewrite (form_flow_name _ _ _ H).
Qed.

(** X12.  The flows come in the fixed order authentication, form,
    navigation, each at most once; there is none for an empty element
    list, and a navigation flow exactly when some element is a link. *)
Theorem flows_in_fixed_order (elements : list ElementData) :
  map flow_name (generate_user_flows elements)
    `sublist_of` ["User Authentication"; "Form Submission"; "Navigation"]
  /\ (elements = [] -> generate_user_flows elements = [])
  /\ (In "Navigation" (map flow_name (generate_user_flows elements))
      <-> links_of elements <> []).
Proof.
  unfold generate_user_flows. destruct elements as [| e els].
  { split; [apply sublist_nil_l |]. split; [reflexivity |].
    split; [intros [] | intros H; now contradiction H]. }
  rewrite !map_app.
  assert (map flow_name
            match links_of (e :: els) with
            | [] => []
            | _ :: _ => [navigation_flow (links_of (e :: els))]
            end
          = match links_of (e :: els) with [] => [] | _ :: _ => ["Navigation"] end)
    as ->.
  { destruct (links_of (e :: els)); reflexivity. }
  split; [| split; [discriminate |]].
  - change ["User Authentication"; "Form Submission"; "Navigation"]
      with (["User Authentication"] ++ ["Form Submission"] ++ ["Navigation"])%list.
    apply sublist_app; [| apply sublist_app].
    + destruct (login_flow_names (input_fields_of (e :: els)) (buttons_of (e :: els)))
        as [-> | ->]; [apply sublist_nil_l | reflexivity].
    + destruct (form_flow_names (input_fields_of (e :: els)) (buttons_of (e :: els)))
        as [-> | ->]; [apply sublist_nil_l | reflexivity].
    + destruct (links_of (e :: els)); [apply sublist_nil_l | reflexivity].
  - rewrite !in_app_iff.
    destruct (login_flow_names (input_fields_of (e :: els)) (buttons_of (e :: els)))
      as [-> | ->];
      destruct (form_flow_names (input_fields_of (e :: els)) (buttons_of (e :: els)))
        as [-> | ->];
      destruct (links_of (e :: els)); cbn [In];
      (split; [intros H; intuition discriminate | intros H; try (now contradiction H); auto]).
Qed.

Lemma insert_by_y_permutation (x : ElementData) (l : list ElementData) :
  Permutation (insert_by_y x l) (x :: l).
Proof.
  induction l as [| h t IH]; cbn [insert_by_y]; [reflexivity |].
  destruct (y_of x <=? y_of h); [reflexivity |].
  rewrite IH. apply perm_swap.
Qed.

Lemma insert_by_y_sorted (x : ElementData) (l : list ElementData) :
  StronglySorted (fun a b => y_of a <= y_of b) l ->
  StronglySorted (fun a b => y_of a <= y_of b) (insert_by_y x l).
Proof.
  induction l as [| h t IH]; intros Hs; cbn [insert_by_y].
  - repeat constructor.
  - apply StronglySorted_inv in Hs as [Ht Hh].
    destruct (Z.leb_spec (y_of x) (y_of h)) as [Hle | Hgt].
    + constructor; [constructor; assumption |].
      constructor; [assumption |].
      eapply List.Forall_impl; [| exact Hh]. cbv beta. intros a Ha. lia.
    + constructor; [now apply IH |].
      rewrite (insert_by_y_permutation x t). constructor; [lia | assumption].
Qed.

Lemma sorted_by_y_spec (l : list ElementData) :
  Permutation (sorted_by_y l) l
  /\ StronglySorted (fun a b => y_of a <= y_of b) (sorted_by_y l).
Proof.
  unfold sorted_by_y. induction l as [| x l [IHp IHs]]; cbn [foldr].
  - split; [reflexivity | constructor].
  - split.
    + rewrite insert_by_y_permutation. now constructor.
    + now apply insert_by_y_sorted.
Qed.

Lemma insert_by_y_level (y : Z) (x : ElementData) (l : list ElementData) :
  List.filter (fun e => y_of e =? y) (insert_by_y x l)
  = if y_of x =? y
    then x :: List.filter (fun e => y_of e =? y) l
    else List.filter (fun e => y_of e =? y) l.
Proof.
  induction l as [| h t IH]; cbn [insert_by_y List.filter]; [reflexivity |].
  destruct (Z.leb_spec (y_of x) (y_of h)) as [Hle | Hgt]; cbn [List.filter];
    [reflexivity |].
  rewrite IH.
  destruct (Z.eqb_spec (y_of x) y) as [Hx | Hx]; [| reflexivity].
  destruct (Z.eqb_spec (y_of h) y) as [Hy | Hy]; [lia | reflexivity].
Qed.

(** [sorted_by_y] rearranges its list, losing and adding nothing, into
    ascending vertical position, and the elements at one and the same
    position keep the order in which they came, as with [sorted]. *)
Lemma sorted_by_y_ascending (l : list ElementData) :
  Permutation (sorted_by_y l) l
  /\ StronglySorted (fun a b => y_of a <= y_of b) (sorted_by_y l)
  /\ (forall y, List.filter (fun e => y_of e =? y) (sorted_by_y l)
                = List.filter (fun e => y_of e =? y) l).
Proof.
  split; [apply sorted_by_y_spec |]. split; [apply sorted_by_y_spec |].
  intros y. unfold sorted_by_y. induction l as [| x l IH]; [reflexivity |].
  cbn [foldr]. rewrite insert_by_y_level, IH. reflexivity.
Qed.

Lemma sorted_prefix_below_suffix (n : nat) (l : list ElementData) :
  StronglySorted (fun a b => y_of a <= y_of b) l ->
  forall a b, In a (take n l) -> In b (skipn n l) -> y_of a <= y_of b.
Proof.
  revert n. induction l as [| h t IH]; intros n Hs a b Ha Hb.
  - destruct n; destruct Ha.
  - apply StronglySorted_inv in Hs as [Ht Hh]. destruct n as [| n].
    + destruct Ha.
    + cbn [firstn skipn] in Ha, Hb. destruct Ha as [<- | Ha].
      * rewrite Forall_forall in Hh. apply Hh.
        apply list_elem_of_In in Hb. exact (subseteq_drop n t b Hb).
      * now apply (IH n Ht).
Qed.

(** X13.  The navigation flow clicks the links of least vertical
    position, five of them or all if there are fewer, from the top down:
    every link left out lies at or below every link clicked. *)
Theorem navigation_clicks_topmost (links : list ElementData) :
  exists chosen rest,
    Permutation links (chosen ++ rest)
    /\ length chosen = Nat.min 5 (length links)
    /\ map step_element (flow_steps (navigation_flow links)) = map css_selector chosen
    /\ Forall (fun step => step_action step = "click") (flow_steps (navigation_flow links))
    /\ StronglySorted (fun a b => y_of a <= y_of b) chosen
    /\ (forall a b, In a chosen -> In b rest -> y_of a <= y_of b).
Proof.
  destruct (sorted_by_y_spec links) as [Hperm Hsorted].
  exists (take 5 (sorted_by_y links)), (skipn 5 (sorted_by_y links)).
  split; [rewrite take_drop; now symmetry |].
  split; [rewrite length_take, (Permutation_length Hperm); reflexivity |].
  split; [cbn [navigation_flow flow_steps]; rewrite map_map; reflexivity |].
  split; [cbn [navigation_flow flow_steps]; apply Forall_map, Forall_forall;
          intros x _; reflexivity |].
  split.
  - clear Hperm. revert Hsorted. generalize (sorted_by_y links) as l. intros l.
    generalize 5%nat as n. intros n. revert l.
    induction n as [| n IH]; intros [| h t] Hs; cbn [take]; try constructor.
    + apply StronglySorted_inv in Hs as [Ht _]. now apply IH.
    + apply StronglySorted_inv in Hs as [_ Hh].
      rewrite Forall_forall in *. intros x Hx. apply Hh.
      exact (subseteq_take n t x Hx).
  - now apply sorted_prefix_below_suffix.
Qed.

Lemma navigation_clicks_topmost_witness :
  exists chosen,
    length chosen = 5%nat
    /\ map css_selector chosen = ["#a"; "#b"; "#c"; "#d"; "#e"].
Proof.
  destruct (navigation_clicks_topmost (links_of (Sample.records Fixture.footer_first)))
    as (chosen & rest & _ & Hlen & Hmap & _).
  exists chosen. split; [rewrite Hlen; reflexivity | rewrite <- Hmap; reflexivity].
Defined.

End FlowFacts.

(** ** The steps of the flows *)
Section StepFacts.
Import PyStr Spec EnhancedAnalyzer.

Lemma test_value_sample (field : ElementData) :
  In (test_value field)
    ["test@example.com"; "Test User"; "555-123-4567"; "12345"; "Test input"].
Proof.
  unfold test_value.
  repeat match goal with |- context [if ?c then _ else _] => destruct c end;
    cbn [In]; auto 6.
Qed.

(** X14.  A form flow is up to five input steps, one for each of the
    first five input fields and each typing one of the five sample
    values, followed by exactly one click. *)
Theorem form_flow_shape (input_fields buttons : list ElementData) (flow : Flow) :
  _identify_form_flow input_fields buttons = Some flow ->
  exists inputs click,
    flow_steps flow = (inputs ++ [click])%list
    /\ length inputs = Nat.min 5 (length input_fields)
    /\ map step_element inputs = map css_selector (take 5 input_fields)
    /\ step_action click = "click" /\ step_value click = None
    /\ Forall (fun step =>
                 step_action step = "input"
                 /\ exists v,
                      step_value step = Some v
                      /\ In v ["test@example.com"; "Test User"; "555-123-4567";
                               "12345"; "Test input"]) inputs.
Proof.
  rewrite form_flow_cases.
  destruct (3 <=? length input_fields)%nat; [| discriminate].
  destruct (resolve_submit_button input_fields buttons) as [b|]; [| discriminate].
  destruct (0 <? length buttons)%nat; [| discriminate].
  intros [= <-]. cbn [flow_steps].
  exists (map field_step (take 5 input_fields)),
    (click_step (css_selector b) ("Click " +:+ text b)).
  split; [reflexivity |].
  split; [rewrite length_map, length_take; reflexivity |].
  split; [rewrite map_map; reflexivity |].
  split; [reflexivity |]. split; [reflexivity |].
  apply Forall_map, Forall_forall. intros field _. cbn.
  split; [reflexivity |]. eexists. split; [reflexivity | apply test_value_sample].
Qed.

Lemma form_flow_shape_witness :
  exists flow,
    _identify_form_flow (input_fields_of (Sample.records Sample.wizard))
      (buttons_of (Sample.records Sample.wizard)) = Some flow
    /\ length (flow_steps flow) = 4%nat.
Proof.
  destruct (_identify_form_flow (input_fields_of (Sample.records Sample.wizard))
              (buttons_of (Sample.records Sample.wizard))) as [flow|] eqn:Hflow;
    [| discriminate Hflow].
  exists flow. split; [reflexivity |].
  destruct (form_flow_shape _ _ flow Hflow) as (inputs & click & -> & Hlen & _).
  rewrite length_app, Hlen. reflexivity.
Defined.

Lemma resolve_submit_button_in (input_fields buttons : list ElementData)
    (b : ElementData) :
  resolve_submit_button input_fields buttons = Some b -> In b buttons.
Proof.
  unfold resolve_submit_button.
  destruct (List.find submit_test buttons) as [x|] eqn:Hfind.
  { intros [= <-]. now apply List.find_some in Hfind as [Hin _]. }
  destruct (min_by_y _) as [x|] eqn:Hmin.
  { intros [= <-]. apply min_by_y_least in Hmin as [Hin _].
    now apply List.filter_In in Hin as [Hin _]. }
  intros Hlast. apply list_elem_of_In. now apply last_Some_elem_of.
Qed.

Lemma in_option_list {A : Type} (o : option A) (x : A) :
  In x (option_list o) -> o = Some x.
Proof. destruct o; simpl; [intros [-> | []]; reflexivity | intros []]. Qed.

(** X15.  No flow invents a locator: the target of every step of every
    flow is the [css_selector] of one of the elements given. *)
Theorem steps_target_given_elements (elements : list ElementData) (flow : Flow)
    (step : Step) :
  In flow (generate_user_flows elements) -> In step (flow_steps flow) ->
  exists e, In e elements /\ step_element step = css_selector e.
Proof.
  unfold generate_user_flows. destruct elements as [| e0 els]; [intros [] |].
  cbv beta iota zeta. remember (e0 :: els) as elements eqn:Helements.
  clear Helements.
  assert (forall x, In x (input_fields_of elements) -> In x elements) as Hfields.
  { intros x Hx. now apply List.filter_In in Hx as [Hx _]. }
  assert (forall x, In x (buttons_of elements) -> In x elements) as Hbuttons.
  { intros x Hx. now apply List.filter_In in Hx as [Hx _]. }
  assert (forall x, In x (links_of elements) -> In x elements) as Hlinks.
  { intros x Hx. now apply List.filter_In in Hx as [Hx _]. }
  intros Hflow Hstep. apply in_app_or in Hflow as [Hflow | Hflow];
    [| apply in_app_or in Hflow as [Hflow | Hflow]].
  - apply in_option_list in Hflow. rewrite login_flow_cases in Hflow.
    destruct (last_match username_role _) as [u|] eqn:Hu; [| discriminate].
    destruct (last_match password_test _) as [p|] eqn:Hp; [| discriminate].
    destruct (List.find login_button_test _) as [b|] eqn:Hb; [| discriminate].
    injection Hflow as <-. cbn [flow_steps In] in Hstep.
    apply last_match_some in Hu as [Hu _]. apply last_match_some in Hp as [Hp _].
    apply List.find_some in Hb as [Hb _].
    destruct Hstep as [<- | [<- | [<- | []]]]; eauto.
  - apply in_option_list in Hflow. rewrite form_flow_cases in Hflow.
    destruct (3 <=? _)%nat; [| discriminate].
    destruct (resolve_submit_button _ _) as [b|] eqn:Hb; [| discriminate].
    destruct (0 <? _)%nat; [| discriminate].
    injection Hflow as <-. cbn [flow_steps] in Hstep.
    apply in_app_or in Hstep as [Hstep | [<- | []]].
    + apply in_map_iff in Hstep as (field & <- & Hfield).
      exists field. split; [| reflexivity].
      apply Hfields. apply list_elem_of_In. apply list_elem_of_In in Hfield.
      exact (subseteq_take 5 _ field Hfield).
    + exists b. split; [| reflexivity]. apply Hbuttons.
      now apply resolve_submit_button_in in Hb.
  - revert Hflow. destruct (links_of elements) as [| l ls] eqn:Hl; intros Hflow;
      [destruct Hflow |].
    destruct Hflow as [<- | []]. cbn [navigation_flow flow_steps] in Hstep.
    apply in_map_iff in Hstep as (link & <- & Hlink).
    exists link. split; [| reflexivity]. apply Hlinks.
    apply list_elem_of_In in Hlink. apply (subseteq_take 5) in Hlink.
    apply list_elem_of_In in Hlink.
    eapply Permutation_in; [apply sorted_by_y_spec | exact Hlink].
Qed.

Lemma steps_target_given_elements_witness :
  exists e,
    In e (Sample.records Sample.login_page)
    /\ "#pw" = css_selector e.
Proof.
  destruct (generate_user_flows (Sample.records Sample.login_page)) as [| flow flows]
    eqn:Hflows; [discriminate Hflows |].
  apply (steps_target_given_elements (Sample.records Sample.login_page) flow
           (input_step "#pw" "secret_sauce" "Enter password")).
  - rewrite Hflows. now left.
  - injection Hflows as <- _. right. left. reflexivity.
Defined.

(** X16.  A login flow takes two different fields: the username field
    never passes the password test, so one lone field, whatever its
    attributes, gives no login flow. *)
Theorem login_needs_two_fields (input_fields buttons : list ElementData) (flow : Flow) :
  _identify_login_flow input_fields buttons = Some flow ->
  (2 <= length input_fields)%nat
  /\ exists u p b,
       In u input_fields /\ In p input_fields /\ u <> p
       /\ password_test u = false /\ password_test p = true
       /\ map step_element (flow_steps flow)
          = [css_selector u; css_selector p; css_selector b].
Proof.
  rewrite login_flow_cases.
  destruct (last_match username_role _) as [u|] eqn:Hu; [| discriminate].
  destruct (last_match password_test _) as [p|] eqn:Hp; [| discriminate].
  destruct (List.find login_button_test _) as [b|]; [| discriminate].
  intros [= <-].
  apply last_match_some in Hu as [Hu Hur]. apply last_match_some in Hp as [Hp Hpr].
  unfold username_role in Hur. apply andb_true_iff in Hur as [Hnot _].
  apply negb_true_iff in Hnot.
  assert (u <> p) as Hne by (intros ->; congruence).
  split.
  - apply in_split in Hu as (l1 & l2 & ->).
    apply in_app_or in Hp as [Hp | [Hp | Hp]]; [| congruence |];
      apply in_split in Hp as (l3 & l4 & ->);
      rewrite !length_app; cbn [length]; rewrite ?length_app; cbn [length]; lia.
  - exists u, p, b. repeat split; assumption.
Qed.

Lemma login_needs_two_fields_witness :
  (2 <= length (input_fields_of (Sample.records Sample.login_page)))%nat.
Proof.
  destruct (_identify_login_flow (input_fields_of (Sample.records Sample.login_page))
              (buttons_of (Sample.records Sample.login_page))) as [flow|] eqn:Hflow;
    [| discriminate Hflow].
  apply (login_needs_two_fields _ _ flow Hflow).
Defined.

End StepFacts.

(** ** The analyzer's result record *)
Section ResultFacts.
Import PyStr EnhancedAnalyzer.

(** X17.  Whatever the browser and the page do, a fresh analyzer returns
    a record whose count is the number of its elements, whose flows are
    the flows of these elements and whose URL is the one asked for; its
    [error] field is set exactly when no browser could be started, so a
    page that fails to load is reported with a missing title and an empty
    HTML text, not as an error. *)
Theorem analysis_result_consistent (web : Selenium.Web) (url : string) :
  exists r,
    fst (analyze_and_generate web __init__ url) = Return r
    /\ elements_count r = length (elements r)
    /\ user_flows r = generate_user_flows (elements r)
    /\ page_url r = url
    /\ (error r = None
        <-> Selenium.chrome_starts web || Selenium.firefox_starts web = true)
    /\ (forall msg,
          Selenium.chrome_starts web || Selenium.firefox_starts web = true ->
          Selenium.fetch web 0 url = Raise msg ->
          error r = None /\ page_title r = None /\ html_content r = EmptyString)
    /\ (forall page,
          Selenium.chrome_starts web || Selenium.firefox_starts web = true ->
          Selenium.fetch web 0 url = Return page ->
          page_title r = Some (Selenium.title page)
          /\ html_content r = Selenium.page_source page
          /\ elements r = find_interactive_elements default_interactive_selectors page).
Proof.
  unfold analyze_and_generate, analyze_body, get_page, setup_driver.
  cbn [driver __init__ with_driver interactive_selectors].
  destruct (Selenium.chrome_starts web || Selenium.firefox_starts web).
  - cbn [driver with_driver Selenium.gets Selenium.fresh_driver interactive_selectors].
    destruct (Selenium.fetch web 0 url) as [page | msg'];
      cbn [driver with_driver interactive_selectors fst Selenium.current];
      eexists; (split; [reflexivity |]);
      cbn [elements_count elements user_flows page_url error page_title html_content
           info_url info_title info_html];
      (split; [reflexivity |]); (split; [reflexivity |]); (split; [reflexivity |]);
      (split; [split; reflexivity |]); split.
    + intros msg _ H. discriminate H.
    + intros page' _ H. injection H as <-. repeat split.
    + intros msg _ _. repeat split.
    + intros page' _ H. discriminate H.
  - cbn [fst]. eexists. split; [reflexivity |].
    cbn [error_result elements_count elements user_flows page_url error].
    split; [reflexivity |]. split; [reflexivity |]. split; [reflexivity |].
    split; [split; discriminate |]. split; intros ? H; discriminate H.
Qed.

Lemma analysis_result_consistent_witness :
  exists r,
    fst (analyze_and_generate Fixture.unreachable __init__ "http://shop.com/") = Return r
    /\ error r = None /\ page_title r = None.
Proof.
  destruct (analysis_result_consistent Fixture.unreachable "http://shop.com/")
    as (r & Hr & _ & _ & _ & _ & Hfail & _).
  exists r. split; [exact Hr |].
  destruct (Hfail _ eq_refl eq_refl) as (He & Ht & _). split; assumption.
Defined.

End ResultFacts.

(** ** Configuration paths *)
Section ConfigFacts.
Import PyConfig.

Lemma split_dots_nonempty (s : string) : split_dots s <> [].
Proof.
  induction s as [| c s IH]; cbn [split_dots]; [discriminate |].
  destruct (Ascii.eqb c "."%char); [discriminate |].
  destruct (split_dots s); discriminate.
Qed.

Lemma descend_set_in (keys : list string) (entries : gmap string value) (v : value) :
  keys <> [] -> descend keys (Dict (set_in entries keys v)) = Some v.
Proof.
  revert entries. induction keys as [| key rest IH]; intros entries Hne; [congruence |].
  destruct rest as [| key' rest].
  - cbn [set_in descend]. now rewrite lookup_insert_eq.
  - cbn [descend]. cbn [set_in]. rewrite lookup_insert_eq.
    apply IH. discriminate.
Qed.

(** X18.  What [set] stores under a path, [get] reads back under the same
    path, whatever was there before and whatever default is offered.
    (Configuration data as a tree: no mapping contains itself.) *)
Theorem get_after_set (config_data updated : value) (key_path : string)
    (v default_value : value) :
  set config_data key_path v = Return updated ->
  get updated key_path default_value = v.
Proof.
  unfold set, get. destruct config_data; try discriminate.
  intros [= <-]. rewrite descend_set_in; [reflexivity | apply split_dots_nonempty].
Qed.

Lemma get_after_set_witness :
  exists updated,
    set Fixture.settings "crawler.wait_time" (Int 5) = Return updated
    /\ get updated "crawler.wait_time" (Int 3) = Int 5.
Proof.
  eexists. split; [reflexivity |].
  apply (get_after_set Fixture.settings _ "crawler.wait_time" (Int 5) (Int 3) eq_refl).
Defined.

Lemma descend_empty (keys : list string) :
  keys <> [] -> descend keys (Dict ∅) = None.
Proof. destruct keys; [congruence |]. intros _. cbn [descend]. now rewrite lookup_empty. Qed.

Lemma descend_set_in_other (common : list string) (k1 k2 : string)
    (rest1 rest2 : list string) (entries : gmap string value) (v : value) :
  k1 <> k2 ->
  descend (common ++ k2 :: rest2) (Dict (set_in entries (common ++ k1 :: rest1) v))
  = descend (common ++ k2 :: rest2) (Dict entries).
Proof.
  intros Hne. revert entries.
  induction common as [| key common IH]; intros entries.
  - cbn [app descend].
    assert (set_in entries (k1 :: rest1) v !! k2 = entries !! k2) as ->; [| reflexivity].
    destruct rest1; cbn [set_in]; now rewrite lookup_insert_ne.
  - cbn [app descend].
    assert (set_in entries (key :: common ++ k1 :: rest1) v
            = <[key := Dict (set_in match entries !! key with
                                    | Some (Dict inner) => inner
                                    | _ => ∅
                                    end (common ++ k1 :: rest1) v)]> entries) as ->.
    { destruct common; reflexivity. }
    rewrite lookup_insert_eq, IH.
    destruct (entries !! key) as [[| | | | | inner] |]; try reflexivity;
      (rewrite descend_empty by now destruct common); now destruct common.
Qed.

(** X20.  On configuration data that is not a mapping, [get] answers the
    default for every path and [set] raises; on a mapping, a path whose
    first key is missing gets the default, and a stored [Null] is
    answered as it is, not replaced by the default. *)
Theorem get_and_set_off_the_map (config_data : value) (key_path : string)
    (v default_value : value) :
  ((forall entries, config_data <> Dict entries) ->
   get config_data key_path default_value = default_value
   /\ exists msg, set config_data key_path v = Raise msg)
  /\ (forall entries key rest,
        split_dots key_path = key :: rest -> entries !! key = None ->
        get (Dict entries) key_path default_value = default_value)
  /\ (forall entries key,
        split_dots key_path = [key] -> entries !! key = Some Null ->
        get (Dict entries) key_path default_value = Null).
Proof.
  split; [| split].
  - intros Hnot. unfold get, set.
    destruct (split_dots key_path) as [| key rest] eqn:Hkeys;
      [now apply split_dots_nonempty in Hkeys |].
    destruct config_data; cbn [descend]; try (split; [reflexivity | eauto]).
    now contradiction (Hnot entries).
  - intros entries key rest Hkeys Hmiss. unfold get. rewrite Hkeys.
    cbn [descend]. now rewrite Hmiss.
  - intros entries key Hkeys Hnull. unfold get. rewrite Hkeys.
    cbn [descend]. now rewrite Hnull.
Qed.

Lemma get_and_set_off_the_map_witness :
  get (Seq [Str "crawler"]) "crawler.max_depth" (Int 2) = Int 2.
Proof.
  apply (proj1 (get_and_set_off_the_map (Seq [Str "crawler"]) "crawler.max_depth"
                  Null (Int 2))).
  discriminate.
Defined.

End ConfigFacts.

(** ** Configuration paths through shared mappings *)
Section SharedMappings.
Import PyObjects.

Lemma items_assign (heap : gmap addr (gmap string value)) (a x : addr) (key k : string) (v : value) :
  items (assign heap a key v) x !! k
  = if decide (x = a /\ k = key) then Some v else items heap x !! k.
Proof.
  unfold assign, items at 1.
  destruct (decide (x = a)) as [-> | Hx].
  - rewrite lookup_insert_eq. cbn [default from_option id].
    destruct (decide (k = key)) as [-> | Hk].
    + rewrite lookup_insert_eq. now rewrite decide_True.
    + rewrite lookup_insert_ne by congruence. rewrite decide_False by tauto. reflexivity.
  - rewrite lookup_insert_ne by congruence. rewrite decide_False by tauto. reflexivity.
Qed.

Lemma items_some_dom (heap : gmap addr (gmap string value)) (a : addr) (key : string) (v : value) :
  items heap a !! key = Some v -> a ∈ dom heap.
Proof.
  unfold items. intros H. apply elem_of_dom.
  destruct (heap !! a); [eauto |]. cbn in H. now rewrite lookup_empty in H.
Qed.

(** The store after [config[key] = {}] at [a]. *)
Lemma items_install (heap : gmap addr (gmap string value)) (a x : addr) (key k : string) :
  let b := fresh ({[a]} ∪ dom heap) in
  b <> a
  /\ (b ∉ dom heap)
  /\ items (<[b := ∅]> (assign heap a key (Ref b))) b = ∅
  /\ (x <> b ->
      items (<[b := ∅]> (assign heap a key (Ref b))) x !! k
      = if decide (x = a /\ k = key) then Some (Ref b) else items heap x !! k).
Proof.
  intros b. pose proof (is_fresh ({[a]} ∪ dom heap)) as Hfresh. fold b in Hfresh.
  assert (b <> a) as Hba by set_solver. assert (b ∉ dom heap) as Hb by set_solver.
  split; [exact Hba |]. split; [exact Hb |]. split.
  - unfold items. now rewrite lookup_insert_eq.
  - intros Hx. rewrite <- items_assign. unfold items at 1.
    now rewrite lookup_insert_ne by congruence.
Qed.

Lemma walk_cons (heap : gmap addr (gmap string value)) (a : addr) (key key' : string)
    (rest : list string) (v : value) :
  walk heap a (key :: key' :: rest) v
  = match items heap a !! key with
    | Some (Ref b) => walk heap b (key' :: rest) v
    | _ =>
        walk (<[fresh ({[a]} ∪ dom heap) := ∅]>
                (assign heap a key (Ref (fresh ({[a]} ∪ dom heap)))))
          (fresh ({[a]} ∪ dom heap)) (key' :: rest) v
    end.
Proof. cbn [walk]. now destruct (items heap a !! key) as [[| | | | | b] |]. Qed.

Lemma descend_cons (heap : gmap addr (gmap string value)) (a : addr) (key : string)
    (rest : list string) :
  descend heap (key :: rest) (Ref a)
  = match items heap a !! key with
    | Some v' => descend heap rest v'
    | None => None
    end.
Proof. reflexivity. Qed.

Lemma target_cell_from_empty (heap : gmap addr (gmap string value)) (b : addr) (keys : list string) :
  items heap b = ∅ -> (target_cell heap b keys).1 = b /\ passed heap b keys = [].
Proof.
  intros Hb. destruct keys as [| key [| key' rest]]; cbn [target_cell passed];
    [now split | now split |].
  rewrite Hb, lookup_empty. now split.
Qed.

(** [set] assigns to one item of the mappings at hand, and to no other. *)
Lemma walk_frame (v : value) (keys : list string) :
  forall (heap : gmap addr (gmap string value)) (a x : addr) (k : string),
    x ∈ dom heap -> (x, k) <> target_cell heap a keys ->
    items (walk heap a keys v) x !! k = items heap x !! k.
Proof.
  induction keys as [| key rest IH]; intros heap a x k Hx Hcell; [reflexivity |].
  destruct rest as [| key' rest].
  - cbn [walk target_cell] in *. rewrite items_assign.
    rewrite decide_False; [reflexivity |]. intros [-> ->]. now apply Hcell.
  - rewrite walk_cons. cbn [target_cell] in Hcell.
    destruct (items heap a !! key) as [[| | | | | b] |] eqn:Hitem;
      try (apply IH; assumption);
      (destruct (items_install heap a x key k) as (Hba & Hb & Hempty & Hother);
       cbv zeta in *;
       rewrite IH;
       [ rewrite Hother by (intros ->; contradiction);
         rewrite decide_False; [reflexivity |]; intros [-> ->]; now apply Hcell
       | apply elem_of_dom; rewrite lookup_insert_ne by (intros <-; contradiction);
         unfold assign;
         destruct (decide (x = a)) as [-> | Hne];
           [rewrite lookup_insert_eq; eauto
           | rewrite lookup_insert_ne by congruence; now apply elem_of_dom]
       | intros Heq;
         destruct (target_cell_from_empty _ _ (key' :: rest) Hempty) as [Hfst _];
         rewrite <- Heq in Hfst; cbn in Hfst; subst x; contradiction ]).
Qed.

(** What [set] stored is read back along the same path, unless the path
    passes, before it gets there, through the very item assigned to. *)
Lemma descend_walk (v : value) (keys : list string) :
  forall (heap : gmap addr (gmap string value)) (a : addr),
    keys <> [] -> target_cell heap a keys ∉ passed heap a keys ->
    descend (walk heap a keys v) keys (Ref a) = Some v.
Proof.
  induction keys as [| key rest IH]; intros heap a Hne Hpassed; [congruence |].
  destruct rest as [| key' rest].
  - cbn [walk descend item]. rewrite items_assign.
    rewrite decide_True by tauto. reflexivity.
  - rewrite walk_cons, descend_cons. cbn [target_cell passed] in Hpassed.
    destruct (items heap a !! key) as [[| | | | | b] |] eqn:Hitem.
    6:{ rewrite walk_frame.
        - rewrite Hitem. apply IH; [discriminate |].
          intros Hin. apply Hpassed. now right.
        - now apply items_some_dom in Hitem.
        - intros Heq. apply Hpassed, elem_of_cons. left. symmetry. exact Heq. }
    all: (destruct (items_install heap a a key key) as (Hba & Hb & Hempty & Hother);
          cbv zeta in *;
          destruct (target_cell_from_empty _ _ (key' :: rest) Hempty) as [Hfst Hnone];
          rewrite walk_frame;
          [ rewrite Hother by congruence; rewrite decide_True by tauto;
            apply IH; [discriminate |]; rewrite Hnone; apply not_elem_of_nil
          | apply elem_of_dom; rewrite lookup_insert_ne by congruence;
            unfold assign; rewrite lookup_insert_eq; eauto
          | intros Heq; rewrite <- Heq in Hfst; cbn in Hfst; congruence ]).
Qed.

Lemma closed_item (heap : gmap addr (gmap string value)) (a b : addr) (key : string) :
  closed heap = true -> items heap a !! key = Some (Ref b) -> b ∈ dom heap.
Proof.
  unfold closed, items. intros Hclosed Hitem.
  destruct (heap !! a) as [d|] eqn:Ha; cbn in Hitem;
    [| now rewrite lookup_empty in Hitem].
  rewrite forallb_forall in Hclosed.
  assert (In (a, d) (map_to_list heap)) as Hin
    by (apply list_elem_of_In, elem_of_map_to_list; exact Ha).
  apply Hclosed in Hin. cbn in Hin. rewrite forallb_forall in Hin.
  assert (In (key, Ref b) (map_to_list d)) as Hin'
    by (apply list_elem_of_In, elem_of_map_to_list; exact Hitem).
  apply Hin in Hin'. cbn in Hin'. now apply bool_decide_eq_true in Hin'.
Qed.

(** A path that looks at no item that changed reads what it read. *)
Lemma descend_frame (heap heap' : gmap addr (gmap string value)) (cell : addr * string) (keys : list string) :
  closed heap = true ->
  (forall x k, x ∈ dom heap -> (x, k) <> cell -> items heap' x !! k = items heap x !! k) ->
  forall v,
    (forall a, v = Ref a -> a ∈ dom heap) ->
    cell ∉ cells_read heap v keys ->
    descend heap' keys v = descend heap keys v.
Proof.
  intros Hclosed Hframe.
  induction keys as [| key rest IH]; intros v Hv Hcells; [reflexivity |].
  cbn [descend]. destruct v as [| | | | | a]; try reflexivity.
  cbn [item cells_read] in *.
  rewrite Hframe; [| now apply Hv | intros <-; apply Hcells; now left].
  destruct (items heap a !! key) as [v'|] eqn:Hitem; [| reflexivity].
  apply IH.
  - intros b ->. now apply (closed_item heap a b key).
  - intros Hin. apply Hcells. now right.
Qed.

(** X19.  On mappings that may be shared or contain themselves: [get]
    reads back what [set] stored under the same path, unless that path
    passes through the item assigned to before it gets there; a path
    that looks at no item that [set] assigned to reads what it read
    before; and when two keys hold one and the same mapping, what is
    written through one of them is read through the other. *)
Theorem set_through_shared_mappings (heap : gmap addr (gmap string value)) (r : addr) (v default_value : value) :
  (forall key_path updated,
      target_cell heap r (PyConfig.split_dots key_path)
        ∉ passed heap r (PyConfig.split_dots key_path) ->
      set heap (Ref r) key_path v = Return updated ->
      get updated (Ref r) key_path default_value = v)
  /\ (forall written read updated,
        closed heap = true -> r ∈ dom heap ->
        target_cell heap r (PyConfig.split_dots written)
          ∉ cells_read heap (Ref r) (PyConfig.split_dots read) ->
        set heap (Ref r) written v = Return updated ->
        get updated (Ref r) read default_value = get heap (Ref r) read default_value)
  /\ (forall written read updated first second last shared,
        PyConfig.split_dots written = [first; last] ->
        PyConfig.split_dots read = [second; last] ->
        items heap r !! first = Some (Ref shared) ->
        items heap r !! second = Some (Ref shared) ->
        shared <> r ->
        set heap (Ref r) written v = Return updated ->
        get updated (Ref r) read default_value = v).
Proof.
  split; [| split].
  - intros key_path updated Hpassed [= <-]. unfold get.
    rewrite descend_walk; [reflexivity | apply split_dots_nonempty | exact Hpassed].
  - intros written read updated Hclosed Hr Hcells [= <-]. unfold get.
    rewrite (descend_frame heap _ (target_cell heap r (PyConfig.split_dots written)));
      [reflexivity | exact Hclosed | | intros a [= <-]; exact Hr | exact Hcells].
    intros x k Hx Hcell. now apply walk_frame.
  - intros written read updated first second last shared Hw Hr Hfirst Hsecond Hne
      [= <-].
    unfold get. rewrite Hw, Hr, walk_cons, Hfirst. cbn [walk].
    rewrite descend_cons, items_assign.
    rewrite decide_False by (intros [? _]; congruence). rewrite Hsecond.
    rewrite descend_cons, items_assign.
    rewrite decide_True by tauto. reflexivity.
Qed.

Lemma set_through_shared_mappings_witness :
  exists updated other,
    set Fixture.aliased (Ref 1%positive) "a.k" (Int 2) = Return updated
    /\ get Fixture.aliased (Ref 1%positive) "b.k" Null = Int 1
    /\ get updated (Ref 1%positive) "b.k" Null = Int 2
    /\ get updated (Ref 1%positive) "a.k" Null = Int 2
    /\ set Fixture.aliased (Ref 1%positive) "a.z" (Int 2) = Return other
    /\ get other (Ref 1%positive) "b.k" Null = Int 1.
Proof.
  eexists. eexists. split; [reflexivity |]. split; [reflexivity |].
  destruct (set_through_shared_mappings Fixture.aliased 1%positive (Int 2) Null)
    as (Hback & Hframe & Hshared).
  split; [| split; [| split; [reflexivity |]]].
  - apply (Hshared "a.k" "b.k" _ "a" "b" "k" 2%positive eq_refl eq_refl eq_refl eq_refl
             ltac:(discriminate) eq_refl).
  - apply (Hback "a.k" _); [| reflexivity].
    intros Hin. apply list_elem_of_In in Hin. vm_compute in Hin.
    destruct Hin as [Hin | []]. discriminate Hin.
  - rewrite (Hframe "a.z" "b.k" _ eq_refl); [reflexivity | | | reflexivity].
    + apply elem_of_dom. eexists. reflexivity.
    + intros Hin. apply list_elem_of_In in Hin. vm_compute in Hin.
      destruct Hin as [Hin | [Hin | []]]; discriminate Hin.
Defined.

End SharedMappings.

(** ** Merging and loading configurations *)
Section MergeFacts.
Import PyConfig.

(** One level of [_merge_dicts]: what the merged mapping holds at a key. *)
Lemma merge_into_lookup (target source : gmap string value) (key : string) :
  merge_into target (Dict source) !! key
  = match source !! key with
    | Some (Dict inner) =>
        match target !! key with
        | Some (Dict old) => Some (Dict (merge_into old (Dict inner)))
        | _ => Some (Dict inner)
        end
    | Some v => Some v
    | None => target !! key
    end.
Proof.
  cbn [merge_into]. revert key.
  apply (map_fold_weak_ind
           (fun (r : gmap string value) (m : gmap string value) =>
              forall key,
                r !! key
                = match m !! key with
                  | Some (Dict inner) =>
                      match target !! key with
                      | Some (Dict old) => Some (Dict (merge_into old (Dict inner)))
                      | _ => Some (Dict inner)
                      end
                  | Some v => Some v
                  | None => target !! key
                  end)).
  - intros key. now rewrite lookup_empty.
  - intros i x m r Hfresh IH key.
    pose proof (IH i) as Hi. rewrite Hfresh in Hi.
    destruct (decide (i = key)) as [-> | Hne].
    + rewrite lookup_insert_eq.
      destruct x as [| | | | | inner]; try now rewrite lookup_insert_eq.
      rewrite Hi.
      destruct (target !! key) as [[| | | | | old] |]; now rewrite lookup_insert_eq.
    + rewrite (lookup_insert_ne m) by assumption. rewrite <- IH.
      destruct x as [| | | | | inner]; try now rewrite lookup_insert_ne.
      destruct (r !! i) as [[| | | | | old] |]; now rewrite lookup_insert_ne.
Qed.

(** Where no key holds a mapping on both sides, [_merge_dicts] never
    calls itself: it assigns each item of the source to the target. *)
Lemma merge_into_flat (target source : gmap string value) :
  (forall key inner old,
      source !! key = Some (Dict inner) -> target !! key = Some (Dict old) -> False) ->
  merge_into target (Dict source) = source ∪ target.
Proof.
  intros Hflat. apply map_eq. intros key.
  rewrite merge_into_lookup, lookup_union.
  destruct (source !! key) as [v|] eqn:Hs.
  - assert (match v with
            | Dict inner =>
                match target !! key with
                | Some (Dict old) => Some (Dict (merge_into old (Dict inner)))
                | _ => Some (Dict inner)
                end
            | _ => Some v
            end = Some v) as ->.
    { destruct v as [| | | | | inner]; try reflexivity.
      destruct (target !! key) as [[| | | | | old] |] eqn:Ht; try reflexivity.
      now destruct (Hflat key inner old). }
    now destruct (target !! key).
  - now destruct (target !! key).
Qed.

(** X21.  Where no key holds a mapping in both the target and the
    source, [_merge_dicts] leaves in the target the items of the source
    and, under the other keys, the items the target had; merging into an
    empty mapping gives the items of the source, and merging an empty
    source changes nothing.  A source that is not a mapping raises, and
    so does a target that is not one when the source has an item. *)
Theorem merge_source_wins (target source : gmap string value) :
  ((forall key inner old,
       source !! key = Some (Dict inner) -> target !! key = Some (Dict old) -> False) ->
   _merge_dicts (Dict target) (Dict source) = Return (Dict (source ∪ target))
   /\ (forall key v, source !! key = Some v -> (source ∪ target) !! key = Some v)
   /\ (forall key, source !! key = None -> (source ∪ target) !! key = target !! key))
  /\ _merge_dicts (Dict ∅) (Dict source) = Return (Dict source)
  /\ _merge_dicts (Dict target) (Dict ∅) = Return (Dict target)
  /\ (forall other,
        (forall entries, other <> Dict entries) ->
        (exists msg, _merge_dicts (Dict target) other = Raise msg)
        /\ _merge_dicts other (Dict ∅) = Return other
        /\ (source <> ∅ -> exists msg, _merge_dicts other (Dict source) = Raise msg)).
Proof.
  split; [| split; [| split]].
  - intros Hflat. cbn [_merge_dicts]. rewrite merge_into_flat by exact Hflat.
    split; [reflexivity |]. split.
    + intros key v Hs. now apply lookup_union_Some_l.
    + intros key Hs. now apply lookup_union_r.
  - cbn [_merge_dicts]. rewrite merge_into_flat.
    + now rewrite (right_id ∅ (∪) source).
    + intros key inner old _ Hold. now rewrite lookup_empty in Hold.
  - cbn [_merge_dicts]. rewrite merge_into_flat.
    + now rewrite (left_id ∅ (∪) target).
    + intros key inner old Hin _. now rewrite lookup_empty in Hin.
  - intros other Hother. split; [| split].
    + destruct other; cbn [_merge_dicts]; eauto. now contradiction (Hother entries).
    + destruct other; cbn [_merge_dicts]; try (rewrite map_size_empty; reflexivity).
      now contradiction (Hother entries).
    + intros Hne. apply map_size_non_empty_iff, Nat.eqb_neq in Hne.
      destruct other; cbn [_merge_dicts]; try (rewrite Hne; eauto).
      now contradiction (Hother entries).
Qed.

Lemma merge_source_wins_witness :
  _merge_dicts (Dict {[ "name" := Str "shop" ]}) Fixture.credentials
  = Return (Dict (Fixture.credentials_map ∪ {[ "name" := Str "shop" ]})).
Proof.
  apply (proj1 (merge_source_wins {[ "name" := Str "shop" ]} Fixture.credentials_map)).
  intros key inner old _ Hold.
  apply lookup_singleton_Some in Hold as [_ Hold]. discriminate Hold.
Defined.

(** X22.  When neither file can be read, every [get] answers its
    default.  When the configuration file is missing, unreadable or
    empty, the configuration is the mapping of the credentials file; when
    the credentials file is missing or unreadable, it is the document of
    the configuration file; and when both files hold mappings without a
    key that holds a mapping in both, the items of the credentials file
    stand over those of the configuration file. *)
Theorem init_defaults_and_override (files : Files) :
  (credentials_file files = None \/ (exists msg, credentials_file files = Some (Raise msg)) ->
   (config_file files = None \/ exists msg, config_file files = Some (Raise msg)) ->
   forall key_path default_value,
     get (__init__ files) key_path default_value = default_value)
  /\ (forall credentials,
        config_file files = None
        \/ (exists msg, config_file files = Some (Raise msg))
        \/ (exists document,
               config_file files = Some (Return document) /\ is_true document = false) ->
        credentials_file files = Some (Return (Dict credentials)) ->
        __init__ files = Dict credentials)
  /\ (forall document,
        credentials_file files = None
        \/ (exists msg, credentials_file files = Some (Raise msg)) ->
        config_file files = Some (Return document) ->
        __init__ files = or_empty document)
  /\ (forall config credentials,
        config_file files = Some (Return (Dict config)) ->
        credentials_file files = Some (Return (Dict credentials)) ->
        (forall key inner old,
            credentials !! key = Some (Dict inner) -> config !! key = Some (Dict old) ->
            False) ->
        __init__ files = Dict (credentials ∪ config)).
Proof.
  assert (forall m : gmap string value, or_empty (Dict m) = Dict m) as Hor.
  { intros m. unfold or_empty. cbn [is_true].
    destruct (Nat.eqb_spec (size m) 0) as [Hz | _]; [| reflexivity].
    apply map_size_empty_iff in Hz. now subst m. }
  split; [| split; [| split]].
  - intros Hcred Hconf key_path default_value. unfold __init__.
    assert (match config_file files with
            | Some (Return document) => or_empty document
            | _ => Dict ∅
            end = Dict ∅) as ->.
    { destruct Hconf as [-> | [msg ->]]; reflexivity. }
    assert (match credentials_file files with
            | Some (Return document) =>
                match _merge_dicts (Dict ∅) (or_empty document) with
                | Return merged => merged
                | Raise _ => Dict ∅
                end
            | _ => Dict ∅
            end = Dict ∅) as ->.
    { destruct Hcred as [-> | [msg ->]]; reflexivity. }
    unfold get. rewrite descend_empty by apply split_dots_nonempty. reflexivity.
  - intros credentials Hconf Hcred. unfold __init__.
    assert (match config_file files with
            | Some (Return document) => or_empty document
            | _ => Dict ∅
            end = Dict ∅) as ->.
    { destruct Hconf as [-> | [[msg ->] | (document & -> & Hfalse)]]; try reflexivity.
      unfold or_empty. now rewrite Hfalse. }
    rewrite Hcred, Hor. cbn [_merge_dicts]. rewrite merge_into_flat.
    + now rewrite (right_id ∅ (∪) credentials).
    + intros key inner old _ Hold. now rewrite lookup_empty in Hold.
  - intros document Hcred Hconf. unfold __init__. rewrite Hconf.
    destruct Hcred as [-> | [msg ->]]; reflexivity.
  - intros config credentials Hconf Hcred Hflat. unfold __init__.
    rewrite Hconf, Hcred, !Hor. cbn [_merge_dicts].
    now rewrite merge_into_flat.
Qed.

Lemma init_defaults_and_override_witness :
  __init__ {| config_file := Some (Raise "yaml.YAMLError");
              credentials_file := Some (Return Fixture.credentials) |}
  = Fixture.credentials.
Proof.
  apply (proj1 (proj2 (init_defaults_and_override
                         {| config_file := Some (Raise "yaml.YAMLError");
                            credentials_file := Some (Return Fixture.credentials) |}))
           Fixture.credentials_map).
  - right. left. eexists. reflexivity.
  - reflexivity.
Defined.

(** X23.  The depth option of the crawl script changes the configuration
    only when it is given and is not zero: [--depth 0] leaves the
    configured depth as it was.  Any other depth is what the crawler then
    reads under [crawler.max_depth], the other settings of the crawler
    being kept. *)
Theorem depth_override (depth : option Z) (config_data : value) :
  (depth = None \/ depth = Some 0 ->
   RunCrawler.override_depth depth config_data = Return config_data)
  /\ (forall n updated default_value,
        depth = Some n -> n <> 0 ->
        RunCrawler.override_depth depth config_data = Return updated ->
        get updated "crawler.max_depth" default_value = Int n
        /\ get updated "crawler.max_pages" default_value
           = get config_data "crawler.max_pages" default_value).
Proof.
  split.
  - intros [-> | ->]; reflexivity.
  - intros n updated default_value -> Hn. unfold RunCrawler.override_depth.
    destruct (Z.eqb_spec n 0) as [| _]; [contradiction |].
    destruct config_data; try discriminate. intros Hset.
    assert (updated = Dict (set_in entries (split_dots "crawler.max_depth") (Int n)))
      as -> by (unfold set in Hset; congruence).
    unfold get. split.
    + rewrite descend_set_in; [reflexivity | apply split_dots_nonempty].
    + change (split_dots "crawler.max_depth") with (["crawler"] ++ "max_depth" :: [])%list.
      change (split_dots "crawler.max_pages") with (["crawler"] ++ "max_pages" :: [])%list.
      rewrite descend_set_in_other; [reflexivity | discriminate].
Qed.

Lemma depth_override_witness :
  RunCrawler.override_depth (Some 0) Fixture.settings = Return Fixture.settings
  /\ get Fixture.settings "crawler.max_depth" Null = Int 2.
Proof.
  split; [| reflexivity].
  apply (proj1 (depth_override (Some 0) Fixture.settings)). now right.
Defined.

End MergeFacts.

(** ** How far the page budget can be overrun *)
Section BudgetFacts.
Import SeleniumCrawler.
Variables (urlparse : UrlLib.Parser) (web : Selenium.Web) (cfg : Config)
  (domain : string).

Ltac fields :=
  cbn [session visited all_elements_data current_depth pages_visited depth_urls get_log
       raised raise_in].

Lemma process_url_counts (st : LoopState) (url : string) :
  pages_visited (process_url urlparse web cfg domain st url) <= pages_visited st + 1
  /\ pages_visited st <= pages_visited (process_url urlparse web cfg domain st url)
  /\ current_depth (process_url urlparse web cfg domain st url) = current_depth st
  /\ forall k, k <> current_depth st + 1 ->
       depth_urls (process_url urlparse web cfg domain st url) !! k = depth_urls st !! k.
Proof.
  unfold process_url.
  destruct (raised st); [repeat split; lia |].
  destruct (bool_decide (url ∈ visited st)); [repeat split; lia |].
  destruct (should_crawl_url urlparse (visited st) domain url) as [[|] | msg];
    [| repeat split; lia | fields; repeat split; lia].
  unfold visit. destruct (Selenium.fetch web _ url) as [page | msg]; fields.
  - split; [lia |]. split; [lia |]. split; [reflexivity |].
    intros k Hk. destruct (Selenium.find_anchors page); [| reflexivity].
    now apply enqueue_links_elsewhere.
  - split; [lia |]. split; [lia |]. split; reflexivity.
Qed.

Lemma level_counts (urls : list string) (st : LoopState) :
  pages_visited (foldl (process_url urlparse web cfg domain) st urls)
  <= pages_visited st + Z.of_nat (length urls)
  /\ current_depth (foldl (process_url urlparse web cfg domain) st urls)
     = current_depth st
  /\ forall k, k <> current_depth st + 1 ->
       depth_urls (foldl (process_url urlparse web cfg domain) st urls) !! k
       = depth_urls st !! k.
Proof.
  revert st. induction urls as [| url urls IH]; intros st; cbn [foldl].
  - cbn [length]. repeat split; lia.
  - destruct (process_url_counts st url) as (Hup & _ & Hcd & Hmap).
    destruct (IH (process_url urlparse web cfg domain st url)) as (Hup' & Hcd' & Hmap').
    rewrite Hcd in *. cbn [length]. split; [lia |]. split; [assumption |].
    intros k Hk. rewrite Hmap' by assumption. now apply Hmap.
Qed.

Lemma crawl_level_counts (st : LoopState) :
  CrawlInvariant.calm urlparse st ->
  pages_visited (crawl_level urlparse web cfg domain st)
  <= pages_visited st + Z.of_nat (length (default [] (depth_urls st !! current_depth st)))
  /\ current_depth (crawl_level urlparse web cfg domain st) = current_depth st + 1
  /\ depth_urls (crawl_level urlparse web cfg domain st) !! current_depth st
     = depth_urls st !! current_depth st.
Proof.
  intros Hcalm.
  destruct (level_end_calm urlparse web cfg domain st Hcalm) as [Hr _].
  destruct (level_counts (default [] (depth_urls st !! current_depth st))
              (level_start st)) as (Hup & Hcd & Hmap).
  unfold crawl_level. cbv zeta. rewrite Hr. fields.
  cbn [level_start current_depth pages_visited depth_urls] in *.
  split; [exact Hup |]. split; [now rewrite Hcd |].
  rewrite Hmap by lia. apply lookup_insert_ne. lia.
Qed.

Lemma crawl_loop_overshoot (fuel : nat) (queue : list string) (st : LoopState) :
  CrawlInvariant.calm urlparse st ->
  pages_visited st = 0
  \/ pages_visited st
     < max_pages cfg
       + Z.of_nat (length (default [] (depth_urls st !! (current_depth st - 1)))) ->
  pages_visited (crawl_loop fuel urlparse web cfg domain queue st) = 0
  \/ pages_visited (crawl_loop fuel urlparse web cfg domain queue st)
     < max_pages cfg
       + Z.of_nat
           (length
              (default []
                 (depth_urls (crawl_loop fuel urlparse web cfg domain queue st)
                  !! (current_depth (crawl_loop fuel urlparse web cfg domain queue st)
                      - 1)))).
Proof.
  revert st. induction fuel as [| fuel IH]; intros st Hcalm Hst; [exact Hst |].
  cbn [crawl_loop]. destruct (loop_test cfg queue st) eqn:Htest; [| exact Hst].
  pose proof (crawl_level_calm urlparse web cfg domain st Hcalm) as Hcalm'.
  destruct Hcalm' as [Hr Hq]. rewrite Hr.
  apply IH; [now split |]. right.
  destruct (crawl_level_counts st Hcalm) as (Hup & Hcd & Hmap).
  rewrite Hcd. replace (current_depth st + 1 - 1) with (current_depth st) by lia.
  rewrite Hmap. unfold loop_test in Htest. destruct queue; [discriminate |].
  apply andb_true_iff in Htest as [Hpages _]. apply Z.ltb_lt in Hpages. lia.
Qed.

End BudgetFacts.

Section BudgetBound.
Import SeleniumCrawler.

(** X24.  The page budget is tested only between depth levels, so it can
    be overrun, but by less than the length of the last level processed:
    at the end either no page was visited, or the number of visited pages
    is below [max_pages] plus the number of URLs queued at that level. *)
Theorem page_budget_overshoot (urlparse : UrlLib.Parser) (web : Selenium.Web)
    (self : Crawler) (start_url : string) (st : LoopState) :
  locals (start_crawl urlparse web self start_url) = Some st ->
  Z.of_nat (size (visited st)) = pages_visited st
  /\ (pages_visited st = 0
      \/ pages_visited st
         < max_pages (config self)
           + Z.of_nat (length (default [] (depth_urls st !! (current_depth st - 1))))).
Proof.
  intros Hrun.
  destruct (crawl_end urlparse web self start_url st Hrun)
    as (domain & Hdom & Hst & (_ & Hcount & _) & _).
  split; [now rewrite Hcount |]. subst st.
  apply crawl_loop_overshoot; [| now left].
  apply initial_state_calm. exact (extract_domain_parses urlparse _ _ Hdom).
Qed.

Lemma page_budget_overshoot_witness :
  exists st,
    locals (start_crawl UrlLib.plain_urlparse Sample.shop (__init__ (Sample.budget 2 1))
              "http://shop.com/")
    = Some st
    /\ pages_visited st = 4
    /\ default [] (depth_urls st !! (current_depth st - 1))
       = ["http://shop.com/a"; "http://shop.com/b"; "http://shop.com/c"].
Proof.
  eexists. split; [reflexivity |].
  destruct (page_budget_overshoot UrlLib.plain_urlparse Sample.shop
              (__init__ (Sample.budget 2 1)) "http://shop.com/" _ eq_refl)
    as [Hcount _].
  split; [rewrite <- Hcount |]; vm_compute; reflexivity.
Defined.

End BudgetBound.
